(** * Automation agent: orchestration core

    A shallow embedding of the orchestration core of the automation agent:
    - [src/database/models.py]: the enumerations and the ledger rows
      ([AutomationAction], [FunctionCall], [OAuthToken]);
    - [src/auth/oauth2.py]: the grant handshake of [OAuth2Manager]
      ([generate_auth_url], [exchange_code_for_tokens]) and the token refresh
      ([refresh_access_token]);
    - [src/core/agent.py]: [execute_command], [_call_llm_with_functions],
      [_execute_function_call], [_analyze_text], [rollback_action] and
      [_build_function_definitions] of [AutomationAgent];
    - [src/auth/oauth2.py], further: [revoke_token], and the passwords,
      sessions and profiles of [UserManager];
    - [src/api/main.py]: [disconnect_service];
    - [src/core/llm_client.py]: what [GenericOpenAIClient] makes of an
      answer of the language model;
    - [src/integrations/slack.py]: [_get_users_info]; and the signatures of
      the adapter methods of [src/integrations/].

    Python exceptions are values of [Exn]; a computation that may raise
    returns a [Result].  Code that reads the clock, calls the language model
    or calls a service adapter runs in the monad [M]: state passing over the
    ledger and the history of external interactions, with the responses of
    the outside world taken from a [World].

    Conventions: a [datetime] is an integer number of microseconds, a
    reading of [time.time()] a rational number of seconds; the handshake
    cache is passed explicitly, with the random nonce and the clock reading
    as arguments; the SQLAlchemy session is a store whose [add] and [commit]
    always succeed.  *)

From Stdlib Require Import ZArith QArith Lia String Ascii List Permutation Sorted.
From stdpp Require Import base option gmap strings list sorting pretty.

#[local] Open Scope Z_scope.
#[local] Open Scope string_scope.

(** ** Python values *)

(** JSON-shaped values: what the language model sends as arguments, what the
    adapters return and what the JSON columns of the ledger hold. *)
#[warnings="-register-all"]
Inductive Json : Type :=
| JNull
| JBool (b : bool)
| JInt (z : Z)
| JStr (s : string)
| JList (l : list Json)
| JDict (d : list (string * Json)).

(** A Python [dict] with string keys, in insertion order. *)
Abbreviation Dict := (list (string * Json)).

(** The exceptions the modelled code raises or catches. *)
Inductive Exn : Type :=
| ValueError (msg : string)
| KeyError (key_repr : string)
| TypeError (msg : string)
| AttributeError (msg : string)
| Exception (msg : string).

(** [str(e)]; a [KeyError] prints the [repr] of its key. *)
Definition str (e : Exn) : string :=
  match e with
  | ValueError m | KeyError m | TypeError m | AttributeError m
  | Exception m => m
  end.

Inductive Result (A : Type) : Type :=
| Ok (a : A)
| Raise (e : Exn).
Arguments Ok {A} a.
Arguments Raise {A} e.


(** [d.get(k)] with its [None] default, [d.get(k, v)], [d[k]] and [k in d]. *)
Fixpoint dict_find (d : Dict) (k : string) : option Json :=
  match d with
  | [] => None
  | (k', v) :: d' => if String.eqb k' k then Some v else dict_find d' k
  end.

Definition dict_get (d : Dict) (k : string) : Json :=
  default JNull (dict_find d k).

Definition dict_get_default (d : Dict) (k : string) (v : Json) : Json :=
  default v (dict_find d k).

Definition dict_item (d : Dict) (k : string) : Result Json :=
  match dict_find d k with
  | Some v => Ok v
  | None => Raise (KeyError ("'" ++ k ++ "'"))
  end.


(** ** The ledger schema ([src/database/models.py]) *)

Inductive ActionStatus : Type :=
| PENDING
| IN_PROGRESS
| COMPLETED
| FAILED
| ROLLED_BACK.

Inductive ServiceType : Type :=
| SLACK
| JIRA
| AWS_S3
| GITHUB
| OPENAI.

#[global] Instance ActionStatus_eq_dec : EqDecision ActionStatus.
Proof. solve_decision. Defined.

#[global] Instance ServiceType_eq_dec : EqDecision ServiceType.
Proof. solve_decision. Defined.

(** The [value] of a [ServiceType] member. *)
Definition service_value (s : ServiceType) : string :=
  match s with
  | SLACK => "slack"
  | JIRA => "jira"
  | AWS_S3 => "aws_s3"
  | GITHUB => "github"
  | OPENAI => "openai"
  end.

Definition service_code (s : ServiceType) : nat :=
  match s with
  | SLACK => 0 | JIRA => 1 | AWS_S3 => 2 | GITHUB => 3 | OPENAI => 4
  end%nat.

Definition service_of_code (n : nat) : option ServiceType :=
  match n with
  | 0 => Some SLACK | 1 => Some JIRA | 2 => Some AWS_S3 | 3 => Some GITHUB
  | 4 => Some OPENAI | _ => None
  end%nat.

#[global] Instance ServiceType_countable : Countable ServiceType.
Proof.
  apply (inj_countable service_code service_of_code).
  intros []; reflexivity.
Defined.

(** A [datetime], counted in microseconds (the resolution of the type). *)
Abbreviation datetime := Z (only parsing).

(** [int((b - a).total_seconds() * 1000)]: whole milliseconds, truncated
    towards zero. *)
Definition millis_between (a b : datetime) : Z := Z.quot (b - a) 1000.

(** What an f-string prints for a JSON value: a string as it is, the other
    scalars as Python spells them, containers with their elements quoted
    (the escaping of quotes inside nested strings is left out). *)
Fixpoint py_repr (v : Json) : string :=
  match v with
  | JNull => "None"
  | JBool true => "True"
  | JBool false => "False"
  | JInt z => pretty z
  | JStr s => "'" ++ s ++ "'"
  | JList l => "[" ++ String.concat ", " (map py_repr l) ++ "]"
  | JDict d =>
      "{" ++ String.concat ", "
               (map (fun kv => "'" ++ fst kv ++ "': " ++ py_repr (snd kv)) d)
          ++ "}"
  end.

Definition py_str (v : Json) : string :=
  match v with
  | JStr s => s
  | _ => py_repr v
  end.

(** Truthiness of a JSON value ([if v:], [bool(v)]). *)
Definition truthy (v : Json) : bool :=
  match v with
  | JNull => false
  | JBool b => b
  | JInt z => negb (Z.eqb z 0)
  | JStr s => negb (String.eqb s "")
  | JList l => match l with [] => false | _ => true end
  | JDict d => match d with [] => false | _ => true end
  end.

(** ** The credential lifecycle ([src/auth/oauth2.py]) *)

Module OAuth2.

(** The client identifiers and secrets that [src/config.py] provides. *)
Record Config : Type := {
  SLACK_CLIENT_ID : string;
  SLACK_CLIENT_SECRET : string;
  JIRA_CLIENT_ID : string;
  JIRA_CLIENT_SECRET : string;
  GITHUB_CLIENT_ID : string;
  GITHUB_CLIENT_SECRET : string
}.

Record ServiceConfig : Type := {
  client_id : string;
  client_secret : string;
  auth_url : string;
  token_url : string;
  scopes : list string
}.

(** [self.oauth_configs], as [__init__] fills it. *)
Definition oauth_configs (config : Config) : gmap string ServiceConfig :=
  <["slack" := {| client_id := SLACK_CLIENT_ID config;
                  client_secret := SLACK_CLIENT_SECRET config;
                  auth_url := "https://slack.com/oauth/v2/authorize";
                  token_url := "https://slack.com/api/oauth.v2.access";
                  scopes := ["chat:write"; "files:write"; "channels:read";
                             "users:read"] |}]>
  (<["jira" := {| client_id := JIRA_CLIENT_ID config;
                  client_secret := JIRA_CLIENT_SECRET config;
                  auth_url := "https://auth.atlassian.com/authorize";
                  token_url := "https://auth.atlassian.com/oauth/token";
                  scopes := ["read:jira-work"; "write:jira-work";
                             "manage:jira-project"] |}]>
  (<["github" := {| client_id := GITHUB_CLIENT_ID config;
                    client_secret := GITHUB_CLIENT_SECRET config;
                    auth_url := "https://github.com/login/oauth/authorize";
                    token_url := "https://github.com/login/oauth/access_token";
                    scopes := ["repo"; "user"; "workflow"] |}]> ∅)).

(** An entry of [self._state_cache]; [timestamp] is a reading of
    [time.time()], in seconds. *)
Record StateData : Type := {
  user_id : Z;
  service : string;
  timestamp : Q
}.

(** The authorization URL before [urlencode] renders it: the endpoint and
    the query parameters in the order the dictionary receives them. *)
Record AuthUrl : Type := {
  endpoint : string;
  params : list (string * string)
}.

(** [params['state']] of an authorization URL. *)
Definition state_param (u : AuthUrl) : option string :=
  snd <$> find (fun kv => String.eqb (fst kv) "state") (params u).

(** The provider's answer to [requests.post] followed by
    [raise_for_status] and [json]: a [requests.RequestException], or the
    decoded JSON object. *)
Inductive HttpOutcome : Type :=
| HttpFails (msg : string)
| HttpJson (tokens : Dict).

(** The token endpoint: the URL and the form fields posted to it. *)
Definition Provider : Type := string -> list (string * string) -> HttpOutcome.

(** The messages of the three handshake errors. *)
Definition InvalidState : Exn := ValueError "Invalid or expired state parameter".
Definition ExpiredState : Exn := ValueError "State parameter has expired".
Definition ServiceMismatch : Exn := ValueError "Service mismatch in state parameter".

Section Manager.

Variable config : Config.

(** [generate_auth_url]; [token_urlsafe] is the value drawn from
    [secrets.token_urlsafe(32)] and [time_time] the clock reading. *)
Definition generate_auth_url (service : string) (user_id : Z)
    (redirect_uri : string) (token_urlsafe : string) (time_time : Q)
    (_state_cache : gmap string StateData)
  : Result AuthUrl * gmap string StateData :=
  match oauth_configs config !! service with
  | None => (Raise (ValueError ("Unsupported service: " ++ service)), _state_cache)
  | Some config_data =>
      let state := token_urlsafe in
      let _state_cache' :=
        <[state := {| user_id := user_id; service := service;
                      timestamp := time_time |}]> _state_cache in
      let params :=
        [("client_id", client_id config_data);
         ("redirect_uri", redirect_uri);
         ("scope", String.concat " " (scopes config_data));
         ("state", state);
         ("response_type", "code")] in
      let params :=
        if String.eqb service "jira" then
          (params ++ [("audience", "api.atlassian.com");
                      ("prompt", "consent")])%list
        else if String.eqb service "github" then
          (params ++ [("allow_signup", "false")])%list
        else params in
      (Ok {| endpoint := auth_url config_data; params := params |},
       _state_cache')
  end.

(** Lines 104-174 of [exchange_code_for_tokens]: the exchange with the
    provider once the state has been verified. *)
Definition exchange_request (post : Provider) (service code redirect_uri : string)
    (state_data : StateData) : Result Dict :=
  match oauth_configs config !! service with
  | None => Raise (KeyError ("'" ++ service ++ "'"))
  | Some config_data =>
      let token_data :=
        [("client_id", client_id config_data);
         ("client_secret", client_secret config_data);
         ("code", code);
         ("redirect_uri", redirect_uri)] in
      let token_data :=
        if String.eqb service "jira" then
          (token_data ++ [("grant_type", "authorization_code")])%list
        else if String.eqb service "github" then
          (token_data ++ [("grant_type", "authorization_code")])%list
        else if String.eqb service "slack" then
          [("client_id", client_id config_data);
           ("client_secret", client_secret config_data);
           ("code", code);
           ("redirect_uri", redirect_uri)]
        else token_data in
      match post (token_url config_data) token_data with
      | HttpFails msg => Raise (ValueError ("Token exchange failed: " ++ msg))
      | HttpJson tokens =>
          match dict_find tokens "error" with
          | Some err =>
              Raise (ValueError
                ("OAuth error: "
                   ++ py_str (dict_get_default tokens "error_description" err)))
          | None =>
              let standardized_tokens :=
                [("access_token", dict_get tokens "access_token");
                 ("refresh_token", dict_get tokens "refresh_token");
                 ("expires_in", dict_get tokens "expires_in");
                 ("token_type", dict_get_default tokens "token_type" (JStr "Bearer"));
                 ("scope", dict_get_default tokens "scope"
                             (JStr (String.concat " " (scopes config_data))));
                 ("service", JStr service);
                 ("user_id", JInt (user_id state_data))] in
              if String.eqb service "slack" then
                match dict_get_default tokens "team" (JDict []) with
                | JDict team =>
                    Ok (standardized_tokens
                          ++ [("team_id", dict_get team "id");
                              ("bot_user_id", dict_get tokens "bot_user_id")])%list
                | _ => Raise (AttributeError "object has no attribute 'get'")
                end
              else if String.eqb service "jira" then
                Ok (standardized_tokens
                      ++ [("resource_url", dict_get tokens "resource_url")])%list
              else Ok standardized_tokens
          end
      end
  end.

(** [exchange_code_for_tokens]; [time_time] is the clock reading of
    line 98. *)
Definition exchange_code_for_tokens (post : Provider)
    (service code state redirect_uri : string) (time_time : Q)
    (_state_cache : gmap string StateData)
  : Result Dict * gmap string StateData :=
  match _state_cache !! state with
  | None => (Raise InvalidState, _state_cache)
  | Some state_data =>
      let _state_cache' := delete state _state_cache in
      if negb (Qle_bool (time_time - timestamp state_data) 300) then
        (Raise ExpiredState, _state_cache')
      else if negb (String.eqb service (OAuth2.service state_data)) then
        (Raise ServiceMismatch, _state_cache')
      else
        (exchange_request post service code redirect_uri state_data,
         _state_cache')
  end.

(** [refresh_access_token]. *)
Definition refresh_access_token (post : Provider) (service refresh_token : string)
  : Result Dict :=
  match oauth_configs config !! service with
  | None => Raise (ValueError ("Unsupported service: " ++ service))
  | Some config_data =>
      let refresh_data :=
        [("client_id", client_id config_data);
         ("client_secret", client_secret config_data);
         ("refresh_token", refresh_token);
         ("grant_type", "refresh_token")] in
      match post (token_url config_data) refresh_data with
      | HttpFails msg => Raise (ValueError ("Token refresh failed: " ++ msg))
      | HttpJson tokens =>
          match dict_find tokens "error" with
          | Some err =>
              Raise (ValueError
                ("Token refresh error: "
                   ++ py_str (dict_get_default tokens "error_description" err)))
          | None =>
              Ok [("access_token", dict_get tokens "access_token");
                  ("refresh_token",
                     dict_get_default tokens "refresh_token" (JStr refresh_token));
                  ("expires_in", dict_get tokens "expires_in");
                  ("token_type", dict_get_default tokens "token_type" (JStr "Bearer"));
                  ("scope", dict_get tokens "scope")]
          end
      end
  end.

End Manager.

End OAuth2.

(** ** Stored credentials *)

Module Credentials.

(** A row of [oauth_tokens] ([OAuthToken] in [src/database/models.py]). *)
Record OAuthToken : Type := {
  user_id : Z;
  service_type : ServiceType;
  access_token : string;
  refresh_token : option string;
  token_type : string;
  expires_at : option datetime;
  scope : option string
}.

(** The credential store: one record per (user, service). *)
Abbreviation Store := (gmap (Z * ServiceType) OAuthToken).

(** The expiry test of [show_connected_services] ([src/cli/main.py]):
    [token.expires_at and token.expires_at <= datetime.utcnow()]. *)
Definition expired (utcnow : datetime) (token : OAuthToken) : bool :=
  match expires_at token with
  | Some t => Z.leb t utcnow
  | None => false
  end.

(** What [get_valid_token] hands to its caller. *)
Inductive TokenOutcome : Type :=
| Token (access_token : string)
| NoCredential.

(** The expiry of a refreshed token: [utcnow + timedelta(seconds=expires_in)]
    when the provider sent a lifetime, no expiry otherwise (the rule of
    [oauth_callback] in [src/api/main.py]). *)
Definition new_expiry (utcnow : datetime) (expires_in : Json) : option datetime :=
  match expires_in with
  | JInt n => if truthy expires_in then Some (utcnow + n * 1000000) else None
  | _ => None
  end.

Definition json_string (v : Json) : option string :=
  match v with
  | JStr s => Some s
  | _ => None
  end.

(** Modelled from the spec: [get_valid_token], which the integrations call
    on [oauth2_manager] and which [OAuth2Manager] in [src/auth/oauth2.py]
    does not define.  It returns the current access token if not expired;
    if expired and a refresh token exists, it refreshes through the
    provider's refresh endpoint ([refresh_access_token]) and persists the
    new token before returning it; if expired with no refresh token, or
    with no record at all, it returns [NoCredential].  A refresh that the
    provider refuses raises, as [refresh_access_token] does, and a refresh
    answer without an access token gives [NoCredential]; both leave the
    store as it was. *)
Definition get_valid_token (config : OAuth2.Config) (post : OAuth2.Provider)
    (utcnow : datetime) (user_id : Z) (service : ServiceType) (store : Store)
  : Result TokenOutcome * Store :=
  match store !! (user_id, service) with
  | None => (Ok NoCredential, store)
  | Some token =>
      if negb (expired utcnow token) then (Ok (Token (access_token token)), store)
      else
        match refresh_token token with
        | None => (Ok NoCredential, store)
        | Some rt =>
            match OAuth2.refresh_access_token config post (service_value service) rt with
            | Raise e => (Raise e, store)
            | Ok refreshed =>
                match dict_get refreshed "access_token" with
                | JStr access =>
                    let token' :=
                      {| user_id := user_id;
                         service_type := service;
                         access_token := access;
                         refresh_token := json_string (dict_get refreshed "refresh_token");
                         token_type :=
                           default (token_type token)
                                   (json_string (dict_get refreshed "token_type"));
                         expires_at := new_expiry utcnow (dict_get refreshed "expires_in");
                         scope :=
                           match json_string (dict_get refreshed "scope") with
                           | Some s => Some s
                           | None => scope token
                           end |} in
                    (Ok (Token access), <[(user_id, service) := token']> store)
                | _ => (Ok NoCredential, store)
                end
            end
        end
  end.

End Credentials.

(** ** Ledger rows *)

Module AutomationAction.

(** A row of [automation_actions].  The columns [services_used], [api_calls]
    and [metadata], which no code path writes, are left out. *)
Record t : Type := mk {
  id : option Z;
  user_id : Z;
  action_type : string;
  command : string;
  status : ActionStatus;
  input_data : option Json;
  output_data : option Dict;
  error_message : option string;
  rollback_data : option Dict;
  can_rollback : bool;
  rolled_back_at : option datetime;
  rollback_reason : option string;
  started_at : datetime;
  completed_at : option datetime;
  duration_ms : option Z
}.

(** [AutomationAction(user_id=..., action_type=..., command=..., status=...,
    input_data=..., started_at=...)]: the other columns take their defaults
    ([can_rollback] defaults to [False]). *)
Definition new (user_id : Z) (action_type command : string) (status : ActionStatus)
    (input_data : Json) (started_at : datetime) : t :=
  mk None user_id action_type command status (Some input_data) None None None
     false None None started_at None None.

Definition set_id v (a : t) : t :=
  let '(mk _ b c d e f g h i j k l m n o) := a in mk v b c d e f g h i j k l m n o.
Definition set_status v (a : t) : t :=
  let '(mk a0 b c d _ f g h i j k l m n o) := a in mk a0 b c d v f g h i j k l m n o.
Definition set_output_data v (a : t) : t :=
  let '(mk a0 b c d e f _ h i j k l m n o) := a in mk a0 b c d e f v h i j k l m n o.
Definition set_error_message v (a : t) : t :=
  let '(mk a0 b c d e f g _ i j k l m n o) := a in mk a0 b c d e f g v i j k l m n o.
Definition set_rollback_data v (a : t) : t :=
  let '(mk a0 b c d e f g h _ j k l m n o) := a in mk a0 b c d e f g h v j k l m n o.
Definition set_rolled_back_at v (a : t) : t :=
  let '(mk a0 b c d e f g h i j _ l m n o) := a in mk a0 b c d e f g h i j v l m n o.
Definition set_rollback_reason v (a : t) : t :=
  let '(mk a0 b c d e f g h i j k _ m n o) := a in mk a0 b c d e f g h i j k v m n o.
Definition set_completed_at v (a : t) : t :=
  let '(mk a0 b c d e f g h i j k l m _ o) := a in mk a0 b c d e f g h i j k l m v o.
Definition set_duration_ms v (a : t) : t :=
  let '(mk a0 b c d e f g h i j k l m n _) := a in mk a0 b c d e f g h i j k l m n v.

End AutomationAction.

Module FunctionCall.

(** A row of [function_calls]. *)
Record t : Type := mk {
  id : option Z;
  automation_action_id : Z;
  function_name : string;
  service_type : option ServiceType;
  parameters : Dict;
  response : option Dict;
  status : ActionStatus;
  error_message : option string;
  called_at : datetime;
  completed_at : option datetime;
  duration_ms : option Z;
  rollback_function : option string;
  rollback_parameters : option Dict
}.

(** [FunctionCall(automation_action_id=..., function_name=...,
    parameters=..., called_at=...)]; [status] defaults to [PENDING]. *)
Definition new (automation_action_id : Z) (function_name : string)
    (parameters : Dict) (called_at : datetime) : t :=
  mk None automation_action_id function_name None parameters None PENDING None
     called_at None None None None.

Definition set_id v (c : t) : t :=
  let '(mk _ b0 c0 d e f g h i j k l m) := c in mk v b0 c0 d e f g h i j k l m.
Definition set_service_type v (c : t) : t :=
  let '(mk a b0 c0 _ e f g h i j k l m) := c in mk a b0 c0 v e f g h i j k l m.
Definition set_response v (c : t) : t :=
  let '(mk a b0 c0 d e _ g h i j k l m) := c in mk a b0 c0 d e v g h i j k l m.
Definition set_status v (c : t) : t :=
  let '(mk a b0 c0 d e f _ h i j k l m) := c in mk a b0 c0 d e f v h i j k l m.
Definition set_error_message v (c : t) : t :=
  let '(mk a b0 c0 d e f g _ i j k l m) := c in mk a b0 c0 d e f g v i j k l m.
Definition set_completed_at v (c : t) : t :=
  let '(mk a b0 c0 d e f g h i _ k l m) := c in mk a b0 c0 d e f g h i v k l m.
Definition set_duration_ms v (c : t) : t :=
  let '(mk a b0 c0 d e f g h i j _ l m) := c in mk a b0 c0 d e f g h i j v l m.
Definition set_rollback_function v (c : t) : t :=
  let '(mk a b0 c0 d e f g h i j k _ m) := c in mk a b0 c0 d e f g h i j k v m.
Definition set_rollback_parameters v (c : t) : t :=
  let '(mk a b0 c0 d e f g h i j k l _) := c in mk a b0 c0 d e f g h i j k l v.

(** The call carries compensating data. *)
Definition has_rollback (c : t) : bool :=
  match rollback_function c with Some _ => true | None => false end.

End FunctionCall.

(** ** The ledger and the outside world *)

(** The two tables the agent writes, with their key sequences.  The session's
    [add] and [commit] are total updates of this store: failures of the
    storage engine (and the constraints it would enforce on a row) are
    outside the model. *)
Record Db : Type := {
  actions : gmap Z AutomationAction.t;
  function_calls : list FunctionCall.t;
  next_action_id : Z;
  next_call_id : Z
}.

Definition empty_db : Db :=
  {| actions := ∅; function_calls := []; next_action_id := 1; next_call_id := 1 |}.

Record Message : Type := {
  role : string;
  content : string
}.

(** An intent: an element of [LLMResponse.function_calls]. *)
Record Intent : Type := {
  name : string;
  arguments : Dict
}.

Module LLMResponse.
Record t : Type := {
  content : string;
  function_calls : list Intent
}.

Definition has_function_calls (r : t) : bool :=
  Nat.ltb 0 (length (function_calls r)).
End LLMResponse.

(** The interactions with the outside world, in the order they happen. *)
Inductive Event : Type :=
| ClockRead
| ChatCompletion (messages : list Message)
| AdapterCall (service : ServiceType) (method : string) (kwargs : Dict).

(** The outside world: what the clock shows, what the language model answers
    and what a service adapter returns (or raises), each given the
    interactions so far. *)
Record World : Type := {
  clock : list Event -> datetime;
  llm : list Event -> list Message -> Result LLMResponse.t;
  adapter : list Event -> ServiceType -> string -> Dict -> Result Dict
}.

(** The state a computation runs in: the local object it mutates, the ledger
    and the history of interactions. *)
Record State (L : Type) : Type := {
  locals : L;
  db : Db;
  history : list Event
}.
Arguments locals {L} s.
Arguments db {L} s.
Arguments history {L} s.

(** Computations that may raise, over a state with locals of type [L]. *)
Definition M (L A : Type) : Type := State L -> Result A * State L.

Definition ret {L A} (a : A) : M L A := fun st => (Ok a, st).

Definition bind {L A B} (m : M L A) (k : A -> M L B) : M L B :=
  fun st =>
    match m st with
    | (Ok a, st') => k a st'
    | (Raise e, st') => (Raise e, st')
    end.

Definition raise {L A} (e : Exn) : M L A := fun st => (Raise e, st).

(** [try: body except Exception as e: handler]. *)
Definition try_except {L A} (body : M L A) (handler : Exn -> M L A) : M L A :=
  fun st =>
    match body st with
    | (Ok a, st') => (Ok a, st')
    | (Raise e, st') => handler e st'
    end.

Definition lift_result {L A} (r : Result A) : M L A := fun st => (r, st).

Definition get_local {L} : M L L := fun st => (Ok (locals st), st).

Definition modify_local {L} (f : L -> L) : M L unit :=
  fun st => (Ok tt, {| locals := f (locals st); db := db st; history := history st |}).

Definition get_db {L} : M L Db := fun st => (Ok (db st), st).

Definition modify_db {L} (f : Db -> Db) : M L unit :=
  fun st => (Ok tt, {| locals := locals st; db := f (db st); history := history st |}).

(** Runs [m] on a fresh local object and drops the object at the end. *)
Definition with_local {L L' A} (l : L') (m : M L' A) : M L A :=
  fun st =>
    let '(r, st') := m {| locals := l; db := db st; history := history st |} in
    (r, {| locals := locals st; db := db st'; history := history st' |}).

#[global] Instance M_ret {L} : MRet (M L) := fun A a => ret a.
#[global] Instance M_bind {L} : MBind (M L) := fun A B k m => bind m k.

(** [results = []; for x in l: results.append(f(x))]. *)
Fixpoint for_each {L A B} (f : A -> M L B) (l : list A) : M L (list B) :=
  match l with
  | [] => ret []
  | x :: l' =>
      y ← f x;
      ys ← for_each f l';
      ret (y :: ys)
  end.

(** ** The agent ([src/core/agent.py]) *)

Record AgentResponse : Type := {
  success : bool;
  message : string;
  data : option Dict;
  action_id : option Z;
  rollback_available : bool
}.

Definition newline : string := String (ascii_of_nat 10) "".

(** [len(v)]; the length of a string is counted in the characters of its
    representation here. *)
Definition py_len (v : Json) : Result Z :=
  match v with
  | JStr s => Ok (Z.of_nat (String.length s))
  | JList l => Ok (Z.of_nat (length l))
  | JDict d => Ok (Z.of_nat (length d))
  | _ => Raise (TypeError "object has no len()")
  end.

Module Agent.

(** [ORDER BY called_at DESC]: a later call comes first. *)
Definition called_at_desc (a b : FunctionCall.t) : Prop :=
  (FunctionCall.called_at b ≤ FunctionCall.called_at a)%Z.

#[global] Instance called_at_desc_dec a b : Decision (called_at_desc a b).
Proof. unfold called_at_desc. apply _. Defined.

#[global] Instance called_at_desc_trans : Transitive called_at_desc.
Proof. intros a b c. unfold called_at_desc. lia. Qed.

#[global] Instance called_at_desc_total : Total called_at_desc.
Proof. intros a b. unfold called_at_desc. lia. Qed.

(** The compensating operation that [_execute_function_call] records for a
    function: the two branches that mark the call as rollback-able. *)
Definition compensating_function (function_name : string) : option string :=
  if String.eqb function_name "create_jira_ticket" then Some "delete_jira_ticket"
  else if String.eqb function_name "upload_to_s3" then Some "delete_s3_object"
  else None.

(** The functions [_execute_function_call] knows. *)
Definition known_functions : list string :=
  ["get_slack_messages"; "create_jira_ticket"; "upload_to_s3";
   "search_github_repos"; "analyze_text"].

Section AutomationAgent.

(** The world the agent runs in, the user it acts for ([self.user_id])
    and the text of the system message (lines 267-279). *)
Variable world : World.
Variable user_id : Z.
Variable system_prompt : string.

(** [datetime.utcnow()]. *)
Definition utcnow {L} : M L datetime :=
  fun st =>
    (Ok (clock world (history st)),
     {| locals := locals st; db := db st;
        history := history st ++ [ClockRead] |}).

(** [await self.llm_client.chat_completion(messages=...)]. *)
Definition chat_completion {L} (messages : list Message) : M L LLMResponse.t :=
  fun st =>
    (llm world (history st) messages,
     {| locals := locals st; db := db st;
        history := history st ++ [ChatCompletion messages] |}).

(** [await integration.method(...)], called with keyword arguments. *)
Definition invoke {L} (service : ServiceType) (method : string) (kwargs : Dict)
  : M L Dict :=
  fun st =>
    (adapter world (history st) service method kwargs,
     {| locals := locals st; db := db st;
        history := history st ++ [AdapterCall service method kwargs] |}).

(** [self.db.add(action); self.db.commit()] and the later
    [self.db.commit()]s on the same object: the row is written under its
    key, which the first commit draws from the sequence. *)
Definition commit_action : M AutomationAction.t unit :=
  fun st =>
    let action := locals st in
    let d := db st in
    match AutomationAction.id action with
    | Some i =>
        (Ok tt,
         {| locals := action;
            db := {| actions := <[i := action]> (actions d);
                     function_calls := function_calls d;
                     next_action_id := next_action_id d;
                     next_call_id := next_call_id d |};
            history := history st |})
    | None =>
        let i := next_action_id d in
        let action' := AutomationAction.set_id (Some i) action in
        (Ok tt,
         {| locals := action';
            db := {| actions := <[i := action']> (actions d);
                     function_calls := function_calls d;
                     next_action_id := i + 1;
                     next_call_id := next_call_id d |};
            history := history st |})
    end.

(** [self.db.add(func_call); self.db.commit()]. *)
Definition commit_call : M FunctionCall.t unit :=
  fun st =>
    let d := db st in
    let i := next_call_id d in
    let func_call := FunctionCall.set_id (Some i) (locals st) in
    (Ok tt,
     {| locals := func_call;
        db := {| actions := actions d;
                 function_calls := function_calls d ++ [func_call];
                 next_action_id := next_action_id d;
                 next_call_id := i + 1 |};
        history := history st |}).

(** The prompts of [_analyze_text]; [prompts.get(analysis_type,
    prompts["summary"])] cannot hash a list or a dictionary. *)
Definition summary_prompt : string :=
  "Provide a concise summary of this text, highlighting the main points.".

Definition prompts_get (analysis_type : Json) : Result string :=
  match analysis_type with
  | JList _ | JDict _ => Raise (TypeError "unhashable type")
  | JStr s =>
      if String.eqb s "sentiment" then
        Ok "Analyze the sentiment of this text. Return positive, negative, or neutral with confidence score."
      else if String.eqb s "keywords" then
        Ok "Extract the key topics and important keywords from this text."
      else if String.eqb s "urgency" then
        Ok "Determine if this text indicates an urgent issue. Look for words like 'outage', 'critical', 'emergency', 'down', etc."
      else Ok summary_prompt
  | _ => Ok summary_prompt
  end.

(** [_analyze_text]. *)
Definition _analyze_text {L} (text analysis_type : Json) : M L Dict :=
  prompt ← lift_result (prompts_get analysis_type);
  response ← chat_completion
    [{| role := "system";
        content := prompt ++ newline ++ newline ++ "Text to analyze: "
                     ++ py_str text |}];
  n ← lift_result (py_len text);
  ret [("analysis_type", analysis_type);
       ("result", JStr (LLMResponse.content response));
       ("original_text_length", JInt n)].

(** Lines 337-386 of [_execute_function_call]: the branch on the function
    name, run on the [func_call] under construction. *)
Definition dispatch (function_name : string) (parameters : Dict)
  : M FunctionCall.t Dict :=
  if String.eqb function_name "get_slack_messages" then
    modify_local (FunctionCall.set_service_type (Some SLACK));;
    channel_name ← lift_result (dict_item parameters "channel_name");
    invoke SLACK "get_messages"
      [("channel_name", channel_name);
       ("limit", dict_get_default parameters "limit" (JInt 50));
       ("unread_only", dict_get_default parameters "unread_only" (JBool false))]
  else if String.eqb function_name "create_jira_ticket" then
    modify_local (FunctionCall.set_service_type (Some JIRA));;
    project_key ← lift_result (dict_item parameters "project_key");
    summary ← lift_result (dict_item parameters "summary");
    description ← lift_result (dict_item parameters "description");
    result ← invoke JIRA "create_ticket"
      [("project_key", project_key);
       ("summary", summary);
       ("description", description);
       ("issue_type", dict_get_default parameters "issue_type" (JStr "Task"));
       ("priority", dict_get_default parameters "priority" (JStr "Medium"));
       ("labels", dict_get_default parameters "labels" (JList []))];
    modify_local (FunctionCall.set_rollback_function (Some "delete_jira_ticket"));;
    modify_local (FunctionCall.set_rollback_parameters
                    (Some [("ticket_key", dict_get result "key")]));;
    ret result
  else if String.eqb function_name "upload_to_s3" then
    modify_local (FunctionCall.set_service_type (Some AWS_S3));;
    content ← lift_result (dict_item parameters "content");
    key ← lift_result (dict_item parameters "key");
    result ← invoke AWS_S3 "upload_content"
      [("content", content);
       ("key", key);
       ("content_type", dict_get_default parameters "content_type" (JStr "text/plain"))];
    modify_local (FunctionCall.set_rollback_function (Some "delete_s3_object"));;
    key' ← lift_result (dict_item parameters "key");
    modify_local (FunctionCall.set_rollback_parameters (Some [("key", key')]));;
    ret result
  else if String.eqb function_name "search_github_repos" then
    modify_local (FunctionCall.set_service_type (Some GITHUB));;
    query ← lift_result (dict_item parameters "query");
    invoke GITHUB "search_repositories"
      [("query", query);
       ("sort", dict_get_default parameters "sort" (JStr "stars"));
       ("order", dict_get_default parameters "order" (JStr "desc"))]
  else if String.eqb function_name "analyze_text" then
    modify_local (FunctionCall.set_service_type None);;
    text ← lift_result (dict_item parameters "text");
    _analyze_text text (dict_get_default parameters "analysis_type" (JStr "summary"))
  else
    raise (ValueError ("Unknown function: " ++ function_name)).

(** The [try] block of [_execute_function_call] (lines 335-404). *)
Definition call_try (function_name : string) (parameters : Dict)
  : M FunctionCall.t Dict :=
  result ← dispatch function_name parameters;
  modify_local (FunctionCall.set_status COMPLETED);;
  modify_local (FunctionCall.set_response (Some result));;
  completed_at ← utcnow;
  modify_local (FunctionCall.set_completed_at (Some completed_at));;
  modify_local (fun func_call =>
    FunctionCall.set_duration_ms
      (Some (millis_between (FunctionCall.called_at func_call) completed_at))
      func_call);;
  commit_call;;
  ret [("function", JStr function_name);
       ("parameters", JDict parameters);
       ("result", JDict result);
       ("status", JStr "success")].

(** The [except] block of [_execute_function_call] (lines 406-420). *)
Definition call_except (function_name : string) (parameters : Dict) (e : Exn)
  : M FunctionCall.t Dict :=
  modify_local (FunctionCall.set_status FAILED);;
  modify_local (FunctionCall.set_error_message (Some (str e)));;
  completed_at ← utcnow;
  modify_local (FunctionCall.set_completed_at (Some completed_at));;
  commit_call;;
  ret [("function", JStr function_name);
       ("parameters", JDict parameters);
       ("error", JStr (str e));
       ("status", JStr "failed")].

(** [_execute_function_call]. *)
Definition _execute_function_call {L} (function_call : Intent) (action_id : Z)
  : M L Dict :=
  let function_name := name function_call in
  let parameters := arguments function_call in
  called_at ← utcnow;
  with_local (FunctionCall.new action_id function_name parameters called_at)
    (try_except (call_try function_name parameters)
                (call_except function_name parameters)).

(** The messages of [_call_llm_with_functions] (lines 264-285). *)
Definition messages (command : string) : list Message :=
  [{| role := "system"; content := system_prompt |};
   {| role := "user"; content := command |}].

(** [_call_llm_with_functions]. *)
Definition _call_llm_with_functions {L} (command : string) (action_id : Z)
  : M L Dict :=
  response ← chat_completion (messages command);
  results ←
    (if LLMResponse.has_function_calls response then
       for_each (fun function_call => _execute_function_call function_call action_id)
                (LLMResponse.function_calls response)
     else ret []);
  match results with
  | [] => ret [("response", JStr (LLMResponse.content response))]
  | _ =>
      ret [("function_results", JList (JDict <$> results));
           ("summary",
              JStr (if String.eqb (LLMResponse.content response) ""
                    then "Functions executed successfully"
                    else LLMResponse.content response))]
  end.

(** [execute_command]. *)
Definition execute_command {L} (command : string) : M L AgentResponse :=
  started_at ← utcnow;
  with_local
    (AutomationAction.new user_id "ai_automation" command IN_PROGRESS
       (JDict [("command", JStr command)]) started_at)
    (commit_action;;
     action ← get_local;
     let action_id := default 0 (AutomationAction.id action) in
     try_except
       (response ← _call_llm_with_functions command action_id;
        modify_local (AutomationAction.set_status COMPLETED);;
        completed_at ← utcnow;
        modify_local (AutomationAction.set_completed_at (Some completed_at));;
        modify_local (fun action =>
          AutomationAction.set_duration_ms
            (Some (millis_between (AutomationAction.started_at action) completed_at))
            action);;
        modify_local (AutomationAction.set_output_data (Some response));;
        commit_action;;
        action ← get_local;
        ret {| success := true;
               message := "Command executed successfully";
               data := Some response;
               action_id := AutomationAction.id action;
               rollback_available := AutomationAction.can_rollback action |})
       (fun e =>
          modify_local (AutomationAction.set_status FAILED);;
          modify_local (AutomationAction.set_error_message (Some (str e)));;
          completed_at ← utcnow;
          modify_local (AutomationAction.set_completed_at (Some completed_at));;
          commit_action;;
          action ← get_local;
          ret {| success := false;
                 message := "Command execution failed: " ++ str e;
                 data := None;
                 action_id := AutomationAction.id action;
                 rollback_available := false |})).

(** [self.db.query(AutomationAction).filter(AutomationAction.id ==
    action_id, AutomationAction.user_id == self.user_id).first()]. *)
Definition query_action (d : Db) (action_id : Z) : option AutomationAction.t :=
  match actions d !! action_id with
  | Some action =>
      if bool_decide (AutomationAction.id action = Some action_id
                      ∧ AutomationAction.user_id action = user_id)
      then Some action else None
  | None => None
  end.

(** [self.db.query(FunctionCall).filter(FunctionCall.automation_action_id
    == action_id, FunctionCall.rollback_function.isnot(None))
    .order_by(FunctionCall.called_at.desc()).all()].  Among rows of equal
    [called_at] the engine is free to choose; the model takes the order
    its sort gives. *)
Definition query_rollback_calls (d : Db) (action_id : Z) : list FunctionCall.t :=
  merge_sort called_at_desc
    (filter (fun c => FunctionCall.automation_action_id c = action_id
                      ∧ is_Some (FunctionCall.rollback_function c))
            (function_calls d)).

(** [self.integrations[service_type]]: the dictionary of [__init__] has
    the four service integrations. *)
Definition integrations (service_type : option ServiceType) : Result ServiceType :=
  match service_type with
  | Some OPENAI => Raise (KeyError "<ServiceType.OPENAI: 'openai'>")
  | Some s => Ok s
  | None => Raise (KeyError "None")
  end.

(** The coroutine methods of the integration classes
    ([src/integrations/]). *)
Definition methods (s : ServiceType) : list string :=
  match s with
  | SLACK => ["get_messages"; "send_message"; "delete_message"; "get_channels";
              "_get_channel_id"; "_enrich_messages"; "_get_users_info"]
  | JIRA => ["create_ticket"; "delete_jira_ticket"]
  | AWS_S3 => ["upload_content"; "delete_s3_object"]
  | GITHUB => ["search_repositories"]
  | OPENAI => []
  end.

(** [getattr(integration, name)]; a name that is no coroutine method of
    the class fails here (in Python some fail one step later, at the
    call: the same handler catches both). *)
Definition getattr (s : ServiceType) (name : option string) : Result string :=
  match name with
  | Some n =>
      if bool_decide (n ∈ methods s) then Ok n
      else Raise (AttributeError ("object has no attribute '" ++ n ++ "'"))
  | None => Raise (TypeError "attribute name must be string, not 'NoneType'")
  end.

(** The keyword arguments of a call [f(...)] that unpacks [kwargs] with
    the double star. *)
Definition unpack (kwargs : option Dict) : Result Dict :=
  match kwargs with
  | Some d => Ok d
  | None => Raise (TypeError "argument after ** must be a mapping, not NoneType")
  end.

Definition json_of_id (i : option Z) : Json :=
  match i with Some z => JInt z | None => JNull end.

Definition json_of_name (n : option string) : Json :=
  match n with Some s => JStr s | None => JNull end.

(** The body of the loop of [rollback_action] (lines 498-514). *)
Definition rollback_call {L} (func_call : FunctionCall.t) : M L Dict :=
  try_except
    (integration ← lift_result (integrations (FunctionCall.service_type func_call));
     rollback_method ←
       lift_result (getattr integration (FunctionCall.rollback_function func_call));
     kwargs ← lift_result (unpack (FunctionCall.rollback_parameters func_call));
     result ← invoke integration rollback_method kwargs;
     ret [("function_call_id", json_of_id (FunctionCall.id func_call));
          ("rollback_function", json_of_name (FunctionCall.rollback_function func_call));
          ("result", JDict result)])
    (fun e =>
       ret [("function_call_id", json_of_id (FunctionCall.id func_call));
            ("rollback_function", json_of_name (FunctionCall.rollback_function func_call));
            ("error", JStr (str e))]).

(** [rollback_action]. *)
Definition rollback_action {L} (action_id : Z) (reason : string)
  : M L AgentResponse :=
  d ← get_db;
  match query_action d action_id with
  | None =>
      ret {| success := false;
             message := "Action not found or access denied";
             data := None; action_id := None; rollback_available := false |}
  | Some action =>
      if negb (AutomationAction.can_rollback action) then
        ret {| success := false;
               message := "Action cannot be rolled back";
               data := None; action_id := None; rollback_available := false |}
      else if bool_decide (AutomationAction.status action = ROLLED_BACK) then
        ret {| success := false;
               message := "Action already rolled back";
               data := None; action_id := None; rollback_available := false |}
      else
        try_except
          (with_local action
             (d ← get_db;
              let function_calls := query_rollback_calls d action_id in
              rollback_results ← for_each rollback_call function_calls;
              modify_local (AutomationAction.set_status ROLLED_BACK);;
              rolled_back_at ← utcnow;
              modify_local (AutomationAction.set_rolled_back_at (Some rolled_back_at));;
              modify_local (AutomationAction.set_rollback_reason (Some reason));;
              modify_local (AutomationAction.set_rollback_data
                              (Some [("results", JList (JDict <$> rollback_results))]));;
              commit_action;;
              ret {| success := true;
                     message := "Action rolled back successfully";
                     data := Some [("rollback_results",
                                      JList (JDict <$> rollback_results))];
                     action_id := Some action_id;
                     rollback_available := false |}))
          (fun e =>
             ret {| success := false;
                    message := "Rollback failed: " ++ str e;
                    data := None;
                    action_id := Some action_id;
                    rollback_available := false |})
  end.

End AutomationAgent.

End Agent.

(** ** Reading the ledger *)

(** The ledger after the rows [rows] have been added to [function_calls]. *)
Definition record_calls (rows : list FunctionCall.t) (d : Db) : Db :=
  {| actions := actions d;
     function_calls := function_calls d ++ rows;
     next_action_id := next_action_id d;
     next_call_id := next_call_id d + Z.of_nat (length rows) |}.

(** The two shapes of an element of [function_results]. *)
Definition success_entry (intent : Intent) (result : Dict) : Dict :=
  [("function", JStr (name intent));
   ("parameters", JDict (arguments intent));
   ("result", JDict result);
   ("status", JStr "success")].

Definition failed_entry (intent : Intent) (msg : string) : Dict :=
  [("function", JStr (name intent));
   ("parameters", JDict (arguments intent));
   ("error", JStr msg);
   ("status", JStr "failed")].

(** How the row and the result entry of one dispatched intent go together:
    a completed call with its response and, for a function that has one, its
    compensating data; or a failed call with its error and no compensating
    data. *)
Inductive call_outcome (intent : Intent) (row : FunctionCall.t) (entry : Dict) : Prop :=
| call_completed (result : Dict) :
    In (name intent) Agent.known_functions ->
    FunctionCall.status row = COMPLETED ->
    FunctionCall.response row = Some result ->
    entry = success_entry intent result ->
    FunctionCall.rollback_function row = Agent.compensating_function (name intent) ->
    (is_Some (FunctionCall.rollback_function row)
     -> is_Some (FunctionCall.rollback_parameters row)) ->
    call_outcome intent row entry
| call_failed (msg : string) :
    FunctionCall.status row = FAILED ->
    FunctionCall.error_message row = Some msg ->
    entry = failed_entry intent msg ->
    FunctionCall.rollback_function row = None ->
    FunctionCall.rollback_parameters row = None ->
    (~ In (name intent) Agent.known_functions
     -> msg = "Unknown function: " ++ name intent) ->
    call_outcome intent row entry.

(** The row of an intent dispatched within the action [action_id]. *)
Definition call_of (action_id : Z) (intent : Intent) (row : FunctionCall.t) : Prop :=
  FunctionCall.automation_action_id row = action_id
  /\ FunctionCall.function_name row = name intent
  /\ FunctionCall.parameters row = arguments intent.

(** The invariant of a call row: a failed call carries no compensating data,
    and a completed call of a function with a compensating operation carries
    that operation and its arguments. *)
Definition call_invariant (row : FunctionCall.t) : Prop :=
  (FunctionCall.status row = FAILED ->
     FunctionCall.rollback_function row = None
     /\ FunctionCall.rollback_parameters row = None)
  /\ (FunctionCall.status row = COMPLETED ->
      forall f, Agent.compensating_function (FunctionCall.function_name row) = Some f ->
        FunctionCall.rollback_function row = Some f
        /\ is_Some (FunctionCall.rollback_parameters row)).

(** The adapter call that compensates a call row, when the row's service,
    rollback function and rollback arguments resolve to one. *)
Definition compensation_request (c : FunctionCall.t)
  : Result (ServiceType * string * Dict) :=
  match Agent.integrations (FunctionCall.service_type c) with
  | Raise e => Raise e
  | Ok integration =>
      match Agent.getattr integration (FunctionCall.rollback_function c) with
      | Raise e => Raise e
      | Ok rollback_method =>
          match Agent.unpack (FunctionCall.rollback_parameters c) with
          | Raise e => Raise e
          | Ok kwargs => Ok (integration, rollback_method, kwargs)
          end
      end
  end.

(** The interactions one compensation attempt adds to the history. *)
Definition compensation_events (c : FunctionCall.t) : list Event :=
  match compensation_request c with
  | Ok (integration, rollback_method, kwargs) =>
      [AdapterCall integration rollback_method kwargs]
  | Raise _ => []
  end.

(** The two shapes of an element of [rollback_results]. *)
Definition compensated_entry (c : FunctionCall.t) (result : Dict) : Dict :=
  [("function_call_id", Agent.json_of_id (FunctionCall.id c));
   ("rollback_function", Agent.json_of_name (FunctionCall.rollback_function c));
   ("result", JDict result)].

Definition uncompensated_entry (c : FunctionCall.t) (msg : string) : Dict :=
  [("function_call_id", Agent.json_of_id (FunctionCall.id c));
   ("rollback_function", Agent.json_of_name (FunctionCall.rollback_function c));
   ("error", JStr msg)].


(** A sequence of call times that decreases strictly. *)
Definition strictly_decreasing (times : list Z) : Prop :=
  StronglySorted (fun a b => (b < a)%Z) times.

(** The action row that [rollback_action] commits. *)
Definition rolled_back (action : AutomationAction.t) (at_time : Z) (reason : string)
    (entries : list Dict) : AutomationAction.t :=
  AutomationAction.set_rollback_data (Some [("results", JList (JDict <$> entries))])
    (AutomationAction.set_rollback_reason (Some reason)
       (AutomationAction.set_rolled_back_at (Some at_time)
          (AutomationAction.set_status ROLLED_BACK action))).

(** An entry of [rollback_results] tells what happened to the compensation of
    its call: the adapter returned, or something raised. *)
Definition attempt_recorded (world : World) (c : FunctionCall.t) (entry : Dict) : Prop :=
  (exists h s m kw result,
      adapter world h s m kw = Ok result /\ entry = compensated_entry c result)
  \/ (exists msg, entry = uncompensated_entry c msg).

(** ** Users and sessions ([UserManager] in [src/auth/oauth2.py]) *)

(** [s.split(sep)] for a separator of one character. *)
Fixpoint py_split (sep : ascii) (s : string) : list string :=
  match s with
  | EmptyString => [EmptyString]
  | String c s' =>
      if Ascii.eqb c sep then EmptyString :: py_split sep s'
      else match py_split sep s' with
           | w :: ws => String c w :: ws
           | [] => [String c EmptyString]
           end
  end.

(** The character [c] occurs in [s]. *)
Fixpoint occurs (c : ascii) (s : string) : bool :=
  match s with
  | EmptyString => false
  | String c' s' => Ascii.eqb c' c || occurs c s'
  end.

(** [bytes.hex()]: two lower-case hexadecimal digits per byte. *)
Definition hex_digit (n : N) : ascii :=
  match n with
  | 0 => "0" | 1 => "1" | 2 => "2" | 3 => "3" | 4 => "4" | 5 => "5" | 6 => "6"
  | 7 => "7" | 8 => "8" | 9 => "9" | 10 => "a" | 11 => "b" | 12 => "c"
  | 13 => "d" | 14 => "e" | _ => "f"
  end%N%char.

Fixpoint hex (bytes : list Byte.byte) : string :=
  match bytes with
  | [] => EmptyString
  | b :: bytes' =>
      String (hex_digit (Byte.to_N b / 16))
        (String (hex_digit (Byte.to_N b mod 16)) (hex bytes'))
  end.

Module UserManager.

(** A row of [users] ([User] in [src/database/models.py]). *)
Record User : Type := mk_user {
  id : Z;
  username : string;
  email : string;
  hashed_password : string;
  is_active : bool;
  is_superuser : bool;
  created_at : option datetime;
  updated_at : option datetime
}.

(** An entry of [self.session_cache]; the two times are readings of
    [time.time()], in seconds. *)
Record SessionData : Type := {
  user_id : Z;
  session_created_at : Q;
  last_activity : Q
}.

Section Passwords.

(** [hashlib.pbkdf2_hmac('sha256', password, salt, 100000)], on the UTF-8
    encodings of the password and the salt. *)
Variable pbkdf2_hmac : string -> string -> list Byte.byte.

(** [hash_password]; [token_hex] is the salt drawn from
    [secrets.token_hex(16)]. *)
Definition hash_password (password token_hex : string) : string :=
  let salt := token_hex in
  salt ++ ":" ++ hex (pbkdf2_hmac password salt).

(** [verify_password]: a stored value that does not split into exactly two
    parts makes the unpacking raise, which the handler turns into [False]. *)
Definition verify_password (password hashed_password : string) : bool :=
  match py_split ":" hashed_password with
  | [salt; hash_hex] => String.eqb (hex (pbkdf2_hmac password salt)) hash_hex
  | _ => false
  end.

End Passwords.

(** [create_session]; [token_urlsafe] is the value drawn from
    [secrets.token_urlsafe(32)], and the two times are the two clock
    readings of the dictionary display. *)
Definition create_session (user_id : Z) (token_urlsafe : string)
    (time_created time_activity : Q) (session_cache : gmap string SessionData)
  : string * gmap string SessionData :=
  let session_token := token_urlsafe in
  (session_token,
   <[session_token := {| user_id := user_id;
                         session_created_at := time_created;
                         last_activity := time_activity |}]> session_cache).

(** [session.query(User).filter(User.id == user_id).first()]. *)
Definition query_user (users : gmap Z User) (user_id : Z) : option User :=
  match users !! user_id with
  | Some user => if bool_decide (id user = user_id) then Some user else None
  | None => None
  end.

(** [get_user_from_session]; [time_check] is the clock reading of the expiry
    test and [time_activity] the one stored as last activity. *)
Definition get_user_from_session (session_token : string)
    (time_check time_activity : Q) (users : gmap Z User)
    (session_cache : gmap string SessionData)
  : option User * gmap string SessionData :=
  match session_cache !! session_token with
  | None => (None, session_cache)
  | Some session_data =>
      if negb (Qle_bool (time_check - session_created_at session_data) 86400) then
        (None, delete session_token session_cache)
      else
        let session_cache' :=
          <[session_token := {| user_id := user_id session_data;
                                session_created_at := session_created_at session_data;
                                last_activity := time_activity |}]> session_cache in
        match query_user users (user_id session_data) with
        | Some user =>
            if is_active user then (Some user, session_cache')
            else (None, delete session_token session_cache')
        | None => (None, delete session_token session_cache')
        end
  end.

(** [invalidate_session]. *)
Definition invalidate_session (session_token : string)
    (session_cache : gmap string SessionData)
  : bool * gmap string SessionData :=
  match session_cache !! session_token with
  | Some _ => (true, delete session_token session_cache)
  | None => (false, session_cache)
  end.

(** A session is past its 24 hours at [current_time]. *)
Definition session_expired (current_time : Q) (data : SessionData) : bool :=
  negb (Qle_bool (current_time - session_created_at data) 86400).

(** [cleanup_expired_sessions]: the tokens of the expired sessions are
    collected in the order the dictionary gives them, then deleted one by
    one. *)
Definition cleanup_expired_sessions (current_time : Q)
    (session_cache : gmap string SessionData) : gmap string SessionData :=
  let expired_tokens :=
    (filter (fun kv => session_expired current_time kv.2 = true)
            (map_to_list session_cache)).*1 in
  foldr delete session_cache expired_tokens.






End UserManager.

(** ** The functions offered to the language model *)

(** [_build_function_definitions] (lines 63-194 of [src/core/agent.py]):
    the list passed as [functions] with every chat completion of
    [_call_llm_with_functions]. *)
Definition _build_function_definitions : list Json :=
  [JDict
    [("name", JStr "get_slack_messages");
     ("description", JStr "Get messages from a Slack channel");
     ("parameters", JDict
        [("type", JStr "object");
         ("properties", JDict
            [("channel_name", JDict
                [("type", JStr "string");
                 ("description", JStr "Name of the Slack channel (with or without #)")]);
             ("limit", JDict
                [("type", JStr "integer");
                 ("description", JStr "Number of messages to retrieve (default: 50)");
                 ("default", JInt 50)]);
             ("unread_only", JDict
                [("type", JStr "boolean");
                 ("description", JStr "Only get unread messages");
                 ("default", JBool false)])]);
         ("required", JList [JStr "channel_name"])])];
   JDict
    [("name", JStr "create_jira_ticket");
     ("description", JStr "Create a new Jira ticket/issue");
     ("parameters", JDict
        [("type", JStr "object");
         ("properties", JDict
            [("project_key", JDict
                [("type", JStr "string");
                 ("description", JStr "Jira project key (e.g., 'PROJ')")]);
             ("summary", JDict
                [("type", JStr "string");
                 ("description", JStr "Brief summary/title of the issue")]);
             ("description", JDict
                [("type", JStr "string");
                 ("description", JStr "Detailed description of the issue")]);
             ("issue_type", JDict
                [("type", JStr "string");
                 ("description", JStr "Type of issue (e.g., Bug, Task, Story)");
                 ("default", JStr "Task")]);
             ("priority", JDict
                [("type", JStr "string");
                 ("description", JStr "Priority level (Highest, High, Medium, Low, Lowest)");
                 ("default", JStr "Medium")]);
             ("labels", JDict
                [("type", JStr "array");
                 ("items", JDict [("type", JStr "string")]);
                 ("description", JStr "Labels to add to the ticket")])]);
         ("required", JList [JStr "project_key"; JStr "summary"; JStr "description"])])];
   JDict
    [("name", JStr "upload_to_s3");
     ("description", JStr "Upload content to AWS S3");
     ("parameters", JDict
        [("type", JStr "object");
         ("properties", JDict
            [("content", JDict
                [("type", JStr "string");
                 ("description", JStr "Content to upload")]);
             ("key", JDict
                [("type", JStr "string");
                 ("description", JStr "S3 object key/path")]);
             ("content_type", JDict
                [("type", JStr "string");
                 ("description", JStr "MIME type of the content");
                 ("default", JStr "text/plain")])]);
         ("required", JList [JStr "content"; JStr "key"])])];
   JDict
    [("name", JStr "search_github_repos");
     ("description", JStr "Search GitHub repositories");
     ("parameters", JDict
        [("type", JStr "object");
         ("properties", JDict
            [("query", JDict [("type", JStr "string"); ("description", JStr "Search query")]);
             ("sort", JDict
                [("type", JStr "string");
                 ("description", JStr "Sort by: stars, forks, updated");
                 ("default", JStr "stars")]);
             ("order", JDict
                [("type", JStr "string");
                 ("description", JStr "Sort order: asc, desc");
                 ("default", JStr "desc")])]);
         ("required", JList [JStr "query"])])];
   JDict
    [("name", JStr "analyze_text");
     ("description", JStr "Analyze text content for sentiment, keywords, or patterns");
     ("parameters", JDict
        [("type", JStr "object");
         ("properties", JDict
            [("text", JDict
                [("type", JStr "string");
                 ("description", JStr "Text content to analyze")]);
             ("analysis_type", JDict
                [("type", JStr "string");
                 ("description", JStr "Type of analysis: sentiment, keywords, urgency, summary");
                 ("default", JStr "summary")])]);
         ("required", JList [JStr "text"])])]].

(** Reading a function definition: its name, its parameters, the required
    ones, and the default it advertises for a parameter. *)
Definition json_dict (v : Json) : Dict :=
  match v with JDict d => d | _ => [] end.






(** ** The signatures of the adapter methods *)

(** The parameters of the methods of the integration classes
    ([src/integrations/]), after [self]: those without a default and those
    with one. *)
Definition signatures : list (ServiceType * string * (list string * list string)) :=
  [(SLACK, "get_messages", (["channel_name"], ["limit"; "unread_only"]));
   (SLACK, "send_message", (["channel_name"; "text"], ["thread_ts"]));
   (SLACK, "delete_message", (["channel_name"; "message_ts"], []));
   (SLACK, "get_channels", ([], []));
   (JIRA, "create_ticket",
      (["project_key"; "summary"; "description"], ["issue_type"; "priority"; "labels"]));
   (JIRA, "delete_jira_ticket", (["ticket_key"], []));
   (AWS_S3, "upload_content", (["content"; "key"], ["content_type"]));
   (AWS_S3, "delete_s3_object", (["key"], []));
   (GITHUB, "search_repositories", (["query"], ["sort"; "order"]))].

Definition signature (service : ServiceType) (method : string)
  : option (list string * list string) :=
  snd <$> List.find (fun entry => bool_decide (entry.1 = (service, method))) signatures.

(** A call with the keyword arguments [kwargs] binds: every parameter
    without a default is given, and every keyword is a parameter. *)
Definition accepts (parameters : list string * list string) (kwargs : Dict) : bool :=
  forallb (fun p => bool_decide (p ∈ kwargs.*1)) parameters.1
  && forallb (fun k => bool_decide (k ∈ parameters.1 ++ parameters.2)%list) kwargs.*1.

Definition accepted (service : ServiceType) (method : string) (kwargs : Dict) : bool :=
  match signature service method with
  | Some parameters => accepts parameters kwargs
  | None => false
  end.

(** ** Reading the trace of a dispatch *)

(** The adapter operations that [_execute_function_call] invokes, by
    function name (lines 337-378 of [src/core/agent.py]). *)
Definition service_calls : list (string * ServiceType * string) :=
  [("get_slack_messages", SLACK, "get_messages");
   ("create_jira_ticket", JIRA, "create_ticket");
   ("upload_to_s3", AWS_S3, "upload_content");
   ("search_github_repos", GITHUB, "search_repositories")].

(** What one dispatched intent asks of the outside world between its two
    clock readings: nothing, one adapter operation of its function, or one
    chat completion when the function is [analyze_text]. *)
Definition external_calls (intent : Intent) (events : list Event) : Prop :=
  events = []
  \/ (exists service method kwargs,
        events = [AdapterCall service method kwargs]
        /\ In (name intent, service, method) service_calls
        /\ accepted service method kwargs = true)
  \/ (exists messages,
        events = [ChatCompletion messages] /\ name intent = "analyze_text").

(** The compensation that a call row carries, if it carries one, resolves to
    an adapter method that takes its keyword arguments. *)
Definition compensation_bound (row : FunctionCall.t) : Prop :=
  is_Some (FunctionCall.rollback_function row) ->
  FunctionCall.status row = COMPLETED
  /\ exists service method kwargs,
       compensation_request row = Ok (service, method, kwargs)
       /\ accepted service method kwargs = true.

(** The times of a call row, for an intent dispatched after the history [h]
    that asked [events] of the outside world: the call time is the clock
    reading before the dispatch, the completion time the one after it, and
    the duration is set on a completed call only. *)
Definition call_traced (world : World) (h : list Event) (intent : Intent)
    (events : list Event) (row : FunctionCall.t) : Prop :=
  FunctionCall.called_at row = clock world h
  /\ FunctionCall.completed_at row = Some (clock world (h ++ ClockRead :: events))
  /\ ((FunctionCall.status row = COMPLETED
       /\ FunctionCall.duration_ms row
          = Some (millis_between (clock world h)
                    (clock world (h ++ ClockRead :: events))))
      \/ (FunctionCall.status row = FAILED
          /\ FunctionCall.duration_ms row = None
          /\ FunctionCall.response row = None))
  /\ external_calls intent events
  /\ compensation_bound row.

Definition is_adapter_call (event : Event) : bool :=
  match event with AdapterCall _ _ _ => true | _ => false end.

(** An adapter operation of the forward direction, called with keyword
    arguments that its method takes. *)
Definition forward_call (event : Event) : Prop :=
  match event with
  | AdapterCall service method kwargs =>
      (exists function_name, In (function_name, service, method) service_calls)
      /\ accepted service method kwargs = true
  | _ => True
  end.


(** The keys of the ledger: every action row sits under its own key, every
    key in use lies below the next one of its sequence, and no two call rows
    share a key. *)
Definition ledger_keys_ok (d : Db) : Prop :=
  (forall i action,
     actions d !! i = Some action ->
     AutomationAction.id action = Some i /\ (i < next_action_id d)%Z)
  /\ Forall (fun row => exists i, FunctionCall.id row = Some i /\ (i < next_call_id d)%Z)
            (function_calls d)
  /\ NoDup (FunctionCall.id <$> function_calls d).

(** The adapter operations among some interactions. *)
Definition adapter_calls (events : list Event) : list Event :=
  List.filter is_adapter_call events.

(** A call row written by a dispatch of one of [intents]. *)
Definition traced_row (world : World) (intents : list Intent) (row : FunctionCall.t)
  : Prop :=
  exists h intent events, In intent intents /\ call_traced world h intent events row.

(** The rows [rows] carry the keys that follow [first]. *)
Definition keyed_from (first : Z) (rows : list FunctionCall.t) : Prop :=
  forall k row, rows !! k = Some row -> FunctionCall.id row = Some (first + Z.of_nat k)%Z.

(** ** Service connections ([revoke_token] in [src/auth/oauth2.py],
    [disconnect_service] in [src/api/main.py]) *)

Module Connections.

(** A request of [revoke_token]: the URL, the headers and the form data of
    [requests.post]. *)
Record Request : Type := {
  url : string;
  headers : list (string * string);
  form : list (string * string)
}.

(** The outside world for [requests.post(...)] followed by
    [response.raise_for_status()]: [true] when a response without an error
    status came back, [false] when a [RequestException] was raised. *)
Definition Http : Type := Request -> bool.

(** [revoke_urls]; GitHub has no revoke endpoint. *)
Definition revoke_urls : list (string * option string) :=
  [("slack", Some "https://slack.com/api/auth.revoke");
   ("jira", Some "https://auth.atlassian.com/oauth/token/revoke");
   ("github", None)].

Fixpoint lookup_url (urls : list (string * option string)) (service : string)
  : option (option string) :=
  match urls with
  | [] => None
  | (k, v) :: urls' => if String.eqb k service then Some v else lookup_url urls' service
  end.

(** [revoke_token]: the answer and the requests that were sent. *)
Definition revoke_token (post : Http) (service token : string)
  : bool * list Request :=
  match lookup_url revoke_urls service with
  | None => (false, [])
  | Some revoke_url =>
      match revoke_url with
      | None => (true, [])
      | Some revoke_url =>
          if String.eqb revoke_url "" then (true, [])
          else
            let request :=
              if String.eqb service "slack" then
                {| url := revoke_url;
                   headers := [("Authorization", "Bearer " ++ token)];
                   form := [] |}
              else
                {| url := revoke_url; headers := []; form := [("token", token)] |} in
            (post request, [request])
      end
  end.

(** A row of the service connections.  The class [ServiceConnection] is
    imported from [src/database/models.py] but not declared there: the
    columns are those that [src/api/main.py] reads and writes. *)
Record ServiceConnection : Type := mk {
  id : Z;
  user_id : Z;
  service_name : string;
  service_user_id : option string;
  access_token : string;
  refresh_token : option string;
  token_expires_at : option datetime;
  service_metadata : option Dict;
  is_active : bool;
  connected_at : option datetime;
  last_used : option datetime
}.

Definition set_is_active (v : bool) (c : ServiceConnection) : ServiceConnection :=
  let '(mk a b c0 d e f g h _ j k) := c in mk a b c0 d e f g h v j k.

(** The filter of the query of [disconnect_service]: the user, the service
    and [is_active == True]. *)
Definition active_connection (current_user : Z) (service : string)
    (c : ServiceConnection) : bool :=
  Z.eqb (user_id c) current_user && String.eqb (service_name c) service && is_active c.

(** [connection.is_active = False; session.commit()] on the row that
    [.first()] returned. *)
Fixpoint deactivate_first (p : ServiceConnection -> bool)
    (connections : list ServiceConnection) : list ServiceConnection :=
  match connections with
  | [] => []
  | c :: connections' =>
      if p c then set_is_active false c :: connections'
      else c :: deactivate_first p connections'
  end.

Record HTTPException : Type := {
  status_code : Z;
  detail : string
}.

(** [disconnect_service], for the user of the session: the exception raised
    or the body returned, the table afterwards and the requests sent.  What
    [revoke_token] answers is dropped, as in the source. *)
Definition disconnect_service (post : Http) (service : string) (current_user : Z)
    (connections : list ServiceConnection)
  : (HTTPException + Dict) * list ServiceConnection * list Request :=
  match List.find (active_connection current_user service) connections with
  | None =>
      (inl {| status_code := 404; detail := "Service connection not found" |},
       connections, [])
  | Some connection =>
      let '(_, requests) := revoke_token post service (access_token connection) in
      (inr [("message", JStr (service ++ " disconnected successfully"))],
       deactivate_first (active_connection current_user service) connections,
       requests)
  end.

(** [UserManager.get_user_services]. *)
Definition get_user_services (user : Z) (connections : list ServiceConnection)
  : list ServiceConnection :=
  List.filter (fun c => Z.eqb (user_id c) user && is_active c) connections.

(** No user has two active connections to one service. *)
Definition one_connection_per_service (connections : list ServiceConnection) : Prop :=
  forall i j ci cj,
    connections !! i = Some ci -> connections !! j = Some cj ->
    is_active ci = true -> is_active cj = true ->
    user_id ci = user_id cj -> service_name ci = service_name cj ->
    i = j.

End Connections.

(** ** The language model client ([src/core/llm_client.py]) *)

Module GenericOpenAIClient.

(** [message.function_call] of the API: the name and the arguments, which
    are a JSON text. *)
Record FunctionCallMessage : Type := {
  function_name : string;
  function_arguments : string
}.

(** [response.choices[0].message]. *)
Record ChatMessage : Type := {
  message_content : option string;
  function_call : option FunctionCallMessage
}.

Definition marker : string := "FUNCTION_CALL:".

(** [s.find(sub)], with [None] for [-1]; [s[n:]] and [s[:n]]. *)
Definition py_find (sub s : string) : option nat := String.index 0 sub s.

Definition slice_from (n : nat) (s : string) : string :=
  String.substring n (String.length s) s.

Definition slice_to (n : nat) (s : string) : string :=
  String.substring 0 n s.

Section Client.

(** [str.strip()] and [json.loads], which raises nothing but its decode
    error on a string. *)
Variable strip : string -> string.
Variable json_loads : string -> Result Json.

(** [_parse_function_calls_from_content]. *)
Definition _parse_function_calls_from_content (content : string) : list Json :=
  match py_find marker content with
  | None => []
  | Some call_start =>
      let call_content := strip (slice_from (call_start + 14) content) in
      if String.prefix "{" call_content then
        match py_find "}" call_content with
        | None => []
        | Some end_brace =>
            let call_json := slice_to (end_brace + 1) call_content in
            match json_loads call_json with
            | Ok parsed => [parsed]
            | Raise _ => []
            end
        end
      else []
  end.

(** What [chat_completion] makes of the answer of the API (lines 89-114):
    the content and the function calls of the [LLMResponse] it returns
    ([usage] is left out).  [create] is the outcome of
    [self.client.chat.completions.create] followed by the access to the
    first choice; an exception is logged and raised again. *)
Definition chat_completion (functions : list Json) (create : Result ChatMessage)
  : Result (string * list Json) :=
  match create with
  | Raise e => Raise e
  | Ok message =>
      let content := default "" (message_content message) in
      match function_call message with
      | Some call =>
          match json_loads (function_arguments call) with
          | Raise e => Raise e
          | Ok arguments =>
              Ok (content,
                  [JDict [("name", JStr (function_name call));
                          ("arguments", arguments)]])
          end
      | None =>
          if negb (Nat.eqb (length functions) 0)
             && bool_decide (is_Some (py_find marker content)) then
            let function_calls := _parse_function_calls_from_content content in
            match function_calls with
            | [] => Ok (content, function_calls)
            | _ =>
                Ok (strip (slice_to (default 0%nat (py_find marker content)) content),
                    function_calls)
            end
          else Ok (content, [])
      end
  end.

End Client.

End GenericOpenAIClient.

(** ** User information from Slack ([_get_users_info] in
    [src/integrations/slack.py]) *)

Module Slack.

(** [v.get(k, d)] on a value that may be no dictionary. *)
Definition py_get (v : Json) (k : string) (d : Json) : Result Json :=
  match v with
  | JDict items => Ok (dict_get_default items k d)
  | _ => Raise (AttributeError "object has no attribute 'get'")
  end.

(** [k in v] and [v[k]] for a dictionary [v]. *)
Definition py_item (v : Json) (k : string) : Result Json :=
  match v with
  | JDict items => dict_item items k
  | _ => Raise (TypeError "indices must be integers")
  end.

(** The keys of a Python dictionary: a list or a dictionary cannot be one,
    and a truth value is the same key as the number it stands for. *)
Definition hashable (key : Json) : bool :=
  match key with JList _ | JDict _ => false | _ => true end.

Definition key_eqb (a b : Json) : bool :=
  match a, b with
  | JNull, JNull => true
  | JStr s, JStr t => String.eqb s t
  | JInt m, JInt n => Z.eqb m n
  | JBool x, JBool y => Bool.eqb x y
  | JBool x, JInt n | JInt n, JBool x => Z.eqb n (if x then 1 else 0)
  | _, _ => false
  end.

(** [user_info[key] = value]. *)
Fixpoint set_item (user_info : list (Json * Dict)) (key : Json) (value : Dict)
  : list (Json * Dict) :=
  match user_info with
  | [] => [(key, value)]
  | (k, v) :: user_info' =>
      if key_eqb k key then (k, value) :: user_info'
      else (k, v) :: set_item user_info' key value
  end.

(** [range(0, n, 50)] and the batch [user_ids[i:i+50]]. *)
Definition batch_starts (n : nat) : list nat :=
  (fun k => k * 50)%nat <$> seq 0 ((n + 49) / 50).

Definition batch (user_ids : list string) (i : nat) : list string :=
  take 50 (drop i user_ids).

Definition batches (user_ids : list string) : list (list string) :=
  batch user_ids <$> batch_starts (length user_ids).

Section UsersInfo.

(** The request to [users.info] with the parameter [users], followed by
    [response.json()]: what comes back, or the exception raised, given the
    parameters of the requests made before. *)
Variable get : list string -> string -> Result Json.

(** Lines 374-380: what one answer adds to [user_info].  The dictionary on
    the right of the assignment is built before the key is looked up. *)
Definition record_user (data : Json) (user_info : list (Json * Dict))
  : Result (list (Json * Dict)) :=
  match py_get data "ok" JNull with
  | Raise e => Raise e
  | Ok ok =>
      if truthy ok && bool_decide (is_Some (dict_find (json_dict data) "user")) then
        let user := dict_get (json_dict data) "user" in
        match py_get user "real_name" (JStr "") with
        | Raise e => Raise e
        | Ok real_name =>
            match py_get user "profile" (JDict []) with
            | Raise e => Raise e
            | Ok profile =>
                match py_get profile "display_name" (JStr "") with
                | Raise e => Raise e
                | Ok display_name =>
                    match py_get profile "email" (JStr "") with
                    | Raise e => Raise e
                    | Ok email =>
                        match py_item user "id" with
                        | Raise e => Raise e
                        | Ok key =>
                            if hashable key then
                              Ok (set_item user_info key
                                    [("real_name", real_name);
                                     ("display_name", display_name);
                                     ("email", email)])
                            else Raise (TypeError "unhashable type")
                        end
                    end
                end
            end
        end
      else Ok user_info
  end.

(** The loop over the batches: the result and the parameters of the
    requests that were made. *)
Fixpoint users_loop (todo : list (list string)) (sent : list string)
    (user_info : list (Json * Dict)) : Result (list (Json * Dict)) * list string :=
  match todo with
  | [] => (Ok user_info, sent)
  | ids :: todo' =>
      let users := String.concat "," ids in
      match get sent users with
      | Raise e => (Raise e, sent ++ [users])%list
      | Ok data =>
          match record_user data user_info with
          | Raise e => (Raise e, sent ++ [users])%list
          | Ok user_info' => users_loop todo' (sent ++ [users])%list user_info'
          end
      end
  end.

(** [_get_users_info]. *)
Definition _get_users_info (user_ids : list string)
  : Result (list (Json * Dict)) * list string :=
  users_loop (batches user_ids) [] [].

End UsersInfo.

End Slack.

(** ** Sample inputs *)

(** A configuration, a provider that accepts every code and a handshake
    state. *)
Definition sample_config : OAuth2.Config :=
  {| OAuth2.SLACK_CLIENT_ID := "slack-id";
     OAuth2.SLACK_CLIENT_SECRET := "slack-secret";
     OAuth2.JIRA_CLIENT_ID := "jira-id";
     OAuth2.JIRA_CLIENT_SECRET := "jira-secret";
     OAuth2.GITHUB_CLIENT_ID := "github-id";
     OAuth2.GITHUB_CLIENT_SECRET := "github-secret" |}.

Definition accepting_provider : OAuth2.Provider :=
  fun _ _ => OAuth2.HttpJson [("access_token", JStr "gho_1"); ("scope", JStr "repo")].

Definition sample_tokens : Dict :=
  [("access_token", JStr "gho_1"); ("refresh_token", JNull); ("expires_in", JNull);
   ("token_type", JStr "Bearer"); ("scope", JStr "repo");
   ("service", JStr "github"); ("user_id", JInt 7)].

Definition sample_state : OAuth2.StateData :=
  {| OAuth2.user_id := 7; OAuth2.service := "github"; OAuth2.timestamp := 1000 |}.

(** A stored Jira credential that expired at time 500, with a refresh token,
    and a provider that answers a refresh with a new token valid for an
    hour. *)
Definition stale_token : Credentials.OAuthToken :=
  {| Credentials.user_id := 7;
     Credentials.service_type := JIRA;
     Credentials.access_token := "old-access";
     Credentials.refresh_token := Some "refresh-1";
     Credentials.token_type := "Bearer";
     Credentials.expires_at := Some 500;
     Credentials.scope := Some "read:jira-work" |}.

Definition refreshing_provider : OAuth2.Provider :=
  fun _ _ => OAuth2.HttpJson [("access_token", JStr "new-access"); ("expires_in", JInt 3600)].

Definition refreshed_answer : Dict :=
  [("access_token", JStr "new-access"); ("refresh_token", JStr "refresh-1");
   ("expires_in", JInt 3600); ("token_type", JStr "Bearer"); ("scope", JNull)].

(** A world in which the language model plans an upload, a call to a function
    the agent does not know, and a ticket; the clock ticks once per
    interaction; the ticket tracker is down and the other adapters answer. *)
Definition sample_plan : list Intent :=
  [{| name := "upload_to_s3";
      arguments := [("content", JStr "report"); ("key", JStr "daily.txt")] |};
   {| name := "send_fax"; arguments := [] |};
   {| name := "create_jira_ticket";
      arguments := [("project_key", JStr "OPS"); ("summary", JStr "s");
                    ("description", JStr "d")] |}].

Definition tick (h : list Event) : Z := Z.of_nat (length h) * 1000000.

Definition sample_world : World :=
  {| clock := tick;
     llm := fun _ _ => Ok {| LLMResponse.content := "";
                             LLMResponse.function_calls := sample_plan |};
     adapter := fun _ s _ _ =>
       match s with
       | JIRA => Raise (Exception "Jira API error: 503 - unavailable")
       | _ => Ok [("ok", JBool true)]
       end |}.

(** A world in which the language model plans one upload and every adapter
    answers. *)
Definition upload_world : World :=
  {| clock := tick;
     llm := fun _ _ =>
       Ok {| LLMResponse.content := "";
             LLMResponse.function_calls :=
               [{| name := "upload_to_s3";
                   arguments := [("content", JStr "report");
                                 ("key", JStr "daily.txt")] |}] |};
     adapter := fun _ _ _ _ => Ok [("ok", JBool true)] |}.

(** A world in which the language model cannot be reached. *)
Definition silent_world : World :=
  {| clock := tick;
     llm := fun _ _ => Raise (Exception "LLM API error");
     adapter := fun _ _ _ _ => Ok [("ok", JBool true)] |}.


Definition initial_state : State unit :=
  {| locals := tt; db := empty_db; history := [] |}.

(** A ledger with a completed action of user 7 that is marked as reversible,
    and three calls of it, made at times 10, 20 and 30, each with
    compensating data. *)
Definition reversible_action : AutomationAction.t :=
  AutomationAction.mk (Some 1) 7 "ai_automation" "file the report" COMPLETED
    (Some (JDict [("command", JStr "file the report")])) (Some []) None None
    true None None 0 (Some 40) (Some 0).

Definition compensable_call (i : Z) (service : ServiceType) (called_at : Z)
    (rollback_function : string) (rollback_parameters : Dict) : FunctionCall.t :=
  FunctionCall.mk (Some i) 1 "upload_to_s3" (Some service) [] (Some []) COMPLETED None
    called_at (Some called_at) (Some 0) (Some rollback_function)
    (Some rollback_parameters).

Definition call_t1 : FunctionCall.t :=
  compensable_call 1 JIRA 10 "delete_jira_ticket" [("ticket_key", JStr "OPS-1")].
Definition call_t2 : FunctionCall.t :=
  compensable_call 2 AWS_S3 20 "delete_s3_object" [("key", JStr "daily.txt")].
Definition call_t3 : FunctionCall.t :=
  compensable_call 3 AWS_S3 30 "delete_s3_object" [("key", JStr "weekly.txt")].

Definition reversible_state : State unit :=
  {| locals := tt;
     db := {| actions := <[1 := reversible_action]> ∅;
              function_calls := [call_t1; call_t2; call_t3];
              next_action_id := 2;
              next_call_id := 4 |};
     history := [] |}.

(** The same action with two calls made at the same time 20. *)
Definition call_tie : FunctionCall.t :=
  compensable_call 3 AWS_S3 20 "delete_s3_object" [("key", JStr "weekly.txt")].

Definition tie_state : State unit :=
  {| locals := tt;
     db := {| actions := <[1 := reversible_action]> ∅;
              function_calls := [call_t2; call_tie];
              next_action_id := 2;
              next_call_id := 4 |};
     history := [] |}.

(** The ledger of the reversible action once it has been rolled back. *)
Definition rolled_back_state : State unit :=
  {| locals := tt;
     db := {| actions :=
                <[1 := AutomationAction.set_status ROLLED_BACK reversible_action]> ∅;
              function_calls := [call_t1; call_t2; call_t3];
              next_action_id := 2;
              next_call_id := 4 |};
     history := [] |}.

(** A user base with an active and a deactivated account, and a session of
    each, created at times 0 and 50000. *)
Definition alice : UserManager.User :=
  UserManager.mk_user 7 "alice" "alice@example.org" "00ff:0a" true false (Some 0) None.

Definition bob : UserManager.User :=
  UserManager.mk_user 8 "bob" "bob@example.org" "00ff:0b" false false (Some 0) None.

Definition sample_users : gmap Z UserManager.User :=
  <[7 := alice]> (<[8 := bob]> ∅).

Definition session_of (user : Z) (created : Q) : UserManager.SessionData :=
  {| UserManager.user_id := user;
     UserManager.session_created_at := created;
     UserManager.last_activity := created |}.

Definition sample_sessions : gmap string UserManager.SessionData :=
  <["tok-alice" := session_of 7 0]> (<["tok-bob" := session_of 8 50000]> ∅).

(** A key derivation that only serves to run the password code: the bytes
    of the password followed by those of the salt. *)
Definition sample_kdf (password salt : string) : list Byte.byte :=
  Ascii.byte_of_ascii <$> list_ascii_of_string (password ++ salt).

(** The connections of user 7 to Slack and GitHub and of user 8 to Slack. *)
Definition connection_of (i user : Z) (service token : string)
  : Connections.ServiceConnection :=
  Connections.mk i user service None token None None None true (Some 0) None.

Definition sample_connections : list Connections.ServiceConnection :=
  [connection_of 1 7 "slack" "xoxb-7"; connection_of 2 8 "slack" "xoxb-8";
   connection_of 3 7 "github" "gho_7"].

(** A provider that refuses every revocation. *)
Definition refusing_http : Connections.Http := fun _ => false.

(** A parser that knows the empty object, and an answer of the language
    model that asks for a call in its text. *)
Definition sample_json_loads (text : string) : Result Json :=
  if String.eqb text "{}" then Ok (JDict []) else Raise (ValueError "Expecting value").

Definition sample_answer : string := "I will do it. FUNCTION_CALL:{}}".

(** A workspace that answers every request for user information with the
    same single user. *)
Definition one_user_answer : list string -> string -> Result Json :=
  fun _ _ =>
    Ok (JDict [("ok", JBool true);
               ("user", JDict [("id", JStr "U1"); ("real_name", JStr "Ada")])]).

(* end of sample inputs *)

(** ** Proof automation *)

(** Unfolds the monadic operations of one dispatched intent. *)
Ltac run_monad :=
  unfold Agent._execute_function_call, Agent.call_try, Agent.call_except,
    Agent.dispatch, Agent._analyze_text, try_except, with_local, Agent.commit_call,
    Agent.utcnow, Agent.invoke, Agent.chat_completion, modify_local, lift_result,
    get_local, mbind, M_bind, bind, mret, M_ret, ret, raise;
  cbn.

(** Turns the successful tests on the function name into equations. *)
Ltac name_cases :=
  repeat match goal with
         | H : String.eqb _ _ = true |- _ => apply String.eqb_eq in H; subst
         end.

(** Finds where an event sits in a short, explicit list of events. *)
Ltac split_events h1 :=
  destruct h1 as [|? [|? [|? [|? [|? h1]]]]]; simplify_eq/=.

(** Membership of an explicit name in an explicit list. *)
Ltac known_name := cbn; repeat (first [left; reflexivity | right]).




(** * Properties *)

#[local] Open Scope list_scope.

(** ** The grant handshake *)

Section Handshake.

Import OAuth2.

Variable config : Config.

Lemma within_window (now t0 : Q) :
  (now - t0 <= 300)%Q -> negb (Qle_bool (now - t0) 300) = false.
Proof.
  intros H. apply Qle_bool_iff in H. rewrite H. reflexivity.
Qed.

Lemma past_window (now t0 : Q) :
  (300 < now - t0)%Q -> negb (Qle_bool (now - t0) 300) = true.
Proof.
  intros H. destruct (Qle_bool (now - t0) 300) eqn:E; [|reflexivity].
  apply Qle_bool_iff in E. exfalso. exact (Qlt_not_le _ _ H E).
Qed.

(** A state that is not in the cache is refused, and the cache stays as
    it is. *)
Lemma exchange_unknown_state post service code state redirect_uri now
    (cache : gmap string StateData) :
  cache !! state = None ->
  exchange_code_for_tokens config post service code state redirect_uri now cache
  = (Raise InvalidState, cache).
Proof.
  intros H. unfold exchange_code_for_tokens. rewrite H. reflexivity.
Qed.

(** Whatever the outcome, the cache left by [exchange_code_for_tokens] no
    longer has the state it was called with. *)
Lemma exchange_consumes post service code state redirect_uri now
    (cache : gmap string StateData) :
  (exchange_code_for_tokens config post service code state redirect_uri now cache).2
    !! state = None.
Proof.
  unfold exchange_code_for_tokens.
  destruct (cache !! state) as [sd|] eqn:E; [|exact E].
  destruct (negb (Qle_bool _ _)); [apply lookup_delete_eq|].
  destruct (negb (String.eqb _ _)); apply lookup_delete_eq.
Qed.

(** What [generate_auth_url] leaves behind when it succeeds. *)
Lemma generate_auth_url_ok service user redirect_uri nonce t0
    (cache cache1 : gmap string StateData) url :
  generate_auth_url config service user redirect_uri nonce t0 cache = (Ok url, cache1) ->
  cache1 = <[nonce := {| user_id := user; service := service; timestamp := t0 |}]> cache
  /\ state_param url = Some nonce.
Proof.
  unfold generate_auth_url.
  destruct (oauth_configs config !! service) as [cd|]; [|discriminate].
  intros H. injection H as Hurl Hcache. subst. split; [reflexivity|].
  unfold state_param.
  destruct (String.eqb service "jira"); [reflexivity|].
  destruct (String.eqb service "github"); reflexivity.
Qed.

(** C7.  A nonce issued by [generate_auth_url] is good for one
    [exchange_code_for_tokens]: with the matching nonce, the service the
    nonce was issued for and a clock reading inside the five-minute window,
    the handshake passes and the call returns what the exchange with the
    provider gives, here the tokens; the nonce is then gone from the
    cache, and every later call with it raises the invalid-state error.
    The nonce is consumed by its first use whatever the outcome of that
    use: after any first call, any second call with the same nonce raises
    the invalid-state error. *)
Theorem complete_grant_single_use
    (service redirect_uri nonce code : string) (user : Z) (t0 now : Q)
    (cache cache1 : gmap string StateData) (url : AuthUrl)
    (post : Provider) (tokens : Dict) :
  generate_auth_url config service user redirect_uri nonce t0 cache = (Ok url, cache1) ->
  (now - t0 <= 300)%Q ->
  exchange_request config post service code redirect_uri
    {| user_id := user; service := service; timestamp := t0 |} = Ok tokens ->
  state_param url = Some nonce
  /\ (exists cache2,
        exchange_code_for_tokens config post service code nonce redirect_uri now cache1
        = (Ok tokens, cache2)
        /\ cache2 !! nonce = None
        /\ forall post' service' code' redirect_uri' now',
             exchange_code_for_tokens config post' service' code' nonce redirect_uri'
               now' cache2
             = (Raise InvalidState, cache2))
  /\ (forall post1 service1 code1 redirect_uri1 now1 r1 cache',
        exchange_code_for_tokens config post1 service1 code1 nonce redirect_uri1
          now1 cache1 = (r1, cache') ->
        cache' !! nonce = None
        /\ forall post2 service2 code2 redirect_uri2 now2,
             exchange_code_for_tokens config post2 service2 code2 nonce redirect_uri2
               now2 cache'
             = (Raise InvalidState, cache')).
Proof.
  intros Hgen Hwin Hreq.
  apply generate_auth_url_ok in Hgen as [-> Hstate].
  split; [exact Hstate|]. split.
  - exists (delete nonce (<[nonce := {| user_id := user; service := service;
                                        timestamp := t0 |}]> cache)).
    split; [|split].
    + unfold exchange_code_for_tokens. rewrite lookup_insert_eq. cbn.
      rewrite (within_window _ _ Hwin), String.eqb_refl. cbn.
      rewrite Hreq. reflexivity.
    + apply lookup_delete_eq.
    + intros. apply exchange_unknown_state, lookup_delete_eq.
  - intros post1 service1 code1 redirect_uri1 now1 r1 cache' H1.
    assert (Hgone : cache' !! nonce = None).
    { pose proof (exchange_consumes post1 service1 code1 nonce redirect_uri1
                    now1 (<[nonce := {| user_id := user; service := service;
                                        timestamp := t0 |}]> cache)) as Hc.
      rewrite H1 in Hc. exact Hc. }
    split; [exact Hgone|].
    intros. apply exchange_unknown_state, Hgone.
Qed.

(** C8.  A nonce whose state is older than five minutes makes
    [exchange_code_for_tokens] raise the expired-state error, and that
    attempt removes the state from the cache: any later call with the same
    nonce, whatever its code, service or clock reading, raises the
    invalid-state error. *)
Theorem expired_nonce_is_destroyed
    (service redirect_uri nonce code : string) (now : Q)
    (cache : gmap string StateData) (state_data : StateData) (post : Provider) :
  cache !! nonce = Some state_data ->
  (300 < now - timestamp state_data)%Q ->
  exchange_code_for_tokens config post service code nonce redirect_uri now cache
  = (Raise ExpiredState, delete nonce cache)
  /\ delete nonce cache !! nonce = None
  /\ forall post' service' code' redirect_uri' now',
       exchange_code_for_tokens config post' service' code' nonce redirect_uri' now'
         (delete nonce cache)
       = (Raise InvalidState, delete nonce cache).
Proof.
  intros Hin Hold. split; [|split].
  - unfold exchange_code_for_tokens. rewrite Hin.
    rewrite (past_window _ _ Hold). reflexivity.
  - apply lookup_delete_eq.
  - intros. apply exchange_unknown_state, lookup_delete_eq.
Qed.

End Handshake.

Lemma complete_grant_single_use_witness :
  exists cache2,
    OAuth2.exchange_code_for_tokens sample_config accepting_provider
      "github" "code-1" "nonce-1" "https://app/cb" 1060
      (<["nonce-1" := sample_state]> ∅)
    = (Ok sample_tokens, cache2)
    /\ cache2 !! "nonce-1" = None.
Proof.
  destruct (complete_grant_single_use sample_config
              "github" "https://app/cb" "nonce-1" "code-1" 7 1000 1060 ∅
              (<["nonce-1" := sample_state]> ∅)
              {| OAuth2.endpoint := "https://github.com/login/oauth/authorize";
                 OAuth2.params :=
                   [("client_id", "github-id"); ("redirect_uri", "https://app/cb");
                    ("scope", "repo user workflow"); ("state", "nonce-1");
                    ("response_type", "code"); ("allow_signup", "false")] |}
              accepting_provider sample_tokens)
    as (_ & (cache2 & H1 & H2 & _) & _).
  - reflexivity.
  - unfold Qle. simpl. lia.
  - reflexivity.
  - exists cache2. split; [exact H1 | exact H2].
Defined.

Lemma expired_nonce_is_destroyed_witness :
  OAuth2.exchange_code_for_tokens sample_config accepting_provider
    "github" "code-1" "nonce-1" "https://app/cb" 1301
    (<["nonce-1" := sample_state]> ∅)
  = (Raise OAuth2.ExpiredState, delete "nonce-1" (<["nonce-1" := sample_state]> ∅)).
Proof.
  apply (expired_nonce_is_destroyed sample_config "github" "https://app/cb" "nonce-1"
           "code-1" 1301 (<["nonce-1" := sample_state]> ∅) sample_state
           accepting_provider).
  - reflexivity.
  - unfold Qlt. simpl. lia.
Defined.

(** ** Serving valid tokens *)

Section ValidToken.

Import Credentials.

Variable config : OAuth2.Config.
Variable post : OAuth2.Provider.

(** A lifetime the provider sends as a positive number of seconds gives an
    expiry after the time of the refresh. *)
Lemma new_expiry_positive (utcnow n : Z) :
  0 < n -> new_expiry utcnow (JInt n) = Some (utcnow + n * 1000000).
Proof.
  intros Hn. unfold new_expiry, truthy.
  destruct (Z.eqb_spec n 0) as [->|_]; [lia|reflexivity].
Qed.

(** C1.  [get_valid_token] on the record stored for a (user, service)
    pair: a record that is not expired gives its access token and leaves
    the store as it is; an expired record with a refresh token is refreshed
    through [refresh_access_token], the new access token is stored under
    the same pair (no other pair changes) and returned, and the stored
    record is not expired when the provider sent a positive lifetime; an
    expired record without a refresh token gives [NoCredential]. *)
Theorem get_valid_token_cases
    (utcnow : Z) (user : Z) (service : ServiceType) (store : Store)
    (token : OAuthToken) :
  store !! (user, service) = Some token ->
  (expired utcnow token = false ->
     get_valid_token config post utcnow user service store
     = (Ok (Token (access_token token)), store))
  /\ (forall rt refreshed access,
        expired utcnow token = true ->
        refresh_token token = Some rt ->
        OAuth2.refresh_access_token config post (service_value service) rt
          = Ok refreshed ->
        dict_get refreshed "access_token" = JStr access ->
        exists store' token',
          get_valid_token config post utcnow user service store
            = (Ok (Token access), store')
          /\ store' !! (user, service) = Some token'
          /\ access_token token' = access
          /\ (forall n, dict_get refreshed "expires_in" = JInt n -> 0 < n ->
                expired utcnow token' = false)
          /\ (forall k, k ≠ (user, service) -> store' !! k = store !! k))
  /\ (expired utcnow token = true ->
      refresh_token token = None ->
      get_valid_token config post utcnow user service store
      = (Ok NoCredential, store)).
Proof.
  intros Hstored. unfold get_valid_token. rewrite Hstored.
  split; [|split].
  - intros ->. reflexivity.
  - intros rt refreshed access -> -> -> ->. cbn.
    eexists _, _. split; [reflexivity|].
    split; [apply lookup_insert_eq|].
    split; [reflexivity|]. split.
    + intros n -> Hn. unfold expired. cbn [expires_at].
      rewrite (new_expiry_positive _ _ Hn).
      apply Z.leb_gt. lia.
    + intros k Hk. apply lookup_insert_ne. congruence.
  - intros -> ->. reflexivity.
Qed.

End ValidToken.

Lemma get_valid_token_cases_witness :
  exists store',
    Credentials.get_valid_token sample_config refreshing_provider 1000 7 JIRA
      (<[(7, JIRA) := stale_token]> ∅)
    = (Ok (Credentials.Token "new-access"), store')
    /\ (Credentials.access_token <$> store' !! (7, JIRA)) = Some "new-access".
Proof.
  destruct (get_valid_token_cases sample_config refreshing_provider 1000 7 JIRA
              (<[(7, JIRA) := stale_token]> ∅) stale_token)
    as (_ & Hrefresh & _).
  - reflexivity.
  - destruct (Hrefresh "refresh-1" refreshed_answer "new-access")
      as (store' & token' & Hrun & Hget & Hacc & _).
    + reflexivity.
    + reflexivity.
    + reflexivity.
    + reflexivity.
    + exists store'. split; [exact Hrun|]. rewrite Hget. cbn. congruence.
Defined.

(** ** The agent *)

Section AgentProperties.

Import Agent.

Variable world : World.
Variable user_id : Z.
Variable system_prompt : string.

Lemma run_bind_ok {L A B} (m : M L A) (k : A -> M L B) st a st' :
  m st = (Ok a, st') -> (m ≫= k) st = k a st'.
Proof. intros H. unfold mbind, M_bind, bind. rewrite H. reflexivity. Qed.

Lemma run_bind_raise {L A B} (m : M L A) (k : A -> M L B) st e st' :
  m st = (Raise e, st') -> (m ≫= k) st = (Raise e, st').
Proof. intros H. unfold mbind, M_bind, bind. rewrite H. reflexivity. Qed.

(** *** Dispatching intents *)

(** One intent: [_execute_function_call] returns (it never raises), adds
    exactly one row, and the row and the returned entry tell the same
    outcome.  A call to an adapter or to the language model that raises
    during the intent makes the row a failed one. *)
Lemma execute_function_call_run {L} (intent : Intent) (action_id : Z) (st : State L) :
  exists entry row events,
    _execute_function_call world intent action_id st
    = (Ok entry, {| locals := locals st; db := record_calls [row] (db st);
                    history := history st ++ events |})
    /\ FunctionCall.id row = Some (next_call_id (db st))
    /\ call_of action_id intent row
    /\ call_outcome intent row entry
    /\ (forall h1 s m kw h2 e,
          events = h1 ++ AdapterCall s m kw :: h2 ->
          adapter world (history st ++ h1) s m kw = Raise e ->
          FunctionCall.status row = FAILED
          /\ FunctionCall.error_message row = Some (str e))
    /\ (forall h1 msgs h2 e,
          events = h1 ++ ChatCompletion msgs :: h2 ->
          llm world (history st ++ h1) msgs = Raise e ->
          FunctionCall.status row = FAILED
          /\ FunctionCall.error_message row = Some (str e)).
Proof.
  destruct intent as [fname params], st as [l d h].
  run_monad.
  repeat case_match; simplify_eq/=; name_cases.
  all: rewrite <- ?(assoc_L (++)); cbn.
  all: eexists _, _, _; split; [reflexivity|]; cbn.
  all: split; [reflexivity|]; split; [repeat split|].
  all: split; [|split; intros h1; intros; split_events h1; try (split; congruence)].
  all: first
    [ solve [ eapply call_completed; cbn;
              [ known_name | reflexivity | reflexivity | reflexivity | reflexivity
              | intros Hs; first [ eexists; reflexivity | destruct Hs; discriminate ] ] ]
    | solve [ eapply call_failed; cbn;
              [ reflexivity | reflexivity | reflexivity | reflexivity | reflexivity
              | first [ intros _; reflexivity
                      | intros Hn; exfalso; apply Hn; known_name ] ] ] ].
Qed.

Lemma record_calls_app (rows1 rows2 : list FunctionCall.t) (d : Db) :
  record_calls rows2 (record_calls rows1 d) = record_calls (rows1 ++ rows2) d.
Proof.
  unfold record_calls. cbn. f_equal.
  - symmetry. apply (assoc_L (++)).
  - rewrite length_app. lia.
Qed.

Lemma record_calls_nil (d : Db) : record_calls [] d = d.
Proof.
  destruct d. unfold record_calls. cbn. f_equal.
  - apply app_nil_r.
  - lia.
Qed.

(** A list of intents: every intent is dispatched, in order, whatever the
    outcome of the ones before it. *)
Lemma dispatch_all_run {L} (intents : list Intent) (action_id : Z) (st : State L) :
  exists entries rows events,
    for_each (fun function_call => _execute_function_call world function_call action_id)
             intents st
    = (Ok entries, {| locals := locals st; db := record_calls rows (db st);
                      history := history st ++ events |})
    /\ Forall3 (fun intent row entry =>
                  call_of action_id intent row /\ call_outcome intent row entry)
               intents rows entries.
Proof.
  revert st. induction intents as [|intent intents IH]; intros st.
  - exists [], [], []. split; [|constructor].
    destruct st. cbn. unfold ret. rewrite record_calls_nil, app_nil_r. reflexivity.
  - destruct (execute_function_call_run intent action_id st)
      as (entry & row & ev1 & Hrun & _ & Hof & Hout & _).
    destruct (IH {| locals := locals st; db := record_calls [row] (db st);
                    history := history st ++ ev1 |})
      as (entries & rows & ev2 & Hrest & Hall).
    exists (entry :: entries), (row :: rows), (ev1 ++ ev2). split.
    + cbn [for_each]. unfold mbind, M_bind, bind at 1. rewrite Hrun.
      unfold bind at 1. rewrite Hrest. cbn.
      unfold mret, M_ret, ret. rewrite record_calls_app, (assoc_L (++)). reflexivity.
    + constructor; [split; assumption | exact Hall].
Qed.

Lemma call_llm_run {L} (command : string) (action_id : Z) (st : State L) :
  match llm world (history st) (messages system_prompt command) with
  | Raise e =>
      _call_llm_with_functions world system_prompt command action_id st
      = (Raise e, {| locals := locals st; db := db st;
                     history := history st ++ [ChatCompletion (messages system_prompt command)] |})
  | Ok response =>
      exists output entries rows events,
        _call_llm_with_functions world system_prompt command action_id st
        = (Ok output,
           {| locals := locals st; db := record_calls rows (db st);
              history := history st ++ ChatCompletion (messages system_prompt command) :: events |})
        /\ Forall3 (fun intent row entry =>
                      call_of action_id intent row /\ call_outcome intent row entry)
                   (LLMResponse.function_calls response) rows entries
        /\ ((entries = []
             /\ output = [("response", JStr (LLMResponse.content response))])
            \/ (entries <> []
                /\ exists summary,
                     output = [("function_results", JList (JDict <$> entries));
                               ("summary", JStr summary)]))
  end.
Proof.
  unfold _call_llm_with_functions. fold (messages system_prompt command).
  destruct (llm world (history st) (messages system_prompt command)) as [response|e] eqn:Hllm.
  2:{ apply run_bind_raise. unfold chat_completion. rewrite Hllm. reflexivity. }
  set (st1 := {| locals := locals st; db := db st;
                 history := history st ++ [ChatCompletion (messages system_prompt command)] |}).
  destruct (dispatch_all_run (LLMResponse.function_calls response) action_id st1)
    as (entries & rows & events & Hrun & Hall).
  assert (Hloop :
    (if LLMResponse.has_function_calls response
     then for_each (fun function_call =>
                      _execute_function_call world function_call action_id)
                   (LLMResponse.function_calls response)
     else ret []) st1
    = (Ok entries, {| locals := locals st; db := record_calls rows (db st);
                      history := history st ++ ChatCompletion (messages system_prompt command)
                                                 :: events |})).
  { unfold LLMResponse.has_function_calls.
    destruct (LLMResponse.function_calls response) eqn:E.
    - cbn. cbn in Hrun. rewrite Hrun. unfold st1. cbn.
      rewrite <- (assoc_L (++)). reflexivity.
    - cbn [length Nat.ltb Nat.leb]. rewrite Hrun. unfold st1. cbn.
      rewrite <- (assoc_L (++)). reflexivity. }
  exists (match entries with
          | [] => [("response", JStr (LLMResponse.content response))]
          | _ => [("function_results", JList (JDict <$> entries));
                  ("summary",
                     JStr (if String.eqb (LLMResponse.content response) ""
                           then "Functions executed successfully"
                           else LLMResponse.content response))]
          end), entries, rows, events.
  split; [|split; [exact Hall|]].
  - erewrite run_bind_ok; [|unfold chat_completion; rewrite Hllm; reflexivity].
    fold st1. erewrite run_bind_ok; [|exact Hloop].
    destruct entries; reflexivity.
  - destruct entries; [left; split; reflexivity|right].
    split; [discriminate|]. eexists. reflexivity.
Qed.

(** [execute_command], whatever the language model and the adapters do:
    it returns a response, writes the action row under a fresh key and
    appends the rows of the dispatched intents. *)
Lemma execute_command_run {L} (command : string) (st : State L) :
  let aid := next_action_id (db st) in
  let started := clock world (history st) in
  exists resp action rows events,
    execute_command world user_id system_prompt command st
    = (Ok resp,
       {| locals := locals st;
          db := {| actions := <[aid := action]> (actions (db st));
                   function_calls := function_calls (db st) ++ rows;
                   next_action_id := aid + 1;
                   next_call_id := next_call_id (db st) + Z.of_nat (length rows) |};
          history := history st ++ events |})
    /\ action_id resp = Some aid
    /\ AutomationAction.id action = Some aid
    /\ AutomationAction.user_id action = user_id
    /\ AutomationAction.started_at action = started
    /\ AutomationAction.can_rollback action = false
    /\ rollback_available resp = false
    /\ AutomationAction.rolled_back_at action = None
    /\ match llm world (history st ++ [ClockRead]) (messages system_prompt command) with
       | Ok response =>
           success resp = true
           /\ AutomationAction.status action = COMPLETED
           /\ AutomationAction.output_data action = data resp
           /\ (exists t, AutomationAction.completed_at action = Some t
                         /\ AutomationAction.duration_ms action
                            = Some (millis_between started t))
           /\ exists output entries,
                data resp = Some output
                /\ Forall3 (fun intent row entry =>
                              call_of aid intent row /\ call_outcome intent row entry)
                           (LLMResponse.function_calls response) rows entries
                /\ ((entries = []
                     /\ output = [("response", JStr (LLMResponse.content response))])
                    \/ (entries <> []
                        /\ exists summary,
                             output = [("function_results", JList (JDict <$> entries));
                                       ("summary", JStr summary)]))
       | Raise e =>
           success resp = false
           /\ AutomationAction.status action = FAILED
           /\ AutomationAction.error_message action = Some (str e)
           /\ AutomationAction.output_data action = None
           /\ (exists t, AutomationAction.completed_at action = Some t)
           /\ AutomationAction.duration_ms action = None
           /\ rows = []
       end.
Proof.
  destruct st as [l d h]. cbn [db history locals].
  pose proof (call_llm_run command (next_action_id d)
                {| locals :=
                     AutomationAction.set_id (Some (next_action_id d))
                       (AutomationAction.new user_id "ai_automation" command IN_PROGRESS
                          (JDict [("command", JStr command)]) (clock world h));
                   db := {| actions :=
                              <[next_action_id d :=
                                  AutomationAction.set_id (Some (next_action_id d))
                                    (AutomationAction.new user_id "ai_automation" command
                                       IN_PROGRESS (JDict [("command", JStr command)])
                                       (clock world h))]> (actions d);
                            function_calls := function_calls d;
                            next_action_id := next_action_id d + 1;
                            next_call_id := next_call_id d |};
                   history := h ++ [ClockRead] |}) as Hllm.
  cbn -[_call_llm_with_functions] in Hllm.
  unfold execute_command, with_local, try_except, commit_action, utcnow,
    modify_local, get_local, mbind, M_bind, bind, mret, M_ret, ret.
  cbn -[_call_llm_with_functions millis_between].
  destruct (llm world (h ++ [ClockRead]) (messages system_prompt command)) as [response|e].
  - destruct Hllm as (output & entries & rows & events & Hrun & Hall & Hshape).
    fold (messages system_prompt command). rewrite Hrun.
    cbn -[millis_between].
    rewrite insert_insert_eq, <- !(assoc_L (++)).
    eexists _, _, rows, _. split; [reflexivity|].
    cbn -[millis_between]. repeat (split; [reflexivity|]).
    split; [eexists; split; reflexivity|].
    exists output, entries. split; [reflexivity|]. split; assumption.
  - fold (messages system_prompt command). rewrite Hllm.
    cbn. rewrite insert_insert_eq, <- !(assoc_L (++)).
    eexists _, _, [], _. split.
    { rewrite app_nil_r, Z.add_0_r. reflexivity. }
    cbn. repeat (split; [reflexivity|]).
    split; [eexists; reflexivity|]. split; reflexivity.
Qed.

(** *** Rolling back *)

Lemma query_action_Some (d : Db) (action_id : Z) (action : AutomationAction.t) :
  query_action user_id d action_id = Some action ->
  actions d !! action_id = Some action
  /\ AutomationAction.id action = Some action_id
  /\ AutomationAction.user_id action = user_id.
Proof.
  unfold query_action. destruct (actions d !! action_id) as [a|]; [|discriminate].
  case_bool_decide as Hfilter; [|discriminate].
  intros [= ->]. destruct Hfilter. auto.
Qed.

(** One compensation attempt: it never raises, it leaves the ledger alone
    and it calls the adapter at most once. *)
Lemma rollback_call_run {L} (c : FunctionCall.t) (st : State L) :
  exists entry,
    rollback_call world c st
    = (Ok entry, {| locals := locals st; db := db st;
                    history := history st ++ compensation_events c |})
    /\ attempt_recorded world c entry.
Proof.
  destruct st as [l d h].
  unfold rollback_call, compensation_events, compensation_request, attempt_recorded,
    try_except, invoke, lift_result, mbind, M_bind, bind, mret, M_ret, ret.
  cbn.
  destruct (integrations (FunctionCall.service_type c)) as [s|e]; cbn.
  2:{ rewrite app_nil_r. eexists. split; [reflexivity|]. right. eexists. reflexivity. }
  destruct (getattr s (FunctionCall.rollback_function c)) as [m|e]; cbn.
  2:{ rewrite app_nil_r. eexists. split; [reflexivity|]. right. eexists. reflexivity. }
  destruct (unpack (FunctionCall.rollback_parameters c)) as [kw|e]; cbn.
  2:{ rewrite app_nil_r. eexists. split; [reflexivity|]. right. eexists. reflexivity. }
  destruct (adapter world h s m kw) as [result|e] eqn:Hcall.
  - eexists. split; [reflexivity|]. left. eauto 10.
  - eexists. split; [reflexivity|]. right. eexists. reflexivity.
Qed.

(** All the attempts of a rollback: one entry per call, in the order of
    the calls, and the adapter is called in that order. *)
Lemma rollback_all_run {L} (calls : list FunctionCall.t) (st : State L) :
  exists entries,
    for_each (rollback_call world) calls st
    = (Ok entries, {| locals := locals st; db := db st;
                      history := history st ++ flat_map compensation_events calls |})
    /\ Forall2 (attempt_recorded world) calls entries.
Proof.
  revert st. induction calls as [|c calls IH]; intros st.
  - exists []. split; [|constructor]. destruct st. cbn. unfold ret.
    rewrite app_nil_r. reflexivity.
  - destruct (rollback_call_run c st) as (entry & Hrun & Hentry).
    destruct (IH {| locals := locals st; db := db st;
                    history := history st ++ compensation_events c |})
      as (entries & Hrest & Hall).
    exists (entry :: entries). split; [|constructor; assumption].
    cbn [for_each flat_map].
    erewrite run_bind_ok; [|exact Hrun].
    erewrite run_bind_ok; [|exact Hrest].
    cbn. unfold mret, M_ret, ret. rewrite (assoc_L (++)). reflexivity.
Qed.

(** The rollback of an eligible action. *)
Lemma rollback_action_run {L} (action_id : Z) (reason : string) (st : State L)
    (action : AutomationAction.t) :
  query_action user_id (db st) action_id = Some action ->
  AutomationAction.can_rollback action = true ->
  AutomationAction.status action <> ROLLED_BACK ->
  let calls := query_rollback_calls (db st) action_id in
  let invoked := flat_map compensation_events calls in
  exists entries,
    rollback_action world user_id action_id reason st
    = (Ok {| success := true;
             message := "Action rolled back successfully";
             data := Some [("rollback_results", JList (JDict <$> entries))];
             action_id := Some action_id;
             rollback_available := false |},
       {| locals := locals st;
          db := {| actions :=
                     <[action_id :=
                         rolled_back action (clock world (history st ++ invoked))
                           reason entries]> (actions (db st));
                   function_calls := function_calls (db st);
                   next_action_id := next_action_id (db st);
                   next_call_id := next_call_id (db st) |};
          history := history st ++ invoked ++ [ClockRead] |})
    /\ Forall2 (attempt_recorded world) calls entries.
Proof.
  intros Hquery Hflag Hstatus calls invoked.
  destruct (query_action_Some _ _ _ Hquery) as (_ & Hid & _).
  destruct (rollback_all_run calls
              {| locals := action; db := db st; history := history st |})
    as (entries & Hloop & Hall).
  exists entries. split; [|exact Hall].
  destruct st as [l d h]. cbn [db history locals] in *.
  unfold rollback_action.
  erewrite run_bind_ok; [|reflexivity]. cbn [db].
  rewrite Hquery, Hflag. cbn [negb].
  rewrite bool_decide_eq_false_2 by exact Hstatus.
  unfold try_except, with_local. cbn [locals db history].
  erewrite run_bind_ok; [|reflexivity]. cbn [db].
  fold calls. erewrite run_bind_ok; [|exact Hloop].
  unfold commit_action, utcnow, modify_local, mbind, M_bind, bind, mret, M_ret, ret.
  destruct action. cbn in Hid. subst. cbn.
  rewrite <- (assoc_L (++)). reflexivity.
Qed.

(** A rollback that a precondition check rejects. *)
Lemma rollback_action_rejected {L} (action_id : Z) (reason : string) (st : State L) :
  query_action user_id (db st) action_id = None
  \/ (exists action,
        query_action user_id (db st) action_id = Some action
        /\ (AutomationAction.can_rollback action = false
            \/ AutomationAction.status action = ROLLED_BACK)) ->
  exists resp,
    rollback_action world user_id action_id reason st = (Ok resp, st)
    /\ success resp = false.
Proof.
  intros Hrejected. destruct st as [l d h]. cbn [db] in Hrejected.
  unfold rollback_action.
  erewrite run_bind_ok; [|reflexivity]. cbn [db].
  destruct Hrejected as [Hnone | (action & Hsome & Hwhy)].
  - rewrite Hnone. eexists. split; reflexivity.
  - rewrite Hsome.
    destruct (AutomationAction.can_rollback action) eqn:Hflag; cbn [negb].
    + destruct Hwhy as [Hwhy|Hwhy]; [discriminate|].
      rewrite bool_decide_eq_true_2 by exact Hwhy.
      eexists. split; reflexivity.
    + eexists. split; reflexivity.
Qed.

(** Whatever happens, [rollback_action] leaves the call rows alone. *)
Lemma rollback_keeps_calls {L} (action_id : Z) (reason : string) (st : State L) :
  function_calls (db (rollback_action world user_id action_id reason st).2)
  = function_calls (db st).
Proof.
  destruct (query_action user_id (db st) action_id) as [action|] eqn:Hquery.
  - destruct (AutomationAction.can_rollback action) eqn:Hflag.
    + destruct (decide (AutomationAction.status action = ROLLED_BACK)) as [Hs|Hs].
      * destruct (rollback_action_rejected action_id reason st) as (resp & Hrun & _);
          [right; eauto|rewrite Hrun; reflexivity].
      * destruct (rollback_action_run action_id reason st action Hquery Hflag Hs)
          as (entries & Hrun & _). rewrite Hrun. reflexivity.
    + destruct (rollback_action_rejected action_id reason st) as (resp & Hrun & _);
        [right; eauto|rewrite Hrun; reflexivity].
  - destruct (rollback_action_rejected action_id reason st) as (resp & Hrun & _);
      [left; assumption|rewrite Hrun; reflexivity].
Qed.

Lemma call_outcome_invariant (action_id : Z) (intent : Intent)
    (row : FunctionCall.t) (entry : Dict) :
  call_of action_id intent row -> call_outcome intent row entry -> call_invariant row.
Proof.
  intros (_ & Hname & _) Hout. unfold call_invariant. rewrite Hname.
  destruct Hout as [result _ Hst _ _ Hfun Hargs | msg Hst _ _ Hfun Hargs _];
    rewrite Hst; split; try discriminate.
  - intros _ f Hf. rewrite Hfun, Hf. split; [reflexivity|].
    apply Hargs. rewrite Hfun, Hf. eexists. reflexivity.
  - intros _. split; assumption.
Qed.

Lemma dispatched_rows_invariant (action_id : Z) (intents : list Intent)
    (rows : list FunctionCall.t) (entries : list Dict) :
  Forall3 (fun intent row entry =>
             call_of action_id intent row /\ call_outcome intent row entry)
          intents rows entries ->
  Forall call_invariant rows.
Proof.
  induction 1 as [|intent row entry intents rows entries [Hof Hout] _ IH];
    constructor; [|exact IH].
  exact (call_outcome_invariant _ _ _ _ Hof Hout).
Qed.

(** *** The order of compensation *)

Lemma sorted_distinct_strict (l : list FunctionCall.t) :
  StronglySorted called_at_desc l ->
  NoDup (FunctionCall.called_at <$> l) ->
  strictly_decreasing (FunctionCall.called_at <$> l).
Proof.
  unfold strictly_decreasing.
  induction 1 as [|a l Hsorted IH Hhead]; intros Hdistinct; cbn; constructor.
  - apply IH. apply NoDup_cons in Hdistinct. tauto.
  - apply NoDup_cons in Hdistinct as [Hfresh _].
    apply Forall_fmap, Forall_forall. intros b Hb. cbn.
    rewrite Forall_forall in Hhead. specialize (Hhead b Hb).
    unfold called_at_desc in Hhead.
    assert (FunctionCall.called_at b <> FunctionCall.called_at a).
    { intros Heq. apply Hfresh. rewrite <- Heq. apply list_elem_of_fmap. eauto. }
    lia.
Qed.

(** Three rows made at increasing times come out latest first. *)
Lemma latest_first_of_three (calls : list FunctionCall.t) (c1 c2 c3 : FunctionCall.t) :
  StronglySorted called_at_desc calls ->
  calls ≡ₚ [c1; c2; c3] ->
  FunctionCall.called_at c1 < FunctionCall.called_at c2 ->
  FunctionCall.called_at c2 < FunctionCall.called_at c3 ->
  calls = [c3; c2; c1].
Proof.
  intros Hsorted Hperm H12 H23.
  apply (StronglySorted_unique_strong called_at_desc); [|exact Hsorted| |].
  - intros x1 x2 Hx1 Hx2. rewrite Hperm in Hx1. unfold called_at_desc.
    set_unfold. intros.
    destruct Hx1 as [?|[?|[?|[]]]], Hx2 as [?|[?|[?|[]]]]; subst;
      first [reflexivity | lia].
  - repeat constructor; unfold called_at_desc; lia.
  - rewrite Hperm. apply Permutation_rev.
Qed.


(** *** The claims about dispatch *)


(** C6.  The row that [_execute_function_call] adds satisfies the call
    invariant the moment it is added: a failed call has neither a
    compensating function nor compensating arguments, and a completed call
    of a function with a compensating operation has both.  Nothing adds
    them later: [execute_command] only appends rows that satisfy the
    invariant and keeps the rows that were there, and [rollback_action]
    leaves the table of calls as it is; so a ledger whose calls all satisfy
    the invariant keeps that property under both operations. *)
Theorem compensation_captured_with_result :
  (forall L (intent : Intent) (action_id : Z) (st : State L),
     exists entry row events,
       _execute_function_call world intent action_id st
       = (Ok entry, {| locals := locals st; db := record_calls [row] (db st);
                       history := history st ++ events |})
       /\ call_invariant row)
  /\ (forall L (command : string) (st : State L),
        exists rows,
          function_calls
            (db (execute_command world user_id system_prompt command st).2)
          = function_calls (db st) ++ rows
          /\ Forall call_invariant rows)
  /\ (forall L (action_id : Z) (reason : string) (st : State L),
        function_calls (db (rollback_action world user_id action_id reason st).2)
        = function_calls (db st))
  /\ (forall L (command : string) (action_id : Z) (reason : string) (st : State L),
        Forall call_invariant (function_calls (db st)) ->
        Forall call_invariant
          (function_calls
             (db (execute_command world user_id system_prompt command st).2))
        /\ Forall call_invariant
             (function_calls
                (db (rollback_action world user_id action_id reason st).2))).
Proof.
  assert (Hexec : forall L (command : string) (st : State L),
            exists rows,
              function_calls
                (db (execute_command world user_id system_prompt command st).2)
              = function_calls (db st) ++ rows
              /\ Forall call_invariant rows).
  { intros L command st.
    destruct (execute_command_run command st)
      as (resp & action & rows & events & Hrun & _ & _ & _ & _ & _ & _ & _ & Hcase).
    exists rows. rewrite Hrun. split; [reflexivity|].
    destruct (llm world (history st ++ [ClockRead]) (messages system_prompt command)).
    + destruct Hcase as (_ & _ & _ & _ & output & entries & _ & Hall & _).
      exact (dispatched_rows_invariant _ _ _ _ Hall).
    + destruct Hcase as (_ & _ & _ & _ & _ & _ & ->). constructor. }
  split; [|split; [exact Hexec|split]].
  - intros L intent action_id st.
    destruct (execute_function_call_run intent action_id st)
      as (entry & row & events & Hrun & _ & Hof & Hout & _).
    exists entry, row, events. split; [exact Hrun|].
    exact (call_outcome_invariant _ _ _ _ Hof Hout).
  - intros L action_id reason st. apply rollback_keeps_calls.
  - intros L command action_id reason st Hinv. split.
    + destruct (Hexec L command st) as (rows & Hrows & Hinv').
      rewrite Hrows. apply Forall_app. split; assumption.
    + rewrite rollback_keeps_calls. exact Hinv.
Qed.

(** *** The claims about rollback *)


(** C5, as the code has it.  The rollback of an eligible action selects
    exactly the calls of the action that carry a rollback function and
    attempts their compensations latest call first: the selected calls are
    visited in an order in which the call time never increases, and the
    adapter is called in that order.  The call times decrease strictly when
    the selected calls have pairwise distinct call times; three selected
    calls made at times t1 < t2 < t3 are visited in the order t3, t2, t1. *)
Theorem rollback_visits_latest_first {L}
    (action_id : Z) (reason : string) (st : State L) (action : AutomationAction.t) :
  query_action user_id (db st) action_id = Some action ->
  AutomationAction.can_rollback action = true ->
  AutomationAction.status action <> ROLLED_BACK ->
  let selected :=
    filter (fun c => FunctionCall.automation_action_id c = action_id
                     /\ is_Some (FunctionCall.rollback_function c))
           (function_calls (db st)) in
  let calls := query_rollback_calls (db st) action_id in
  calls ≡ₚ selected
  /\ StronglySorted called_at_desc calls
  /\ history (rollback_action world user_id action_id reason st).2
     = history st ++ flat_map compensation_events calls ++ [ClockRead]
  /\ (NoDup (FunctionCall.called_at <$> selected) ->
      strictly_decreasing (FunctionCall.called_at <$> calls))
  /\ (forall c1 c2 c3,
        selected ≡ₚ [c1; c2; c3] ->
        FunctionCall.called_at c1 < FunctionCall.called_at c2 ->
        FunctionCall.called_at c2 < FunctionCall.called_at c3 ->
        calls = [c3; c2; c1]).
Proof.
  intros Hquery Hflag Hstatus selected calls.
  assert (Hperm : calls ≡ₚ selected) by apply merge_sort_Permutation.
  assert (Hsorted : StronglySorted called_at_desc calls)
    by (apply StronglySorted_merge_sort; apply _).
  split; [exact Hperm|]. split; [exact Hsorted|]. split; [|split].
  - destruct (rollback_action_run action_id reason st action Hquery Hflag Hstatus)
      as (entries & Hrun & _).
    rewrite Hrun. reflexivity.
  - intros Hdistinct. apply sorted_distinct_strict; [exact Hsorted|].
    rewrite Hperm. exact Hdistinct.
  - intros c1 c2 c3 Hthree H12 H23.
    apply latest_first_of_three; [exact Hsorted| |exact H12|exact H23].
    rewrite Hperm. exact Hthree.
Qed.

(** C10.  A rollback request that a precondition check rejects returns a
    failure response and the state it was given: the ledger, with the
    action and all the calls, is what it was, and so is the history of
    interactions, so no compensating operation was invoked.  The three
    checks are: no action with this identifier for this user; an action
    whose [can_rollback] flag is false; an action already ROLLED_BACK. *)
Theorem rejected_rollback_changes_nothing {L}
    (action_id : Z) (reason : string) (st : State L) :
  query_action user_id (db st) action_id = None
  \/ (exists action,
        query_action user_id (db st) action_id = Some action
        /\ (AutomationAction.can_rollback action = false
            \/ AutomationAction.status action = ROLLED_BACK)) ->
  exists resp,
    rollback_action world user_id action_id reason st = (Ok resp, st)
    /\ success resp = false
    /\ data resp = None
    /\ (query_action user_id (db st) action_id = None ->
        message resp = "Action not found or access denied"%string)
    /\ (forall action,
          query_action user_id (db st) action_id = Some action ->
          AutomationAction.can_rollback action = false ->
          message resp = "Action cannot be rolled back"%string)
    /\ (forall action,
          query_action user_id (db st) action_id = Some action ->
          AutomationAction.can_rollback action = true ->
          message resp = "Action already rolled back"%string).
Proof.
  intros Hrejected. destruct st as [l d h]. cbn [db] in *.
  unfold rollback_action.
  erewrite run_bind_ok; [|reflexivity]. cbn [db].
  destruct (query_action user_id d action_id) as [action|] eqn:Hquery.
  - destruct Hrejected as [?|(action' & [= <-] & Hwhy)]; [discriminate|].
    destruct (AutomationAction.can_rollback action) eqn:Hflag; cbn [negb].
    + destruct Hwhy as [?|Hdone]; [discriminate|].
      rewrite bool_decide_eq_true_2 by exact Hdone.
      eexists. split; [reflexivity|]. cbn.
      repeat split; try discriminate.
      * intros a [= <-]. rewrite Hflag. discriminate.
    + eexists. split; [reflexivity|]. cbn.
      repeat split; try discriminate.
      intros a [= <-]. rewrite Hflag. discriminate.
  - eexists. split; [reflexivity|]. cbn. repeat split; discriminate.
Qed.

End AgentProperties.

(** ** The claims on concrete inputs *)


(** From the empty ledger, the sample plan leaves call rows that all satisfy
    the call invariant. *)
Lemma compensation_captured_with_result_witness :
  Forall call_invariant
    (function_calls
       (db (Agent.execute_command sample_world 7 "system" "file the report"
              initial_state).2)).
Proof.
  apply (proj2 (proj2 (proj2 (compensation_captured_with_result sample_world 7 "system")))
           unit "file the report" 1 "undo" initial_state).
  cbn. constructor.
Defined.



(** The three calls of the reversible action, made at times 10, 20 and 30,
    are compensated in the order 30, 20, 10. *)
Lemma rollback_visits_latest_first_witness :
  Agent.query_rollback_calls (db reversible_state) 1 = [call_t3; call_t2; call_t1]
  /\ history (Agent.rollback_action upload_world 7 1 "undo" reversible_state).2
     = [AdapterCall AWS_S3 "delete_s3_object" [("key", JStr "weekly.txt")];
        AdapterCall AWS_S3 "delete_s3_object" [("key", JStr "daily.txt")];
        AdapterCall JIRA "delete_jira_ticket" [("ticket_key", JStr "OPS-1")];
        ClockRead].
Proof.
  destruct (rollback_visits_latest_first upload_world 7 1 "undo"
              reversible_state reversible_action)
    as (_ & _ & Hhistory & _ & Hthree).
  - reflexivity.
  - reflexivity.
  - discriminate.
  - assert (Horder :
      Agent.query_rollback_calls (db reversible_state) 1 = [call_t3; call_t2; call_t1]).
    { apply Hthree; [reflexivity | cbn; lia | cbn; lia]. }
    split; [exact Horder|].
    rewrite Hhistory, Horder. reflexivity.
Defined.

(** Two calls made at the same time 20, both with compensating data: both
    compensations are invoked, and the call times of the invocations, 20 and
    20, do not decrease strictly. *)
Lemma rollback_order_with_equal_call_times :
  history (Agent.rollback_action upload_world 7 1 "undo" tie_state).2
  = [AdapterCall AWS_S3 "delete_s3_object" [("key", JStr "daily.txt")];
     AdapterCall AWS_S3 "delete_s3_object" [("key", JStr "weekly.txt")];
     ClockRead]
  /\ FunctionCall.called_at <$> Agent.query_rollback_calls (db tie_state) 1 = [20; 20]
  /\ ~ strictly_decreasing
         (FunctionCall.called_at <$> Agent.query_rollback_calls (db tie_state) 1).
Proof.
  split; [vm_compute; reflexivity|]. split; [vm_compute; reflexivity|].
  replace (FunctionCall.called_at <$> Agent.query_rollback_calls (db tie_state) 1)
    with [20; 20] by (vm_compute; reflexivity).
  unfold strictly_decreasing. intros Hsorted.
  apply StronglySorted_inv in Hsorted as [_ Hhead].
  apply Forall_inv in Hhead. lia.
Defined.

(** A second rollback of an action that is already ROLLED_BACK is refused
    and changes nothing. *)
Lemma rejected_rollback_changes_nothing_witness :
  exists resp,
    Agent.rollback_action upload_world 7 1 "again" rolled_back_state
    = (Ok resp, rolled_back_state)
    /\ success resp = false
    /\ message resp = "Action already rolled back"%string.
Proof.
  destruct (rejected_rollback_changes_nothing upload_world 7 1 "again" rolled_back_state)
    as (resp & Hrun & Hfail & _ & _ & _ & Hmsg).
  - right. exists (AutomationAction.set_status ROLLED_BACK reversible_action).
    split; [reflexivity|]. right. reflexivity.
  - exists resp. split; [exact Hrun|]. split; [exact Hfail|].
    apply (Hmsg (AutomationAction.set_status ROLLED_BACK reversible_action));
      reflexivity.
Defined.

(** ** Where the code departs from the claims *)

(** C2.  A command whose only intent is an upload that succeeds: the action
    ends COMPLETED and its call carries compensating data, yet the
    [can_rollback] flag of the action is false, the response does not offer a
    rollback, and a rollback of the action is refused. *)
Theorem upload_leaves_action_irreversible :
  exists resp st' action row refusal,
    Agent.execute_command upload_world 7 "system" "upload the report" initial_state
    = (Ok resp, st')
    /\ actions (db st') !! 1 = Some action
    /\ AutomationAction.status action = COMPLETED
    /\ function_calls (db st') = [row]
    /\ FunctionCall.status row = COMPLETED
    /\ FunctionCall.rollback_function row = Some "delete_s3_object"%string
    /\ FunctionCall.rollback_parameters row = Some [("key", JStr "daily.txt")]
    /\ AutomationAction.can_rollback action = false
    /\ rollback_available resp = false
    /\ Agent.rollback_action upload_world 7 1 "undo" st' = (Ok refusal, st')
    /\ message refusal = "Action cannot be rolled back"%string.
Proof.
  eexists _, _, _, _, _.
  split; [vm_compute; reflexivity|].
  split; [vm_compute; reflexivity|].
  do 7 (split; [reflexivity|]).
  split; [vm_compute; reflexivity|]. reflexivity.
Qed.

(** C9.  A command for which the language model cannot be reached: the
    action ends FAILED with its completion time set, and its duration is
    left unset; on the success path both are set. *)
Theorem failed_action_has_no_duration :
  (exists resp st' action t,
     Agent.execute_command silent_world 7 "system" "upload the report" initial_state
     = (Ok resp, st')
     /\ success resp = false
     /\ actions (db st') !! 1 = Some action
     /\ AutomationAction.status action = FAILED
     /\ AutomationAction.completed_at action = Some t
     /\ AutomationAction.duration_ms action = None)
  /\ (exists resp st' action t ms,
        Agent.execute_command upload_world 7 "system" "upload the report" initial_state
        = (Ok resp, st')
        /\ actions (db st') !! 1 = Some action
        /\ AutomationAction.status action = COMPLETED
        /\ AutomationAction.completed_at action = Some t
        /\ AutomationAction.duration_ms action = Some ms).
Proof.
  split.
  - eexists _, _, _, _.
    split; [vm_compute; reflexivity|]. split; [reflexivity|].
    split; [vm_compute; reflexivity|]. repeat split.
  - eexists _, _, _, _, _.
    split; [vm_compute; reflexivity|].
    split; [vm_compute; reflexivity|]. repeat split.
Qed.

(** * Further properties *)

(** ** The grant handshake, continued *)

Section HandshakeEdges.

Import OAuth2.

Variable config : Config.

(** The services [__init__] configures. *)
Lemma oauth_configs_supported (service : string) :
  is_Some (oauth_configs config !! service)
  <-> service ∈ ["slack"; "jira"; "github"]%string.
Proof.
  unfold oauth_configs. set_unfold.
  destruct (decide (service = "slack")) as [->|Hs].
  { rewrite lookup_insert_eq. split; eauto. }
  rewrite lookup_insert_ne by congruence.
  destruct (decide (service = "jira")) as [->|Hj].
  { rewrite lookup_insert_eq. split; eauto. }
  rewrite lookup_insert_ne by congruence.
  destruct (decide (service = "github")) as [->|Hg].
  { rewrite lookup_insert_eq. split; eauto. }
  rewrite lookup_insert_ne by congruence.
  rewrite lookup_empty. split.
  - intros [? ?]. discriminate.
  - intros [?|[?|[?|[]]]]; contradiction.
Qed.

(** X1.  [generate_auth_url] serves exactly the three configured services.
    For one of them it stores the handshake state under the nonce and returns
    a URL whose state parameter is that nonce; for any other service it
    raises the unsupported-service error and leaves the cache as it was. *)
Theorem generate_auth_url_supported_services
    (service redirect_uri nonce : string) (user : Z) (t0 : Q)
    (cache : gmap string StateData) :
  (service ∈ ["slack"; "jira"; "github"]%string ->
   exists url,
     generate_auth_url config service user redirect_uri nonce t0 cache
     = (Ok url,
        <[nonce := {| user_id := user; service := service; timestamp := t0 |}]> cache)
     /\ state_param url = Some nonce
     /\ In ("redirect_uri", redirect_uri) (params url)
     /\ In ("response_type", "code"%string) (params url))
  /\ (service ∉ ["slack"; "jira"; "github"]%string ->
      generate_auth_url config service user redirect_uri nonce t0 cache
      = (Raise (ValueError ("Unsupported service: " ++ service)%string), cache)).
Proof.
  split; intros Hservice.
  - apply oauth_configs_supported in Hservice as [cd Hcd].
    unfold generate_auth_url. rewrite Hcd.
    eexists. split; [reflexivity|]. unfold state_param. cbn [params].
    destruct (String.eqb service "jira"); [cbn; auto 10|].
    destruct (String.eqb service "github"); cbn; auto 10.
  - unfold generate_auth_url.
    destruct (oauth_configs config !! service) as [cd|] eqn:Hcd; [|reflexivity].
    exfalso. apply Hservice. apply oauth_configs_supported. eauto.
Qed.

(** X2.  A pending nonce presented within the window for another service
    than the one it was issued for raises the service-mismatch error without
    any request to the provider, and is consumed by that attempt: a later
    call with the same nonce, also for the right service, raises the
    invalid-state error. *)
Theorem service_mismatch_consumes_nonce
    (post : Provider) (service code nonce redirect_uri : string) (now : Q)
    (cache : gmap string StateData) (state_data : StateData) :
  cache !! nonce = Some state_data ->
  (now - timestamp state_data <= 300)%Q ->
  service <> OAuth2.service state_data ->
  exchange_code_for_tokens config post service code nonce redirect_uri now cache
  = (Raise ServiceMismatch, delete nonce cache)
  /\ forall post' code' redirect_uri' now',
       exchange_code_for_tokens config post' (OAuth2.service state_data) code' nonce
         redirect_uri' now' (delete nonce cache)
       = (Raise InvalidState, delete nonce cache).
Proof.
  intros Hpending Hwindow Hother. split.
  - unfold exchange_code_for_tokens. rewrite Hpending.
    rewrite (within_window _ _ Hwindow).
    apply String.eqb_neq in Hother. rewrite Hother. reflexivity.
  - intros. apply exchange_unknown_state, lookup_delete_eq.
Qed.

(** X3.  Handshakes under different nonces do not interfere: issuing or
    consuming one nonce leaves the state stored under any other nonce as it
    is, so a grant that is pending stays pending whatever happens to the
    others. *)
Theorem handshake_states_are_independent
    (nonce nonce' : string) (cache : gmap string StateData) :
  nonce <> nonce' ->
  (forall service user redirect_uri t0,
     (generate_auth_url config service user redirect_uri nonce t0 cache).2 !! nonce'
     = cache !! nonce')
  /\ (forall post service code redirect_uri now,
        (exchange_code_for_tokens config post service code nonce redirect_uri now
           cache).2 !! nonce'
        = cache !! nonce').
Proof.
  intros Hdiff. split.
  - intros svc user redirect_uri t0. unfold generate_auth_url.
    destruct (oauth_configs config !! svc); [|reflexivity].
    cbn. apply lookup_insert_ne. exact Hdiff.
  - intros post svc code redirect_uri now. unfold exchange_code_for_tokens.
    destruct (cache !! nonce); [|reflexivity].
    destruct (negb (Qle_bool _ _)); [apply lookup_delete_ne; exact Hdiff|].
    destruct (negb (String.eqb _ _)); apply lookup_delete_ne; exact Hdiff.
Qed.

(** X4.  The tokens that the exchange returns have one shape for all
    providers: the first seven entries are the access token, the refresh
    token, the lifetime, the token type, the scope, the service and the
    user.  The service is the one of the call and the user the one the
    handshake state was created for, whatever the provider sent; the token
    type is the provider's, or Bearer when it sent none. *)
Theorem exchanged_tokens_are_normalized
    (post : Provider) (service code redirect_uri : string)
    (state_data : StateData) (toks : Dict) :
  exchange_request config post service code redirect_uri state_data = Ok toks ->
  take 7 toks.*1
  = ["access_token"; "refresh_token"; "expires_in"; "token_type"; "scope";
     "service"; "user_id"]%string
  /\ dict_find toks "service" = Some (JStr service)
  /\ dict_find toks "user_id" = Some (JInt (user_id state_data))
  /\ exists url data tokens,
       post url data = HttpJson tokens
       /\ In ("code", code) data
       /\ dict_find tokens "error" = None
       /\ dict_find toks "access_token" = Some (dict_get tokens "access_token")
       /\ dict_find toks "token_type"
          = Some (default (JStr "Bearer") (dict_find tokens "token_type")).
Proof.
  unfold exchange_request.
  destruct (oauth_configs config !! service) as [cd|]; [|discriminate].
  match goal with |- context [post ?u ?d] => set (url := u); set (data := d) end.
  assert (Hcode : In ("code", code) data).
  { unfold data. destruct (String.eqb service "jira"); [cbn; auto|].
    destruct (String.eqb service "github"); [cbn; auto|].
    destruct (String.eqb service "slack"); cbn; auto. }
  destruct (post url data) as [msg|tokens] eqn:Hpost; [discriminate|].
  destruct (dict_find tokens "error") eqn:Herr; [discriminate|].
  destruct (String.eqb service "slack").
  - destruct (dict_get_default tokens "team" (JDict [])); try discriminate.
    intros [= <-]. cbn. repeat (split; [reflexivity|]).
    exists url, data, tokens. auto.
  - destruct (String.eqb service "jira"); intros [= <-]; cbn;
      repeat (split; [reflexivity|]); exists url, data, tokens; auto.
Qed.

(** X5.  When the provider refuses the code, the handshake is spent all the
    same.  With a pending nonce, the right service and a clock reading inside
    the window, a provider that cannot be reached makes
    [exchange_code_for_tokens] raise the token-exchange-failed error, and a
    provider that answers with an error object makes it raise the OAuth
    error, with the provider's description when there is one and its error
    code otherwise; in both cases the nonce is gone from the cache. *)
Theorem refused_exchange_spends_nonce
    (service code nonce redirect_uri : string) (now : Q)
    (cache : gmap string StateData) (state_data : StateData) :
  cache !! nonce = Some state_data ->
  (now - timestamp state_data <= 300)%Q ->
  service = OAuth2.service state_data ->
  service ∈ ["slack"; "jira"; "github"]%string ->
  (forall msg,
     exchange_code_for_tokens config (fun _ _ => HttpFails msg) service code nonce
       redirect_uri now cache
     = (Raise (ValueError ("Token exchange failed: " ++ msg)%string),
        delete nonce cache))
  /\ (forall tokens err,
        dict_find tokens "error" = Some err ->
        exchange_code_for_tokens config (fun _ _ => HttpJson tokens) service code nonce
          redirect_uri now cache
        = (Raise (ValueError
                    ("OAuth error: "
                       ++ py_str (default err (dict_find tokens "error_description")))%string),
           delete nonce cache)).
Proof.
  intros Hpending Hwindow Hsame Hservice.
  apply oauth_configs_supported in Hservice as [cd Hcd].
  split.
  - intros msg. unfold exchange_code_for_tokens. rewrite Hpending.
    rewrite (within_window _ _ Hwindow), <- Hsame, String.eqb_refl. cbn [negb].
    unfold exchange_request. rewrite Hcd. reflexivity.
  - intros tokens err Herr. unfold exchange_code_for_tokens. rewrite Hpending.
    rewrite (within_window _ _ Hwindow), <- Hsame, String.eqb_refl. cbn [negb].
    unfold exchange_request. rewrite Hcd, Herr. reflexivity.
Qed.

(** X6.  [refresh_access_token] asks the token endpoint with the refresh
    grant and returns five entries.  The refresh token it returns is the
    provider's when the answer has a [refresh_token] entry (also when that
    entry is null) and the old one when the answer has none; a service
    without configuration is refused before any request. *)
Theorem refresh_keeps_refresh_token
    (post : Provider) (service refresh_token : string) :
  (forall refreshed,
     refresh_access_token config post service refresh_token = Ok refreshed ->
     refreshed.*1
     = ["access_token"; "refresh_token"; "expires_in"; "token_type"; "scope"]%string
     /\ exists url data tokens,
          post url data = HttpJson tokens
          /\ In ("grant_type", "refresh_token"%string) data
          /\ In ("refresh_token", refresh_token) data
          /\ dict_get refreshed "refresh_token"
             = default (JStr refresh_token) (dict_find tokens "refresh_token"))
  /\ (service ∉ ["slack"; "jira"; "github"]%string ->
      refresh_access_token config post service refresh_token
      = Raise (ValueError ("Unsupported service: " ++ service)%string)).
Proof.
  split.
  - intros refreshed. unfold refresh_access_token.
    destruct (oauth_configs config !! service) as [cd|]; [|discriminate].
    match goal with |- context [post ?u ?d] => set (url := u); set (data := d) end.
    destruct (post url data) as [msg|tokens] eqn:Hpost; [discriminate|].
    destruct (dict_find tokens "error"); [discriminate|].
    intros [= <-]. split; [reflexivity|].
    exists url, data, tokens. split; [exact Hpost|].
    split; [cbn; auto|]. split; [cbn; auto|]. reflexivity.
  - intros Hservice. unfold refresh_access_token.
    destruct (oauth_configs config !! service) as [cd|] eqn:Hcd; [|reflexivity].
    exfalso. apply Hservice. apply oauth_configs_supported. eauto.
Qed.

End HandshakeEdges.

Lemma generate_auth_url_supported_services_witness :
  (exists url,
     OAuth2.generate_auth_url sample_config "jira" 7 "https://app/cb" "nonce-1" 1000 ∅
     = (Ok url,
        <["nonce-1" := {| OAuth2.user_id := 7; OAuth2.service := "jira";
                          OAuth2.timestamp := 1000 |}]> ∅)
     /\ OAuth2.state_param url = Some "nonce-1"%string)
  /\ OAuth2.generate_auth_url sample_config "aws" 7 "https://app/cb" "nonce-1" 1000 ∅
     = (Raise (ValueError "Unsupported service: aws"), ∅).
Proof.
  split.
  - destruct (proj1 (generate_auth_url_supported_services sample_config
                       "jira" "https://app/cb" "nonce-1" 7 1000 ∅))
      as (url & Hrun & Hstate & _).
    + repeat constructor.
    + exists url. split; assumption.
  - apply (proj2 (generate_auth_url_supported_services sample_config
                    "aws" "https://app/cb" "nonce-1" 7 1000 ∅)).
    intros Hin. set_unfold. destruct Hin as [?|[?|[?|[]]]]; discriminate.
Defined.

Lemma service_mismatch_consumes_nonce_witness :
  OAuth2.exchange_code_for_tokens sample_config accepting_provider
    "slack" "code-1" "nonce-1" "https://app/cb" 1060
    (<["nonce-1" := sample_state]> ∅)
  = (Raise OAuth2.ServiceMismatch, delete "nonce-1" (<["nonce-1" := sample_state]> ∅)).
Proof.
  apply (service_mismatch_consumes_nonce sample_config accepting_provider
           "slack" "code-1" "nonce-1" "https://app/cb" 1060
           (<["nonce-1" := sample_state]> ∅) sample_state).
  - reflexivity.
  - unfold Qle. simpl. lia.
  - discriminate.
Defined.

Lemma handshake_states_are_independent_witness :
  (OAuth2.exchange_code_for_tokens sample_config accepting_provider
     "github" "code-1" "nonce-1" "https://app/cb" 1060
     (<["nonce-2" := sample_state]> (<["nonce-1" := sample_state]> ∅))).2 !! "nonce-2"
  = Some sample_state.
Proof.
  rewrite (proj2 (handshake_states_are_independent sample_config "nonce-1" "nonce-2"
                    (<["nonce-2" := sample_state]> (<["nonce-1" := sample_state]> ∅))
                    ltac:(discriminate))).
  reflexivity.
Defined.

Lemma exchanged_tokens_are_normalized_witness :
  dict_find sample_tokens "user_id" = Some (JInt 7)
  /\ dict_find sample_tokens "service" = Some (JStr "github").
Proof.
  destruct (exchanged_tokens_are_normalized sample_config accepting_provider
              "github" "code-1" "https://app/cb" sample_state sample_tokens)
    as (_ & Hservice & Huser & _).
  - reflexivity.
  - split; [exact Huser | exact Hservice].
Defined.

Lemma refused_exchange_spends_nonce_witness :
  OAuth2.exchange_code_for_tokens sample_config
    (fun _ _ => OAuth2.HttpJson [("error", JStr "bad_verification_code")])
    "github" "code-1" "nonce-1" "https://app/cb" 1060
    (<["nonce-1" := sample_state]> ∅)
  = (Raise (ValueError "OAuth error: bad_verification_code"),
     delete "nonce-1" (<["nonce-1" := sample_state]> ∅)).
Proof.
  destruct (refused_exchange_spends_nonce sample_config
              "github" "code-1" "nonce-1" "https://app/cb" 1060
              (<["nonce-1" := sample_state]> ∅) sample_state)
    as [_ Herror].
  - reflexivity.
  - unfold Qle. simpl. lia.
  - reflexivity.
  - repeat constructor.
  - apply (Herror [("error", JStr "bad_verification_code")]
             (JStr "bad_verification_code")).
    reflexivity.
Defined.

Lemma refresh_keeps_refresh_token_witness :
  dict_get refreshed_answer "refresh_token" = JStr "refresh-1".
Proof.
  destruct (proj1 (refresh_keeps_refresh_token sample_config refreshing_provider
                     "jira" "refresh-1") refreshed_answer)
    as (_ & url & data & tokens & _ & _ & _ & Hkept).
  - reflexivity.
  - reflexivity.
Defined.

(** ** Sessions *)

Section Sessions.

Import UserManager.

Lemma session_live (now : Q) (data : SessionData) :
  (now - session_created_at data <= 86400)%Q ->
  negb (Qle_bool (now - session_created_at data) 86400) = false.
Proof. intros H. apply Qle_bool_iff in H. rewrite H. reflexivity. Qed.

Lemma session_dead (now : Q) (data : SessionData) :
  (86400 < now - session_created_at data)%Q ->
  negb (Qle_bool (now - session_created_at data) 86400) = true.
Proof.
  intros H. destruct (Qle_bool _ _) eqn:E; [|reflexivity].
  apply Qle_bool_iff in E. exfalso. exact (Qlt_not_le _ _ H E).
Qed.

(** X7.  The lifetime of a session is fixed when it is created.  An access
    within 24 hours of the creation, for an active user, returns the user and
    changes nothing but the last-activity time of the session; an access more
    than 24 hours after the creation returns nothing and removes the
    session, however recent that last activity is. *)
Theorem session_lifetime_is_fixed_at_creation
    (token : string) (now now_activity later later_activity : Q)
    (users : gmap Z User) (user : User)
    (cache : gmap string SessionData) (data : SessionData) :
  cache !! token = Some data ->
  query_user users (user_id data) = Some user ->
  is_active user = true ->
  (now - session_created_at data <= 86400)%Q ->
  (86400 < later - session_created_at data)%Q ->
  let touched :=
    <[token := {| user_id := user_id data;
                  session_created_at := session_created_at data;
                  last_activity := now_activity |}]> cache in
  get_user_from_session token now now_activity users cache = (Some user, touched)
  /\ get_user_from_session token later later_activity users touched
     = (None, delete token cache).
Proof.
  intros Hsession Huser Hactive Hlive Hdead touched. split.
  - unfold get_user_from_session. rewrite Hsession, (session_live _ _ Hlive).
    rewrite Huser, Hactive. reflexivity.
  - unfold get_user_from_session, touched. rewrite lookup_insert_eq.
    cbn [session_created_at].
    rewrite (session_dead _ _ Hdead), delete_insert_eq. reflexivity.
Qed.

(** X8.  Logging out ends a session for good: after [create_session] and
    [invalidate_session] on its token, the cache holds nothing under the
    token, an access with the token returns nothing and a second
    [invalidate_session] returns false, both leaving the cache unchanged. *)
Theorem invalidated_session_is_gone
    (user : Z) (token : string) (t_created t_activity now now_activity : Q)
    (users : gmap Z User) (cache : gmap string SessionData) :
  let '(session_token, logged_in) :=
    create_session user token t_created t_activity cache in
  session_token = token
  /\ invalidate_session session_token logged_in = (true, delete token cache)
  /\ delete token cache !! token = None
  /\ get_user_from_session token now now_activity users (delete token cache)
     = (None, delete token cache)
  /\ invalidate_session token (delete token cache) = (false, delete token cache).
Proof.
  cbn. split; [reflexivity|]. split.
  - unfold invalidate_session. rewrite lookup_insert_eq, delete_insert_eq. reflexivity.
  - split; [apply lookup_delete_eq|]. split.
    + unfold get_user_from_session. rewrite lookup_delete_eq. reflexivity.
    + unfold invalidate_session. rewrite lookup_delete_eq. reflexivity.
Qed.

(** X9.  A session whose user is gone or is no longer active does not
    survive an access: the access returns nothing and removes the session,
    so the token stays useless when the account is activated again. *)
Theorem session_of_inactive_user_is_destroyed
    (token : string) (now now_activity : Q) (users : gmap Z User)
    (cache : gmap string SessionData) (data : SessionData) :
  cache !! token = Some data ->
  (now - session_created_at data <= 86400)%Q ->
  (query_user users (user_id data) = None
   \/ exists user, query_user users (user_id data) = Some user
                   /\ is_active user = false) ->
  get_user_from_session token now now_activity users cache
  = (None, delete token cache)
  /\ forall users' later later_activity,
       get_user_from_session token later later_activity users' (delete token cache)
       = (None, delete token cache).
Proof.
  intros Hsession Hlive Hgone. split.
  - unfold get_user_from_session. rewrite Hsession, (session_live _ _ Hlive).
    destruct Hgone as [-> | (user & -> & ->)]; rewrite delete_insert_eq; reflexivity.
  - intros. unfold get_user_from_session. rewrite lookup_delete_eq. reflexivity.
Qed.

Lemma lookup_foldr_delete (tokens : list string) (cache : gmap string SessionData)
    (token : string) :
  foldr delete cache tokens !! token
  = if bool_decide (token ∈ tokens) then None else cache !! token.
Proof.
  induction tokens as [|t tokens IH]; cbn.
  - reflexivity.
  - destruct (decide (t = token)) as [->|Hne].
    + rewrite lookup_delete_eq, bool_decide_eq_true_2 by (apply elem_of_cons; left; reflexivity). reflexivity.
    + rewrite lookup_delete_ne by exact Hne. rewrite IH.
      destruct (bool_decide (token ∈ tokens)) eqn:E.
      * apply bool_decide_eq_true_1 in E.
        rewrite bool_decide_eq_true_2 by (apply elem_of_cons; right; exact E). reflexivity.
      * apply bool_decide_eq_false_1 in E.
        rewrite bool_decide_eq_false_2; [reflexivity|].
        intros Hin. apply elem_of_cons in Hin as [Heq|Hin]; [|contradiction].
        congruence.
Qed.

Lemma cleanup_lookup (now : Q) (cache : gmap string SessionData) (token : string) :
  cleanup_expired_sessions now cache !! token
  = match cache !! token with
    | Some data => if session_expired now data then None else Some data
    | None => None
    end.
Proof.
  unfold cleanup_expired_sessions. rewrite lookup_foldr_delete.
  destruct (cache !! token) as [data|] eqn:Hsession.
  - destruct (session_expired now data) eqn:Hexpired.
    + rewrite bool_decide_eq_true_2; [reflexivity|].
      apply list_elem_of_fmap. exists (token, data). split; [reflexivity|].
      apply list_elem_of_filter. split; [exact Hexpired|].
      apply elem_of_map_to_list. exact Hsession.
    + rewrite bool_decide_eq_false_2; [reflexivity|].
      intros Hin. apply list_elem_of_fmap in Hin as ([t d] & Ht & Hin).
      cbn in Ht. subst t.
      apply list_elem_of_filter in Hin as [Hexp Hin].
      apply elem_of_map_to_list in Hin. cbn in Hexp. congruence.
  - case_bool_decide as Hin; reflexivity.
Qed.

(** X10.  [cleanup_expired_sessions] removes the sessions that are past
    their 24 hours and keeps every other session as it is.  Sweeping twice at
    the same time is sweeping once, and the sweep never removes a session
    that an access at the same time would have accepted: whatever it removes,
    an access would have refused. *)
Theorem cleanup_removes_exactly_expired_sessions
    (now : Q) (cache : gmap string SessionData) :
  (forall token data,
     cleanup_expired_sessions now cache !! token = Some data
     <-> cache !! token = Some data
         /\ (now - session_created_at data <= 86400)%Q)
  /\ cleanup_expired_sessions now (cleanup_expired_sessions now cache)
     = cleanup_expired_sessions now cache
  /\ (forall token now_activity users,
        cleanup_expired_sessions now cache !! token = None ->
        (get_user_from_session token now now_activity users cache).1 = None).
Proof.
  split; [|split].
  - intros token data. rewrite cleanup_lookup.
    destruct (cache !! token) as [data'|]; [|split; [discriminate|intros [? _]; discriminate]].
    unfold session_expired.
    destruct (Qle_bool (now - session_created_at data') 86400) eqn:E; cbn.
    + split.
      * intros [= ->]. split; [reflexivity|]. apply Qle_bool_iff. exact E.
      * intros [[= ->] _]. reflexivity.
    + split; [discriminate|]. intros [[= ->] Hle].
      apply Qle_bool_iff in Hle. congruence.
  - apply map_eq. intros token. rewrite !cleanup_lookup.
    destruct (cache !! token) as [data|]; [|reflexivity].
    destruct (session_expired now data) eqn:E; [reflexivity|]. rewrite E. reflexivity.
  - intros token now_activity users. rewrite cleanup_lookup.
    unfold get_user_from_session.
    destruct (cache !! token) as [data|]; [|reflexivity].
    unfold session_expired.
    destruct (negb (Qle_bool (now - session_created_at data) 86400));
      [reflexivity|discriminate].
Qed.

End Sessions.

(** ** Passwords *)

Section Passwords.

Import UserManager.

Variable pbkdf2_hmac : string -> string -> list Byte.byte.

Lemma hex_digit_not_colon (n : N) : Ascii.eqb (hex_digit n) ":" = false.
Proof.
  destruct n as [|p]; [reflexivity|].
  do 5 (try (destruct p as [p|p|]; try reflexivity)).
Qed.

Lemma hex_has_no_colon (bytes : list Byte.byte) : occurs ":" (hex bytes) = false.
Proof.
  induction bytes as [|b bytes IH]; [reflexivity|].
  cbn [hex occurs]. rewrite !hex_digit_not_colon. exact IH.
Qed.

Lemma py_split_without_separator (sep : ascii) (s : string) :
  occurs sep s = false -> py_split sep s = [s].
Proof.
  induction s as [|c s IH]; [reflexivity|].
  cbn [py_split occurs]. destruct (Ascii.eqb c sep); [discriminate|].
  intros H. rewrite (IH H). reflexivity.
Qed.

Lemma py_split_at_first_separator (sep : ascii) (a b : string) :
  occurs sep a = false ->
  py_split sep (a ++ String sep b)%string = a :: py_split sep b.
Proof.
  induction a as [|c a IH].
  - intros _. change (py_split sep (String sep b) = EmptyString :: py_split sep b).
    cbn [py_split]. rewrite Ascii.eqb_refl. reflexivity.
  - change (occurs sep (String c a) = false ->
            py_split sep (String c (a ++ String sep b)%string)
            = String c a :: py_split sep b).
    cbn [py_split occurs]. destruct (Ascii.eqb c sep); [discriminate|].
    intros H. rewrite (IH H). reflexivity.
Qed.

(** X11.  A password verifies against the hash made from it: for a salt
    without a colon (the salts drawn are hexadecimal),
    [verify_password] accepts the password that [hash_password] was given.
    A stored value without a colon is never accepted, whatever the
    password. *)
Theorem hashed_password_verifies (password salt : string) :
  occurs ":" salt = false ->
  verify_password pbkdf2_hmac password (hash_password pbkdf2_hmac password salt) = true
  /\ forall attempt stored,
       occurs ":" stored = false ->
       verify_password pbkdf2_hmac attempt stored = false.
Proof.
  intros Hsalt. split.
  - unfold verify_password, hash_password.
    change (salt ++ ":" ++ hex (pbkdf2_hmac password salt))%string
      with (salt ++ String ":" (hex (pbkdf2_hmac password salt)))%string.
    rewrite (py_split_at_first_separator _ _ _ Hsalt).
    rewrite (py_split_without_separator _ _ (hex_has_no_colon _)).
    apply String.eqb_refl.
  - intros attempt stored Hstored. unfold verify_password.
    rewrite (py_split_without_separator _ _ Hstored). reflexivity.
Qed.

End Passwords.

(** ** Profile updates *)

Section Profiles.

Import UserManager.




End Profiles.

Lemma session_lifetime_is_fixed_at_creation_witness :
  (UserManager.get_user_from_session "tok-alice" 100 101 sample_users sample_sessions).1
  = Some alice
  /\ (UserManager.get_user_from_session "tok-alice" 90000 90001 sample_users
        (<["tok-alice" := {| UserManager.user_id := 7;
                             UserManager.session_created_at := 0;
                             UserManager.last_activity := 101 |}]> sample_sessions)).1
     = None.
Proof.
  destruct (session_lifetime_is_fixed_at_creation "tok-alice" 100 101 90000 90001
              sample_users alice sample_sessions (session_of 7 0))
    as [Hfirst Hlater].
  - reflexivity.
  - reflexivity.
  - reflexivity.
  - unfold Qle. simpl. lia.
  - unfold Qlt. simpl. lia.
  - cbn in Hfirst, Hlater. rewrite Hfirst, Hlater. split; reflexivity.
Defined.

Lemma session_of_inactive_user_is_destroyed_witness :
  UserManager.get_user_from_session "tok-bob" 50100 50101 sample_users sample_sessions
  = (None, delete "tok-bob" sample_sessions).
Proof.
  apply (session_of_inactive_user_is_destroyed "tok-bob" 50100 50101 sample_users
           sample_sessions (session_of 8 50000)).
  - reflexivity.
  - unfold Qle. simpl. lia.
  - right. exists bob. split; reflexivity.
Defined.

Lemma cleanup_removes_exactly_expired_sessions_witness :
  UserManager.cleanup_expired_sessions 90000 sample_sessions !! "tok-bob"
  = Some (session_of 8 50000)
  /\ (UserManager.get_user_from_session "tok-alice" 90000 90001 sample_users
        sample_sessions).1 = None.
Proof.
  destruct (cleanup_removes_exactly_expired_sessions 90000 sample_sessions)
    as (Hkept & _ & Hrefused).
  split.
  - apply Hkept. split; [reflexivity|]. unfold Qle. simpl. lia.
  - apply Hrefused. vm_compute. reflexivity.
Defined.

Lemma hashed_password_verifies_witness :
  UserManager.verify_password sample_kdf "s3cret"
    (UserManager.hash_password sample_kdf "s3cret" "00ff") = true.
Proof.
  apply (hashed_password_verifies sample_kdf "s3cret" "00ff"). reflexivity.
Defined.


(** ** The agent, continued *)

Section AgentTraces.

Import Agent.

Variable world : World.
Variable user_id : Z.
Variable system_prompt : string.

(** One intent, with its trace: the clock is read, at most one request goes
    to the outside world, the clock is read again and the row is written
    under the next key. *)
Lemma execute_function_call_trace {L} (intent : Intent) (action_id : Z) (st : State L) :
  exists entry row events,
    _execute_function_call world intent action_id st
    = (Ok entry, {| locals := locals st; db := record_calls [row] (db st);
                    history := history st ++ ClockRead :: events ++ [ClockRead] |})
    /\ FunctionCall.id row = Some (next_call_id (db st))
    /\ call_traced world (history st) intent events row.
Proof.
  destruct intent as [fname params], st as [l d h].
  run_monad.
  repeat case_match; simplify_eq/=; name_cases.
  all: rewrite <- ?(assoc_L (++)); cbn.
  all: lazymatch goal with
       | |- context [Build_State _ _ _ (_ ++ [ClockRead; ClockRead])] =>
           eexists _, _, []
       | |- context [Build_State _ _ _ (_ ++ [ClockRead; ?e; ClockRead])] =>
           eexists _, _, [e]
       end.
  all: split; [reflexivity|]; split; [reflexivity|].
  all: unfold call_traced; cbn -[millis_between].
  all: split; [reflexivity|]; split; [reflexivity|].
  all: split;
    [ first [ left; split; reflexivity | right; repeat split; reflexivity ] |].
  all: split.
  all: first
    [ solve [ unfold external_calls; cbn;
              first
                [ left; reflexivity
                | right; left; eexists _, _, _; split; [reflexivity|];
                  split; [unfold service_calls; known_name|reflexivity]
                | right; right; eexists; split; reflexivity ] ]
    | solve [ unfold compensation_bound; cbn; intros Hs;
              first
                [ destruct Hs; discriminate
                | split; [reflexivity|]; eexists _, _, _; split; reflexivity ] ] ].
Qed.

Lemma adapter_calls_app (events events' : list Event) :
  adapter_calls (events ++ events') = adapter_calls events ++ adapter_calls events'.
Proof. apply List.filter_app. Qed.

Lemma external_calls_forward (intent : Intent) (events : list Event) :
  external_calls intent events ->
  Forall forward_call events /\ (length (adapter_calls events) <= 1)%nat.
Proof.
  intros [->|[(s & m & kw & -> & Hin & Hacc)|(msgs & -> & _)]]; cbn.
  - split; [constructor|lia].
  - split; [|lia]. constructor; [|constructor].
    split; [exists (name intent); exact Hin|exact Hacc].
  - split; [|lia]. repeat constructor.
Qed.

(** A list of intents, with its trace. *)
Lemma dispatch_all_trace {L} (intents : list Intent) (action_id : Z) (st : State L) :
  exists entries rows events,
    for_each (fun function_call => _execute_function_call world function_call action_id)
             intents st
    = (Ok entries, {| locals := locals st; db := record_calls rows (db st);
                      history := history st ++ events |})
    /\ length rows = length intents
    /\ keyed_from (next_call_id (db st)) rows
    /\ Forall (traced_row world intents) rows
    /\ Forall forward_call events
    /\ (length (adapter_calls events) <= length intents)%nat.
Proof.
  revert st. induction intents as [|intent intents IH]; intros st.
  - exists [], [], []. split; [|repeat split; try constructor].
    + destruct st. cbn. unfold ret. rewrite record_calls_nil, app_nil_r. reflexivity.
    + intros k row Hk. destruct k; discriminate.
  - destruct (execute_function_call_trace intent action_id st)
      as (entry & row & ev1 & Hrun & Hid & Htraced).
    destruct (IH {| locals := locals st; db := record_calls [row] (db st);
                    history := history st ++ ClockRead :: ev1 ++ [ClockRead] |})
      as (entries & rows & ev2 & Hrest & Hlen & Hkeys & Hrows & Hfwd & Hcount).
    destruct (external_calls_forward intent ev1) as [Hfwd1 Hcount1];
      [exact (proj1 (proj2 (proj2 (proj2 Htraced))))|].
    exists (entry :: entries), (row :: rows), ((ClockRead :: ev1 ++ [ClockRead]) ++ ev2).
    split; [|split; [|split; [|split; [|split]]]].
    + cbn [for_each]. unfold mbind, M_bind, bind at 1. rewrite Hrun.
      unfold bind at 1. rewrite Hrest. cbn.
      unfold mret, M_ret, ret. rewrite record_calls_app.
      cbn. rewrite <- !(assoc_L (++)). cbn. rewrite <- ?(assoc_L (++)). reflexivity.
    + cbn. rewrite Hlen. reflexivity.
    + intros k r Hk. destruct k as [|k]; cbn in Hk.
      * injection Hk as <-. rewrite Hid. f_equal. lia.
      * rewrite (Hkeys k r Hk). cbn. f_equal. lia.
    + constructor.
      * exists (history st), intent, ev1. split; [left; reflexivity|exact Htraced].
      * eapply Forall_impl; [exact Hrows|].
        intros r (h & i & mid & Hin & Ht). exists h, i, mid.
        split; [right; exact Hin|exact Ht].
    + apply Forall_app. split; [|exact Hfwd].
      constructor; [exact I|]. apply Forall_app. split; [exact Hfwd1|].
      repeat constructor.
    + rewrite adapter_calls_app. change (ClockRead :: ev1 ++ [ClockRead])
        with ([ClockRead] ++ ev1 ++ [ClockRead]).
      rewrite !adapter_calls_app, !length_app. cbn. lia.
Qed.

(** [_call_llm_with_functions], with its trace. *)
Lemma call_llm_trace {L} (command : string) (action_id : Z) (st : State L) :
  match llm world (history st) (messages system_prompt command) with
  | Raise e =>
      _call_llm_with_functions world system_prompt command action_id st
      = (Raise e, {| locals := locals st; db := db st;
                     history := history st ++ [ChatCompletion (messages system_prompt command)] |})
  | Ok response =>
      exists output rows events,
        _call_llm_with_functions world system_prompt command action_id st
        = (Ok output,
           {| locals := locals st; db := record_calls rows (db st);
              history := history st ++ ChatCompletion (messages system_prompt command) :: events |})
        /\ length rows = length (LLMResponse.function_calls response)
        /\ keyed_from (next_call_id (db st)) rows
        /\ Forall (traced_row world (LLMResponse.function_calls response)) rows
        /\ Forall forward_call events
        /\ (length (adapter_calls events)
            <= length (LLMResponse.function_calls response))%nat
  end.
Proof.
  unfold _call_llm_with_functions. fold (messages system_prompt command).
  destruct (llm world (history st) (messages system_prompt command)) as [response|e] eqn:Hllm.
  2:{ apply run_bind_raise. unfold chat_completion. rewrite Hllm. reflexivity. }
  set (st1 := {| locals := locals st; db := db st;
                 history := history st ++ [ChatCompletion (messages system_prompt command)] |}).
  destruct (dispatch_all_trace (LLMResponse.function_calls response) action_id st1)
    as (entries & rows & events & Hrun & Hlen & Hkeys & Hrows & Hfwd & Hcount).
  assert (Hloop :
    (if LLMResponse.has_function_calls response
     then for_each (fun function_call =>
                      _execute_function_call world function_call action_id)
                   (LLMResponse.function_calls response)
     else ret []) st1
    = (Ok entries, {| locals := locals st; db := record_calls rows (db st);
                      history := history st ++ ChatCompletion (messages system_prompt command)
                                                 :: events |})).
  { unfold LLMResponse.has_function_calls.
    destruct (LLMResponse.function_calls response) eqn:E.
    - cbn. cbn in Hrun. rewrite Hrun. unfold st1. cbn.
      rewrite <- (assoc_L (++)). reflexivity.
    - cbn [length Nat.ltb Nat.leb]. rewrite Hrun. unfold st1. cbn.
      rewrite <- (assoc_L (++)). reflexivity. }
  exists (match entries with
          | [] => [("response", JStr (LLMResponse.content response))]
          | _ => [("function_results", JList (JDict <$> entries));
                  ("summary",
                     JStr (if String.eqb (LLMResponse.content response) ""
                           then "Functions executed successfully"
                           else LLMResponse.content response))]
          end), rows, events.
  split; [|repeat split; assumption].
  erewrite run_bind_ok; [|unfold chat_completion; rewrite Hllm; reflexivity].
  fold st1. erewrite run_bind_ok; [|exact Hloop].
  destruct entries; reflexivity.
Qed.

(** [execute_command], with its trace. *)
Lemma execute_command_trace {L} (command : string) (st : State L) :
  let aid := next_action_id (db st) in
  exists resp action rows events,
    execute_command world user_id system_prompt command st
    = (Ok resp,
       {| locals := locals st;
          db := {| actions := <[aid := action]> (actions (db st));
                   function_calls := function_calls (db st) ++ rows;
                   next_action_id := aid + 1;
                   next_call_id := next_call_id (db st) + Z.of_nat (length rows) |};
          history := history st ++ ClockRead
                       :: ChatCompletion (messages system_prompt command)
                       :: events ++ [ClockRead] |})
    /\ AutomationAction.id action = Some aid
    /\ keyed_from (next_call_id (db st)) rows
    /\ Forall forward_call events
    /\ match llm world (history st ++ [ClockRead]) (messages system_prompt command) with
       | Ok response =>
           length rows = length (LLMResponse.function_calls response)
           /\ Forall (traced_row world (LLMResponse.function_calls response)) rows
           /\ (length (adapter_calls events)
               <= length (LLMResponse.function_calls response))%nat
       | Raise e => rows = [] /\ events = []
       end.
Proof.
  destruct st as [l d h]. cbn [db history locals].
  pose proof (call_llm_trace command (next_action_id d)
                {| locals :=
                     AutomationAction.set_id (Some (next_action_id d))
                       (AutomationAction.new user_id "ai_automation" command IN_PROGRESS
                          (JDict [("command", JStr command)]) (clock world h));
                   db := {| actions :=
                              <[next_action_id d :=
                                  AutomationAction.set_id (Some (next_action_id d))
                                    (AutomationAction.new user_id "ai_automation" command
                                       IN_PROGRESS (JDict [("command", JStr command)])
                                       (clock world h))]> (actions d);
                            function_calls := function_calls d;
                            next_action_id := next_action_id d + 1;
                            next_call_id := next_call_id d |};
                   history := h ++ [ClockRead] |}) as Hllm.
  cbn -[_call_llm_with_functions] in Hllm.
  unfold execute_command, with_local, try_except, commit_action, utcnow,
    modify_local, get_local, mbind, M_bind, bind, mret, M_ret, ret.
  cbn -[_call_llm_with_functions millis_between].
  destruct (llm world (h ++ [ClockRead]) (messages system_prompt command)) as [response|e].
  - destruct Hllm as (output & rows & events & Hrun & Hlen & Hkeys & Hrows & Hfwd & Hcount).
    fold (messages system_prompt command). rewrite Hrun.
    cbn -[millis_between].
    rewrite insert_insert_eq, <- !(assoc_L (++)).
    eexists _, _, rows, events. split; [reflexivity|].
    cbn -[millis_between]. repeat (split; [assumption || reflexivity|]).
    repeat split; assumption.
  - fold (messages system_prompt command). rewrite Hllm.
    cbn. rewrite insert_insert_eq, <- !(assoc_L (++)).
    eexists _, _, [], []. split.
    { rewrite app_nil_r, Z.add_0_r. reflexivity. }
    cbn. split; [reflexivity|]. split; [intros k row Hk; destruct k; discriminate|].
    split; [constructor|]. split; reflexivity.
Qed.

End AgentTraces.

(** ** The offered functions and the dispatcher *)

Section OfferedFunctions.

Import Agent.

Variable world : World.



End OfferedFunctions.

(** ** What a command does to the outside world and to the ledger *)

Section CommandEffects.

Import Agent.

Variable world : World.
Variable user_id : Z.
Variable system_prompt : string.

(** X15.  [execute_command] never compensates.  Whatever the language model
    plans and whatever the adapters answer, every adapter operation that a
    command invokes is one of the four forward operations (reading Slack
    messages, creating a ticket, uploading content, searching
    repositories), so no delete operation is ever invoked by a command;
    there is at most one adapter operation per planned intent, and none at
    all when the language model cannot be reached. *)
Theorem execute_command_never_compensates {L} (command : string) (st : State L) :
  exists events,
    history (execute_command world user_id system_prompt command st).2
    = history st ++ events
    /\ (forall service method kwargs,
          In (AdapterCall service method kwargs) events ->
          In (service, method)
             [(SLACK, "get_messages"); (JIRA, "create_ticket");
              (AWS_S3, "upload_content"); (GITHUB, "search_repositories")]%string)
    /\ match llm world (history st ++ [ClockRead]) (messages system_prompt command) with
       | Ok response =>
           (length (adapter_calls events)
            <= length (LLMResponse.function_calls response))%nat
       | Raise _ => adapter_calls events = []
       end.
Proof.
  destruct (execute_command_trace world user_id system_prompt command st)
    as (resp & action & rows & events & Hrun & _ & _ & Hfwd & Hcase).
  exists (ClockRead :: ChatCompletion (messages system_prompt command)
            :: events ++ [ClockRead]).
  rewrite Hrun. split; [reflexivity|]. split.
  - intros service method kwargs Hin.
    destruct Hin as [Hin|[Hin|Hin]]; [discriminate..|].
    apply in_app_or in Hin. destruct Hin as [Hin|[Hin|[]]]; [|discriminate].
    rewrite Forall_forall in Hfwd. apply list_elem_of_In in Hin.
    specialize (Hfwd _ Hin). cbn in Hfwd.
    destruct Hfwd as [(f & Hf) _]. unfold service_calls in Hf. cbn in Hf.
    destruct Hf as [Hf|[Hf|[Hf|[Hf|[]]]]]; injection Hf as <- <- <-; known_name.
  - change (ClockRead :: ChatCompletion (messages system_prompt command)
              :: events ++ [ClockRead])
      with ([ClockRead; ChatCompletion (messages system_prompt command)]
              ++ events ++ [ClockRead]).
    rewrite !adapter_calls_app. cbn. rewrite app_nil_r.
    destruct (llm world (history st ++ [ClockRead]) (messages system_prompt command)).
    + apply Hcase.
    + destruct Hcase as [_ ->]. reflexivity.
Qed.


(** X17.  The keys of the ledger stay unique.  From a ledger whose rows sit
    under their own keys, below the next key of their sequence,
    [execute_command] and [rollback_action] lead to such a ledger again; a
    command rewrites no action that was there before and only appends call
    rows, and a rollback draws no key. *)
Theorem ledger_keys_stay_unique
    {L} (command : string) (action_id : Z) (reason : string) (st : State L) :
  ledger_keys_ok (db st) ->
  let executed := db (execute_command world user_id system_prompt command st).2 in
  let reverted := db (rollback_action world user_id action_id reason st).2 in
  ledger_keys_ok executed
  /\ (forall i action,
        actions (db st) !! i = Some action -> actions executed !! i = Some action)
  /\ (exists rows, function_calls executed = function_calls (db st) ++ rows)
  /\ ledger_keys_ok reverted
  /\ next_action_id reverted = next_action_id (db st)
  /\ next_call_id reverted = next_call_id (db st).
Proof.
  intros (Hactions & Hcalls & Hnodup) executed reverted.
  subst executed reverted.
  destruct (execute_command_trace world user_id system_prompt command st)
    as (resp & action & rows & events & Hrun & Hid & Hkeys & _ & _).
  rewrite Hrun. unfold ledger_keys_ok.
  cbn [snd db actions function_calls next_action_id next_call_id].
  assert (Hnew : forall row, row ∈ rows ->
            exists k, (k < length rows)%nat
                      /\ FunctionCall.id row = Some (next_call_id (db st) + Z.of_nat k)%Z).
  { intros row Hin. apply list_elem_of_lookup in Hin. destruct Hin as [k Hk].
    exists k. split; [eapply lookup_lt_Some; exact Hk|apply Hkeys; exact Hk]. }
  split; [split; [|split]|split; [|split; [eexists; reflexivity|]]].
  - intros i a Hi. destruct (decide (i = next_action_id (db st))) as [->|Hne].
    + rewrite lookup_insert_eq in Hi. injection Hi as <-. split; [exact Hid|lia].
    + rewrite lookup_insert_ne in Hi by congruence.
      destruct (Hactions i a Hi) as [? ?]. split; [assumption|lia].
  - apply Forall_app. split.
    + eapply Forall_impl; [exact Hcalls|]. intros row (i & Hi & Hlt).
      exists i. split; [exact Hi|lia].
    + apply Forall_forall. intros row Hin.
      destruct (Hnew row Hin) as (k & Hk & Hrow).
      eexists. split; [exact Hrow|lia].
  - rewrite fmap_app. apply NoDup_app. split; [exact Hnodup|]. split.
    + intros oid Hold Hnew'.
      apply list_elem_of_fmap in Hold. destruct Hold as (r & -> & Hr).
      apply list_elem_of_fmap in Hnew'. destruct Hnew' as (r' & Heq & Hr').
      rewrite Forall_forall in Hcalls.
      destruct (Hcalls r Hr) as (i & Hi & Hlt).
      destruct (Hnew r' Hr') as (k & _ & Hrow). rewrite Hi, Hrow in Heq.
      injection Heq as Heq. lia.
    + apply NoDup_alt. intros k1 k2 oid H1 H2.
      rewrite list_lookup_fmap in H1, H2.
      destruct (rows !! k1) as [r1|] eqn:E1; [|discriminate].
      destruct (rows !! k2) as [r2|] eqn:E2; [|discriminate].
      cbn in H1, H2. rewrite (Hkeys k1 r1 E1) in H1. rewrite (Hkeys k2 r2 E2) in H2.
      rewrite <- H2 in H1. injection H1 as H1. lia.
  - intros i a Hi. destruct (decide (i = next_action_id (db st))) as [->|Hne].
    + destruct (Hactions _ a Hi) as [_ Hlt]. lia.
    + rewrite lookup_insert_ne by congruence. exact Hi.
  - destruct (query_action user_id (db st) action_id) as [a|] eqn:Hq.
    2:{ destruct (rollback_action_rejected world user_id action_id reason st)
          as (r & Hr & _); [left; exact Hq|].
        rewrite Hr. cbn [snd].
        split; [split; [exact Hactions|split; assumption]|split; reflexivity]. }
    destruct (AutomationAction.can_rollback a) eqn:Hcan.
    2:{ destruct (rollback_action_rejected world user_id action_id reason st)
          as (r & Hr & _); [right; exists a; split; [exact Hq|left; exact Hcan]|].
        rewrite Hr. cbn [snd].
        split; [split; [exact Hactions|split; assumption]|split; reflexivity]. }
    destruct (decide (AutomationAction.status a = ROLLED_BACK)) as [Hst|Hst].
    { destruct (rollback_action_rejected world user_id action_id reason st)
        as (r & Hr & _); [right; exists a; split; [exact Hq|right; exact Hst]|].
      rewrite Hr. cbn [snd].
        split; [split; [exact Hactions|split; assumption]|split; reflexivity]. }
    destruct (rollback_action_run world user_id action_id reason st a Hq Hcan Hst)
      as (entries & Hr & _).
    rewrite Hr. cbn [snd db actions function_calls next_action_id next_call_id].
    destruct (query_action_Some user_id (db st) action_id a Hq) as (Hlook & Hida & _).
    split; [|split; reflexivity].
    split; [|split; assumption].
    intros i a' Hi. destruct (decide (i = action_id)) as [->|Hne].
    + rewrite lookup_insert_eq in Hi. injection Hi as <-.
      split; [destruct a; exact Hida|]. apply (Hactions _ _ Hlook).
    + rewrite lookup_insert_ne in Hi by congruence. apply (Hactions _ _ Hi).
Qed.

(** X18.  A rollback is not repeated.  After a rollback that was carried
    out, a second rollback of the same action is refused as already rolled
    back, whatever reason is given, and changes nothing: no compensation is
    invoked a second time. *)
Theorem rollback_is_not_repeated
    {L} (action_id : Z) (reason reason' : string) (st : State L)
    (action : AutomationAction.t) :
  query_action user_id (db st) action_id = Some action ->
  AutomationAction.can_rollback action = true ->
  AutomationAction.status action <> ROLLED_BACK ->
  let st' := (rollback_action world user_id action_id reason st).2 in
  rollback_action world user_id action_id reason' st'
  = (Ok {| success := false;
           message := "Action already rolled back";
           data := None; action_id := None; rollback_available := false |},
     st').
Proof.
  intros Hq Hcan Hst st'. subst st'.
  destruct (rollback_action_run world user_id action_id reason st action Hq Hcan Hst)
    as (entries & Hr & _).
  rewrite Hr. cbn [snd].
  destruct (query_action_Some user_id (db st) action_id action Hq)
    as (Hlook & Hida & Huser).
  unfold rollback_action at 1.
  unfold mbind, M_bind, bind, get_db. cbn [db].
  unfold query_action. cbn [actions]. rewrite lookup_insert_eq.
  destruct action. cbn in *. subst.
  rewrite bool_decide_eq_true_2 by (split; reflexivity).
  cbn. reflexivity.
Qed.

(** X24.  The adapter calls of the agent match the signatures of the
    adapter methods.  Every adapter operation that a command invokes is
    called with keyword arguments that the method takes, all of its
    parameters without a default among them.  Every compensation that a
    command records belongs to a completed call and resolves to a method of
    the service of the call that takes the recorded keyword arguments, and a
    rollback of the row asks the adapter for exactly that. *)
Theorem adapter_calls_match_signatures {L} (command : string) (st : State L) :
  exists rows events,
    history (execute_command world user_id system_prompt command st).2
    = history st ++ events
    /\ function_calls (db (execute_command world user_id system_prompt command st).2)
       = function_calls (db st) ++ rows
    /\ (forall service method kwargs,
          In (AdapterCall service method kwargs) events ->
          accepted service method kwargs = true)
    /\ Forall (fun row =>
                 is_Some (FunctionCall.rollback_function row) ->
                 FunctionCall.status row = COMPLETED
                 /\ exists service method kwargs,
                      compensation_request row = Ok (service, method, kwargs)
                      /\ accepted service method kwargs = true
                      /\ forall st' : State L,
                           history (rollback_call world row st').2
                           = history st' ++ [AdapterCall service method kwargs])
              rows.
Proof.
  destruct (execute_command_trace world user_id system_prompt command st)
    as (resp & action & rows & events & Hrun & _ & _ & Hfwd & Hcase).
  exists rows, (ClockRead :: ChatCompletion (messages system_prompt command)
                  :: events ++ [ClockRead]).
  rewrite Hrun. split; [reflexivity|]. split; [reflexivity|]. split.
  - intros service method kwargs Hin.
    destruct Hin as [Hin|[Hin|Hin]]; [discriminate..|].
    apply in_app_or in Hin. destruct Hin as [Hin|[Hin|[]]]; [|discriminate].
    rewrite Forall_forall in Hfwd. apply list_elem_of_In in Hin.
    apply (Hfwd _ Hin).
  - destruct (llm world (history st ++ [ClockRead]) (messages system_prompt command)).
    2:{ destruct Hcase as [-> _]. constructor. }
    destruct Hcase as (_ & Hrows & _).
    eapply Forall_impl; [exact Hrows|].
    intros row (h & intent & mid & _ & _ & _ & _ & _ & Hbound) Hsome.
    destruct (Hbound Hsome) as (Hstatus & service & method & kwargs & Hreq & Hacc).
    split; [exact Hstatus|]. exists service, method, kwargs.
    split; [exact Hreq|]. split; [exact Hacc|].
    intros st'. destruct (rollback_call_run world row st') as (entry & Hroll & _).
    rewrite Hroll. cbn. unfold compensation_events. rewrite Hreq. reflexivity.
Qed.

End CommandEffects.




Lemma ledger_keys_stay_unique_witness :
  ledger_keys_ok (db reversible_state)
  /\ ledger_keys_ok
       (db (Agent.execute_command sample_world 7 "" "file the report" reversible_state).2)
  /\ ledger_keys_ok
       (db (Agent.rollback_action sample_world 7 1 "mistake" reversible_state).2).
Proof.
  assert (Hkeys : ledger_keys_ok (db reversible_state)).
  { split; [|split].
    - intros i action Hi. cbn in Hi.
      destruct (decide (i = 1)) as [->|Hne].
      + rewrite lookup_insert_eq in Hi. injection Hi as <-.
        split; [reflexivity|cbn; lia].
      + rewrite lookup_insert_ne in Hi by congruence. rewrite lookup_empty in Hi.
        discriminate.
    - unfold reversible_state. cbn [db function_calls next_call_id].
      repeat constructor; eexists; (split; [reflexivity|cbn; lia]).
    - cbn. repeat constructor; set_unfold; intros H;
        repeat (destruct H as [H|H]; [discriminate|]); exact H. }
  split; [exact Hkeys|].
  destruct (ledger_keys_stay_unique sample_world 7 "" "file the report" 1 "mistake"
              reversible_state Hkeys)
    as (Hexecuted & _ & _ & Hreverted & _).
  split; [exact Hexecuted|exact Hreverted].
Defined.

Lemma rollback_is_not_repeated_witness :
  let st' := (Agent.rollback_action sample_world 7 1 "mistake" reversible_state).2 in
  Agent.rollback_action sample_world 7 1 "again" st'
  = (Ok {| success := false;
           message := "Action already rolled back";
           data := None; action_id := None; rollback_available := false |},
     st').
Proof.
  apply (rollback_is_not_repeated sample_world 7 1 "mistake" "again" reversible_state
           reversible_action).
  - reflexivity.
  - reflexivity.
  - discriminate.
Defined.

Lemma execute_command_never_compensates_witness :
  exists events,
    history (Agent.execute_command sample_world 7 "" "file the report" initial_state).2
    = history initial_state ++ events
    /\ (forall service method kwargs,
          In (AdapterCall service method kwargs) events ->
          In (service, method)
             [(SLACK, "get_messages"); (JIRA, "create_ticket");
              (AWS_S3, "upload_content"); (GITHUB, "search_repositories")]%string)
    /\ (length (adapter_calls events) <= length sample_plan)%nat.
Proof.
  destruct (execute_command_never_compensates sample_world 7 "" "file the report"
              initial_state) as (events & Hhistory & Hforward & Hcount).
  exists events. split; [exact Hhistory|]. split; [exact Hforward|exact Hcount].
Defined.

Lemma adapter_calls_match_signatures_witness :
  exists rows events,
    history (Agent.execute_command sample_world 7 "" "file the report" initial_state).2
    = history initial_state ++ events
    /\ function_calls
         (db (Agent.execute_command sample_world 7 "" "file the report" initial_state).2)
       = function_calls (db initial_state) ++ rows
    /\ (forall service method kwargs,
          In (AdapterCall service method kwargs) events ->
          accepted service method kwargs = true)
    /\ Forall (fun row =>
                 is_Some (FunctionCall.rollback_function row) ->
                 FunctionCall.status row = COMPLETED
                 /\ exists service method kwargs,
                      compensation_request row = Ok (service, method, kwargs)
                      /\ accepted service method kwargs = true
                      /\ forall st' : State unit,
                           history (Agent.rollback_call sample_world row st').2
                           = history st' ++ [AdapterCall service method kwargs])
              rows.
Proof.
  exact (adapter_calls_match_signatures sample_world 7 "" "file the report"
           initial_state).
Defined.

(** ** Disconnecting a service *)

Section Disconnecting.

Import Connections.

(** The row that the query of [disconnect_service] finds and the table after
    the row has been deactivated. *)
Lemma deactivate_first_found (p : ServiceConnection -> bool)
    (connections : list ServiceConnection) (c : ServiceConnection) :
  List.find p connections = Some c ->
  exists before after,
    connections = before ++ c :: after
    /\ Forall (fun c' => p c' = false) before
    /\ p c = true
    /\ deactivate_first p connections = before ++ set_is_active false c :: after.
Proof.
  induction connections as [|c' connections IH]; [discriminate|].
  cbn. destruct (p c') eqn:Hp.
  - intros [= ->]. exists [], connections. repeat split; [constructor|exact Hp].
  - intros Hfind. destruct (IH Hfind) as (before & after & -> & Hbefore & Hc & Hde).
    exists (c' :: before), after. rewrite Hde.
    repeat split; [constructor; assumption|exact Hc].
Qed.

Lemma revoke_token_requests (post : Http) (service token : string) :
  (revoke_token post service token).2 = (revoke_token (fun _ => true) service token).2
  /\ (length (revoke_token post service token).2 <= 1)%nat
  /\ (service = "github"%string -> revoke_token post service token = (true, []))
  /\ (~ In service ["slack"; "jira"; "github"]%string ->
      revoke_token post service token = (false, []))
  /\ forall request,
       In request (revoke_token post service token).2 ->
       (revoke_token post service token).1 = post request
       /\ ((service = "slack"%string
            /\ headers request = [("Authorization", "Bearer " ++ token)]%string
            /\ form request = [])
           \/ (service = "jira"%string
               /\ headers request = []
               /\ form request = [("token", token)])).
Proof.
  unfold revoke_token, revoke_urls. cbn [lookup_url].
  destruct (String.eqb "slack" service) eqn:E1.
  { apply String.eqb_eq in E1. subst. cbn. repeat split; try (lia || discriminate).
    - intros Hn. exfalso. apply Hn. known_name.
    - destruct H as [<-|[]]. reflexivity.
    - destruct H as [<-|[]]. left. repeat split. }
  destruct (String.eqb "jira" service) eqn:E2.
  { apply String.eqb_eq in E2. subst. cbn. repeat split; try (lia || discriminate).
    - intros Hn. exfalso. apply Hn. known_name.
    - destruct H as [<-|[]]. reflexivity.
    - destruct H as [<-|[]]. right. repeat split. }
  destruct (String.eqb "github" service) eqn:E3.
  { apply String.eqb_eq in E3. subst. cbn. repeat split; try (lia || discriminate);
      try contradiction.
    intros Hn. exfalso. apply Hn. known_name. }
  cbn. repeat split; try lia; try contradiction.
  intros ->. discriminate.
Qed.

(** X19.  Disconnecting deactivates the connection whatever the revocation
    gives.  When the user has an active connection to the service,
    [disconnect_service] answers with the success message and deactivates
    the first such row, keeping every other row and the stored access token
    as they are; the table and the answer are the same for a provider that
    refuses the revocation as for one that accepts it.  At most one request
    is sent, carrying the stored token (in the Authorization header for
    Slack, in the form data for Jira), and none for GitHub, which has no
    revoke endpoint.  Without an active connection the answer is the 404
    exception, nothing is sent and nothing changes. *)
Theorem disconnect_deactivates_whatever_revocation_gives
    (post : Http) (service : string) (current_user : Z)
    (connections : list ServiceConnection) :
  (forall connection,
     List.find (active_connection current_user service) connections = Some connection ->
     exists before after requests,
       connections = before ++ connection :: after
       /\ Forall (fun c => active_connection current_user service c = false) before
       /\ disconnect_service post service current_user connections
          = (inr [("message", JStr (service ++ " disconnected successfully")%string)],
             before ++ set_is_active false connection :: after,
             requests)
       /\ access_token (set_is_active false connection) = access_token connection
       /\ is_active (set_is_active false connection) = false
       /\ (forall post',
             disconnect_service post' service current_user connections
             = disconnect_service post service current_user connections)
       /\ (length requests <= 1)%nat
       /\ (service = "github"%string -> requests = [])
       /\ (forall request,
             In request requests ->
             In ("Authorization", "Bearer " ++ access_token connection)%string
                (headers request)
             \/ In ("token", access_token connection) (form request)))
  /\ (List.find (active_connection current_user service) connections = None ->
      disconnect_service post service current_user connections
      = (inl {| status_code := 404; detail := "Service connection not found" |},
         connections, [])).
Proof.
  split.
  - intros connection Hfind.
    destruct (deactivate_first_found _ _ _ Hfind)
      as (before & after & Hsplit & Hbefore & _ & Hde).
    destruct (revoke_token_requests post service (access_token connection))
      as (Hsame & Hlen & Hgithub & _ & Hshape).
    exists before, after, (revoke_token post service (access_token connection)).2.
    split; [exact Hsplit|]. split; [exact Hbefore|].
    split; [|split; [destruct connection; reflexivity|]].
    { unfold disconnect_service. rewrite Hfind, Hde.
      destruct (revoke_token post service (access_token connection)). reflexivity. }
    split; [destruct connection; reflexivity|].
    split; [|split; [exact Hlen|split]].
    + intros post'. unfold disconnect_service. rewrite Hfind.
      destruct (revoke_token_requests post' service (access_token connection))
        as (Hsame' & _).
      destruct (revoke_token post service (access_token connection)) as [b rs].
      destruct (revoke_token post' service (access_token connection)) as [b' rs'].
      cbn in Hsame, Hsame'. rewrite Hsame, Hsame'. reflexivity.
    + intros Hg. rewrite (Hgithub Hg). reflexivity.
    + intros request Hin. destruct (Hshape request Hin) as [_ [(_ & Hh & _)|(_ & _ & Hf)]].
      * left. rewrite Hh. left. reflexivity.
      * right. rewrite Hf. left. reflexivity.
  - intros Hfind. unfold disconnect_service. rewrite Hfind. reflexivity.
Qed.

Lemma find_none_filter (p : ServiceConnection -> bool)
    (connections : list ServiceConnection) :
  List.find p connections = None <-> Forall (fun c => p c = false) connections.
Proof.
  induction connections as [|c connections IH]; cbn.
  - split; [constructor|reflexivity].
  - destruct (p c) eqn:Hp.
    + split; [discriminate|]. intros H. inversion H; congruence.
    + rewrite IH. split; [constructor; assumption|]. intros H. inversion H; assumption.
Qed.

(** X20.  A disconnected service is gone from the user's services.  In a
    table where no user has two active connections to one service, after
    [disconnect_service] has deactivated the connection the user's list of
    services has no entry for the service, a second [disconnect_service]
    raises the 404 exception without sending anything, and the services of
    that user other than this one, like the services of every other user,
    are listed as before. *)
Theorem disconnected_service_is_not_listed
    (post : Http) (service : string) (current_user : Z)
    (connections : list ServiceConnection) (connection : ServiceConnection) :
  one_connection_per_service connections ->
  List.find (active_connection current_user service) connections = Some connection ->
  let connections' := (disconnect_service post service current_user connections).1.2 in
  Forall (fun c => service_name c <> service)
         (get_user_services current_user connections')
  /\ (forall post',
        disconnect_service post' service current_user connections'
        = (inl {| status_code := 404; detail := "Service connection not found" |},
           connections', []))
  /\ get_user_services current_user connections'
     = List.filter (fun c => negb (String.eqb (service_name c) service))
         (get_user_services current_user connections)
  /\ (forall user, user <> current_user ->
        get_user_services user connections' = get_user_services user connections).
Proof.
  intros Hone Hfind connections'.
  destruct (deactivate_first_found _ _ _ Hfind)
    as (before & after & Hsplit & Hbefore & Hc & Hde).
  assert (Hcon : connections' = before ++ set_is_active false connection :: after).
  { subst connections'. unfold disconnect_service. rewrite Hfind.
    destruct (revoke_token post service (access_token connection)).
    cbn. exact Hde. }
  assert (Hafter : Forall (fun c => active_connection current_user service c = false)
                          after).
  { apply Forall_forall. intros c Hin.
    destruct (active_connection current_user service c) eqn:Hp; [|reflexivity].
    exfalso. apply list_elem_of_lookup in Hin. destruct Hin as [k Hk].
    unfold active_connection in Hp, Hc.
    apply andb_prop in Hp. destruct Hp as [Hp Hact]. apply andb_prop in Hp.
    destruct Hp as [Hu Hs]. apply Z.eqb_eq in Hu. apply String.eqb_eq in Hs.
    apply andb_prop in Hc. destruct Hc as [Hc Hact']. apply andb_prop in Hc.
    destruct Hc as [Hu' Hs']. apply Z.eqb_eq in Hu'. apply String.eqb_eq in Hs'.
    assert (Hi : connections !! length before = Some connection).
    { rewrite Hsplit. rewrite lookup_app_r by lia. rewrite Nat.sub_diag. reflexivity. }
    assert (Hj : connections !! (length before + S k)%nat = Some c).
    { rewrite Hsplit. rewrite lookup_app_r by lia.
      replace (length before + S k - length before)%nat with (S k) by lia.
      exact Hk. }
    assert (Hsame : length before = (length before + S k)%nat).
    { apply (Hone _ _ _ _ Hi Hj Hact' Hact); congruence. }
    lia. }
  assert (Hall : Forall (fun c => active_connection current_user service c = false)
                        connections').
  { rewrite Hcon. apply Forall_app. split; [exact Hbefore|].
    constructor; [|exact Hafter].
    destruct connection. unfold active_connection. cbn. apply andb_false_r. }
  assert (Hlisted : forall l,
            Forall (fun c => active_connection current_user service c = false) l ->
            List.filter (fun c => negb (String.eqb (service_name c) service))
              (get_user_services current_user l)
            = get_user_services current_user l).
  { intros l Hl. unfold get_user_services. induction Hl as [|c l Hc' _ IH]; [reflexivity|].
    cbn. destruct (Z.eqb (user_id c) current_user && is_active c) eqn:E; [|exact IH].
    cbn. unfold active_connection in Hc'.
    apply andb_prop in E. destruct E as [E1 E2]. rewrite E1, E2 in Hc'.
    rewrite andb_true_r in Hc'. cbn in Hc'. rewrite Hc'. cbn. rewrite IH. reflexivity. }
  split; [|split; [|split]].
  - rewrite <- (Hlisted _ Hall). apply Forall_forall. intros c Hin.
    apply list_elem_of_In, List.filter_In in Hin. destruct Hin as [_ Hne].
    intros Heq. rewrite Heq, String.eqb_refl in Hne. discriminate.
  - intros post'. apply find_none_filter in Hall.
    unfold disconnect_service. rewrite Hall. reflexivity.
  - rewrite Hcon, Hsplit. unfold get_user_services.
    rewrite !List.filter_app.
    unfold active_connection in Hc.
    apply andb_prop in Hc. destruct Hc as [Hc Hact]. apply andb_prop in Hc.
    destruct Hc as [Hu Hs]. destruct connection. cbn in Hu, Hs, Hact. cbn.
    rewrite Hu, Hact. cbn. rewrite Hs. cbn.
    fold (get_user_services current_user before).
    fold (get_user_services current_user after).
    rewrite (Hlisted _ Hbefore), (Hlisted _ Hafter). reflexivity.
  - intros user Hne. rewrite Hcon, Hsplit. unfold get_user_services.
    rewrite !List.filter_app. cbn.
    unfold active_connection in Hc.
    apply andb_prop in Hc. destruct Hc as [Hc Hact]. apply andb_prop in Hc.
    destruct Hc as [Hu Hs]. apply Z.eqb_eq in Hu. destruct connection. cbn in *.
    subst. replace (Z.eqb current_user user) with false
      by (symmetry; apply Z.eqb_neq; congruence).
    reflexivity.
Qed.

End Disconnecting.

Lemma disconnect_deactivates_whatever_revocation_gives_witness :
  Connections.disconnect_service (fun _ => true) "slack" 7 sample_connections
  = Connections.disconnect_service refusing_http "slack" 7 sample_connections
  /\ Connections.disconnect_service refusing_http "aws" 7 sample_connections
     = (inl {| Connections.status_code := 404;
               Connections.detail := "Service connection not found" |},
        sample_connections, []).
Proof.
  destruct (disconnect_deactivates_whatever_revocation_gives refusing_http "slack" 7
              sample_connections) as [Hfound _].
  destruct (disconnect_deactivates_whatever_revocation_gives refusing_http "aws" 7
              sample_connections) as [_ Hmissing].
  destruct (Hfound (connection_of 1 7 "slack" "xoxb-7") eq_refl)
    as (before & after & requests & _ & _ & _ & _ & _ & Hindependent & _).
  split; [apply Hindependent|apply Hmissing; reflexivity].
Defined.

Lemma disconnected_service_is_not_listed_witness :
  Connections.get_user_services 7
    (Connections.disconnect_service refusing_http "slack" 7 sample_connections).1.2
  = List.filter
      (fun c => negb (String.eqb (Connections.service_name c) "slack"))
      (Connections.get_user_services 7 sample_connections).
Proof.
  destruct (disconnected_service_is_not_listed refusing_http "slack" 7
              sample_connections (connection_of 1 7 "slack" "xoxb-7"))
    as (_ & _ & Hlisted & _).
  - intros i j ci cj Hi Hj _ _ Huser Hservice.
    destruct i as [|[|[|i]]]; destruct j as [|[|[|j]]]; cbn in Hi, Hj;
      try discriminate; try reflexivity;
      injection Hi as <-; injection Hj as <-; discriminate.
  - reflexivity.
  - exact Hlisted.
Defined.

(** ** Function calls in the answer of the language model *)

Section SimulatedCalls.

Import GenericOpenAIClient.

Variable strip : string -> string.
Variable json_loads : string -> Result Json.

(** The text up to and including the first closing brace. *)
Lemma slice_to_first_brace (s : string) (k : nat) :
  py_find "}" s = Some k ->
  exists body,
    slice_to (k + 1) s = (body ++ "}")%string
    /\ occurs "}" body = false
    /\ String.length body = k.
Proof.
  unfold py_find, slice_to. revert k.
  induction s as [|c s IH]; intros k; [discriminate|].
  cbn [String.index].
  assert (Hp : String.prefix "}" (String c s)
               = if ascii_dec "}" c then true else false).
  { change (String.prefix "}" (String c s))
      with (if ascii_dec "}" c then String.prefix "" s else false).
    destruct (ascii_dec "}" c); [destruct s; reflexivity|reflexivity]. }
  rewrite Hp. clear Hp.
  destruct (ascii_dec "}" c) as [<-|Hne].
  - intros [= <-]. exists EmptyString. cbn. destruct s; repeat split.
  - destruct (String.index 0 "}" s) as [n|] eqn:E; [|discriminate].
    intros [= <-]. destruct (IH n eq_refl) as (body & Hbody & Hocc & Hlen).
    exists (String c body). cbn [Nat.add String.substring]. rewrite Hbody.
    split; [reflexivity|]. split; [|cbn; rewrite Hlen; reflexivity].
    cbn. rewrite Hocc. rewrite orb_false_r. apply Ascii.eqb_neq. congruence.
Qed.

Lemma length_append_brace (body : string) :
  String.length (body ++ "}")%string = (String.length body + 1)%nat.
Proof.
  induction body as [|c body IH]; [reflexivity|].
  change (S (String.length (body ++ "}")%string) = S (String.length body + 1)).
  rewrite IH. reflexivity.
Qed.

Lemma prefix_slice_to (s : string) (k : nat) :
  String.prefix "{" s = true -> String.prefix "{" (slice_to (k + 1) s) = true.
Proof.
  unfold slice_to. destruct s as [|c s]; [discriminate|].
  rewrite Nat.add_1_r.
  change (String.prefix "{" (String c s))
    with (if ascii_dec "{" c then String.prefix "" s else false).
  change (String.prefix "{" (String.substring 0 (S k) (String c s)))
    with (if ascii_dec "{" c then String.prefix "" (String.substring 0 k s) else false).
  destruct (ascii_dec "{" c); [|discriminate].
  intros _. destruct (String.substring 0 k s); reflexivity.
Qed.

(** X21.  A function call written into the text of an answer is read up to
    the first closing brace.  [_parse_function_calls_from_content] returns
    at most one call, and none when the text has no marker; a call that it
    returns was decoded from the text that follows the first marker, once
    stripped, cut after its first closing brace: a text that starts with an
    opening brace and has its only closing brace at the end.  So a call
    whose arguments are written as a closed object is never decoded as
    written. *)
Theorem simulated_call_ends_at_first_brace (content : string) :
  (length (_parse_function_calls_from_content strip json_loads content) <= 1)%nat
  /\ (py_find marker content = None ->
      _parse_function_calls_from_content strip json_loads content = [])
  /\ (forall parsed,
        In parsed (_parse_function_calls_from_content strip json_loads content) ->
        exists call_start body,
          py_find marker content = Some call_start
          /\ String.prefix (body ++ "}")
               (strip (slice_from (call_start + 14) content)) = true
          /\ String.prefix "{" (body ++ "}") = true
          /\ occurs "}" body = false
          /\ json_loads (body ++ "}")%string = Ok parsed).
Proof.
  unfold _parse_function_calls_from_content.
  destruct (py_find marker content) as [call_start|]; [|cbn; split; [lia|split; [first [discriminate|intros _; reflexivity]|intros ? []]]].
  set (call_content := strip (slice_from (call_start + 14) content)).
  destruct (String.prefix "{" call_content) eqn:Hopen;
    [|cbn; split; [lia|split; [first [discriminate|intros _; reflexivity]|intros ? []]]].
  destruct (py_find "}" call_content) as [end_brace|] eqn:Hclose;
    [|cbn; split; [lia|split; [first [discriminate|intros _; reflexivity]|intros ? []]]].
  destruct (slice_to_first_brace _ _ Hclose) as (body & Hbody & Hocc & Hlen).
  pose proof (prefix_slice_to call_content end_brace Hopen) as Hopen'.
  rewrite Hbody in Hopen'. rewrite Hbody.
  destruct (json_loads (body ++ "}")%string) as [parsed|e] eqn:Hloads;
    [|cbn; split; [lia|split; [first [discriminate|intros _; reflexivity]|intros ? []]]].
  cbn. split; [lia|]. split; [discriminate|].
  intros p [<-|[]]. exists call_start, body.
  split; [reflexivity|]. split; [|repeat split; assumption].
  apply String.prefix_correct. rewrite <- Hbody. unfold slice_to.
  assert (Hl : String.length (String.substring 0 (end_brace + 1) call_content)
               = (end_brace + 1)%nat).
  { fold (slice_to (end_brace + 1) call_content). rewrite Hbody.
    rewrite length_append_brace, Hlen. reflexivity. }
  rewrite Hl. reflexivity.
Qed.

(** X22.  A completion yields at most one function call.  When
    [chat_completion] returns, the function calls of its response are the
    native call of the message, with its arguments decoded, or else what
    [_parse_function_calls_from_content] finds in the content, and that only
    when functions were offered; the content is the one of the message
    (empty when it has none), cut before the marker and stripped exactly
    when a call was found in it.  A native call whose arguments cannot be
    decoded makes the completion raise. *)
Theorem completion_yields_at_most_one_call
    (functions : list Json) (create : Result ChatMessage) :
  (forall content function_calls,
     chat_completion strip json_loads functions create = Ok (content, function_calls) ->
     (length function_calls <= 1)%nat
     /\ exists message,
          create = Ok message
          /\ match function_call message with
             | Some call =>
                 content = default "" (message_content message)
                 /\ exists arguments,
                      json_loads (function_arguments call) = Ok arguments
                      /\ function_calls
                         = [JDict [("name", JStr (function_name call));
                                   ("arguments", arguments)]]
             | None =>
                 (function_calls = []
                  /\ content = default "" (message_content message))
                 \/ (function_calls <> []
                     /\ functions <> []
                     /\ function_calls
                        = _parse_function_calls_from_content strip json_loads
                            (default "" (message_content message))
                     /\ exists call_start,
                          py_find marker (default "" (message_content message))
                          = Some call_start
                          /\ content
                             = strip (slice_to call_start
                                        (default "" (message_content message))))
             end)
  /\ (forall message call e,
        create = Ok message ->
        function_call message = Some call ->
        json_loads (function_arguments call) = Raise e ->
        chat_completion strip json_loads functions create = Raise e).
Proof.
  split.
  - intros content function_calls Hrun. unfold chat_completion in Hrun.
    destruct create as [message|e]; [|discriminate].
    destruct (function_call message) as [call|] eqn:Hcall.
    + destruct (json_loads (function_arguments call)) as [arguments|e] eqn:Hloads;
        [|discriminate].
      injection Hrun as <- <-. split; [cbn; lia|].
      exists message. split; [reflexivity|]. rewrite Hcall.
      split; [reflexivity|]. exists arguments. split; [exact Hloads|reflexivity].
    + destruct (simulated_call_ends_at_first_brace
                  (default "" (message_content message))) as (Hlen & Hnone & _).
      destruct (negb (Nat.eqb (length functions) 0)) eqn:Hfun; cbn [andb] in Hrun.
      2:{ injection Hrun as <- <-. split; [cbn; lia|].
          exists message. split; [reflexivity|]. rewrite Hcall. left. split; reflexivity. }
      case_bool_decide as Hmark.
      2:{ injection Hrun as <- <-. split; [cbn; lia|].
          exists message. split; [reflexivity|]. rewrite Hcall. left. split; reflexivity. }
      destruct Hmark as [call_start Hstart].
      destruct (_parse_function_calls_from_content strip json_loads
                  (default "" (message_content message))) as [|parsed rest] eqn:Hparse.
      * injection Hrun as <- <-. split; [cbn; lia|].
        exists message. split; [reflexivity|]. rewrite Hcall. left. split; reflexivity.
      * injection Hrun as <- <-. split; [exact Hlen|].
        exists message. split; [reflexivity|]. rewrite Hcall. right.
        split; [discriminate|]. split.
        { intros ->. discriminate. }
        split; [symmetry; exact Hparse|]. exists call_start. split; [exact Hstart|].
        rewrite Hstart. reflexivity.
  - intros message call e -> Hcall Hloads. unfold chat_completion.
    rewrite Hcall, Hloads. reflexivity.
Qed.

End SimulatedCalls.

Lemma simulated_call_ends_at_first_brace_witness :
  GenericOpenAIClient._parse_function_calls_from_content (fun s => s)
    sample_json_loads sample_answer = [JDict []]
  /\ exists call_start body,
       GenericOpenAIClient.py_find GenericOpenAIClient.marker sample_answer
       = Some call_start
       /\ String.prefix (body ++ "}")
            (GenericOpenAIClient.slice_from (call_start + 14) sample_answer) = true
       /\ String.prefix "{" (body ++ "}") = true
       /\ occurs "}" body = false
       /\ sample_json_loads (body ++ "}")%string = Ok (JDict []).
Proof.
  split; [reflexivity|].
  destruct (simulated_call_ends_at_first_brace (fun s => s) sample_json_loads
              sample_answer) as (_ & _ & Hparsed).
  apply (Hparsed (JDict [])). left. reflexivity.
Defined.

Lemma completion_yields_at_most_one_call_witness :
  (length [JDict []] <= 1)%nat
  /\ GenericOpenAIClient.chat_completion (fun s => s) sample_json_loads
       _build_function_definitions
       (Ok {| GenericOpenAIClient.message_content := None;
              GenericOpenAIClient.function_call :=
                Some {| GenericOpenAIClient.function_name := "upload_to_s3";
                        GenericOpenAIClient.function_arguments := "{" |} |})
     = Raise (ValueError "Expecting value").
Proof.
  destruct (completion_yields_at_most_one_call (fun s => s) sample_json_loads
              _build_function_definitions
              (Ok {| GenericOpenAIClient.message_content := Some sample_answer;
                     GenericOpenAIClient.function_call := None |}))
    as [Hreturned _].
  destruct (completion_yields_at_most_one_call (fun s => s) sample_json_loads
              _build_function_definitions
              (Ok {| GenericOpenAIClient.message_content := None;
                     GenericOpenAIClient.function_call :=
                       Some {| GenericOpenAIClient.function_name := "upload_to_s3";
                               GenericOpenAIClient.function_arguments := "{" |} |}))
    as [_ Hraised].
  split.
  - apply (Hreturned "I will do it. "%string [JDict []]). reflexivity.
  - eapply Hraised; reflexivity.
Defined.

(** ** Batches of user identifiers *)

Section UserBatches.

Import Slack.

Variable get : list string -> string -> Result Json.

Lemma batches_upto (user_ids : list string) (m : nat) :
  concat (batch user_ids <$> ((fun k => k * 50)%nat <$> seq 0 m))
  = take (m * 50) user_ids.
Proof.
  induction m as [|m IH]; [reflexivity|].
  rewrite seq_S, !fmap_app, concat_app, IH. cbn.
  rewrite app_nil_r. unfold batch. rewrite take_take_drop.
  f_equal. lia.
Qed.

Lemma batches_cover (n : nat) : (n <= (n + 49) / 50 * 50)%nat.
Proof.
  pose proof (Nat.mul_succ_div_gt (n + 49) 50 ltac:(lia)). lia.
Qed.

Lemma batch_start_inside (n k : nat) : (k < (n + 49) / 50)%nat -> (k * 50 < n)%nat.
Proof.
  intros Hk. pose proof (Nat.Div0.mul_div_le (n + 49) 50). nia.
Qed.

Lemma set_item_length (user_info : list (Json * Dict)) (key : Json) (value : Dict) :
  (length (set_item user_info key value) <= S (length user_info))%nat.
Proof.
  induction user_info as [|[k v] user_info IH]; cbn; [lia|].
  destruct (key_eqb k key); cbn; lia.
Qed.

Lemma record_user_length (data : Json) (user_info user_info' : list (Json * Dict)) :
  record_user data user_info = Ok user_info' ->
  (length user_info' <= S (length user_info))%nat.
Proof.
  unfold record_user. intros H.
  repeat (case_match; try discriminate); simplify_eq; try lia.
  apply set_item_length.
Qed.

Lemma users_loop_run (todo : list (list string)) (sent : list string)
    (user_info : list (Json * Dict)) :
  (exists done rest,
     todo = done ++ rest
     /\ (users_loop get todo sent user_info).2 = sent ++ (String.concat "," <$> done))
  /\ forall user_info',
       (users_loop get todo sent user_info).1 = Ok user_info' ->
       (users_loop get todo sent user_info).2 = sent ++ (String.concat "," <$> todo)
       /\ (length user_info' <= length user_info + length todo)%nat.
Proof.
  revert sent user_info. induction todo as [|ids todo IH]; intros sent user_info.
  - cbn. split.
    + exists [], []. split; [reflexivity|]. cbn. rewrite app_nil_r. reflexivity.
    + intros ui [= <-]. rewrite app_nil_r. split; [reflexivity|lia].
  - cbn [users_loop].
    destruct (get sent (String.concat "," ids)) as [data|e].
    2:{ cbn. split; [|discriminate].
        exists [ids], todo. split; reflexivity. }
    destruct (record_user data user_info) as [ui1|e] eqn:Hrec.
    2:{ cbn. split; [|discriminate].
        exists [ids], todo. split; reflexivity. }
    destruct (IH (sent ++ [String.concat "," ids]) ui1) as [(done & rest & Hsplit & Hlog) Hok].
    split.
    + exists (ids :: done), rest. split; [cbn; congruence|].
      rewrite Hlog. cbn. rewrite <- (assoc_L (++)). reflexivity.
    + intros ui' Hrun. destruct (Hok ui' Hrun) as [Hlog' Hlen].
      split.
      * rewrite Hlog'. cbn. rewrite <- (assoc_L (++)). reflexivity.
      * pose proof (record_user_length _ _ _ Hrec). cbn. lia.
Qed.

(** X23.  [_get_users_info] asks for the users in batches of fifty and
    keeps at most one user per batch.  The batches are the identifiers in
    order, each with one to fifty of them, so there is one request for every
    fifty identifiers begun; the requests go out in order, each with the
    identifiers of its batch joined by commas, and stop at the first one
    that fails, which makes the whole call fail.  An answer adds at most one
    entry, so the information returned has at most as many entries as there
    were requests: for up to fifty users, at most one. *)
Theorem users_info_one_entry_per_batch (user_ids : list string) :
  concat (batches user_ids) = user_ids
  /\ Forall (fun ids => (1 <= length ids <= 50)%nat) (batches user_ids)
  /\ length (batches user_ids) = ((length user_ids + 49) / 50)%nat
  /\ (exists done rest,
        batches user_ids = done ++ rest
        /\ (_get_users_info get user_ids).2 = String.concat "," <$> done)
  /\ (forall user_info,
        (_get_users_info get user_ids).1 = Ok user_info ->
        (_get_users_info get user_ids).2 = String.concat "," <$> batches user_ids
        /\ (length user_info <= length (batches user_ids))%nat
        /\ ((length user_ids <= 50)%nat -> (length user_info <= 1)%nat)).
Proof.
  assert (Hcount : length (batches user_ids) = ((length user_ids + 49) / 50)%nat).
  { unfold batches, batch_starts. rewrite !length_fmap, length_seq. reflexivity. }
  split; [|split; [|split; [exact Hcount|split]]].
  - unfold batches, batch_starts. rewrite batches_upto.
    apply take_ge, batches_cover.
  - unfold batches, batch_starts. apply Forall_fmap, Forall_fmap, Forall_forall.
    intros k Hk. apply elem_of_seq in Hk. cbn. unfold batch.
    pose proof (batch_start_inside (length user_ids) k ltac:(lia)) as Hin.
    rewrite length_take, length_drop. lia.
  - destruct (users_loop_run (batches user_ids) [] []) as [(done & rest & Hsplit & Hlog) _].
    exists done, rest. split; [exact Hsplit|exact Hlog].
  - intros user_info Hrun.
    destruct (users_loop_run (batches user_ids) [] []) as [_ Hok].
    destruct (Hok user_info Hrun) as [Hlog Hlen].
    split; [exact Hlog|]. split; [exact Hlen|].
    intros Hfew. rewrite Hcount in Hlen. cbn [length Nat.add] in Hlen.
    assert (((length user_ids + 49) / 50 < 2)%nat); [|lia].
    apply Nat.Div0.div_lt_upper_bound. lia.
Qed.

End UserBatches.

Lemma users_info_one_entry_per_batch_witness :
  (Slack._get_users_info one_user_answer ["U1"; "U2"; "U3"]).2 = ["U1,U2,U3"]
  /\ (length [(JStr "U1", [("real_name", JStr "Ada"); ("display_name", JStr "");
                           ("email", JStr "")])] <= 1)%nat.
Proof.
  destruct (users_info_one_entry_per_batch one_user_answer ["U1"; "U2"; "U3"])
    as (_ & _ & _ & _ & Hreturned).
  destruct (Hreturned [(JStr "U1", [("real_name", JStr "Ada"); ("display_name", JStr "");
                                    ("email", JStr "")])] eq_refl)
    as (Hlog & _ & Hfew).
  split; [exact Hlog|]. apply Hfew. cbn. lia.
Defined.
